(** * Academic ledger of the university administration application

    A shallow embedding of the enrollment, capacity, prerequisite, finance and
    progress logic of [core/models.py] and [core/views.py], with the
    properties of the ledger stated and proved over it.

    Conventions of the embedding:
    - a database table whose rows are fetched and written by primary key
      ([CourseOffering], [Enrollment]) is a finite map from primary keys to
      rows; a queryset over it is the list of its rows;
    - [FinanceRecord] is kept as a list in primary-key order
      ([Meta.ordering = ['id']]); the primary key of a row is its position;
    - rows that the modelled operations only read through a foreign key
      ([Program], [Course], [Semester]) are reached through total lookups:
      the database's referential integrity makes the dereference total;
    - [DecimalField] amounts with two decimal places are integers counting
      hundredths, and a value that needs more digits than its column
      declares is refused when the row is written; the fees of a program
      are computed in Python's decimal context of 28 significant digits;
      [DateField] values are the day numbers of [date.toordinal];
    - [CharField] values, also those with [choices], are strings, as the
      database stores them;
    - a Python [int] is an integer, a Python [float] a binary64 number with
      the arithmetic of the standard library's IEEE 754 model. *)

From Stdlib Require Import ZArith QArith Qabs Qpower Lqa String SpecFloat.
From stdpp Require Import gmap strings list fin_maps sorting.

Open Scope Z_scope.

(** ** core/models.py *)

(** The number of decimal digits of a positive integer. *)
Fixpoint digits_fuel (fuel : nat) (n : Z) : Z :=
  match fuel with
  | O => 0
  | S fuel => if bool_decide (n < 10) then 1 else 1 + digits_fuel fuel (n / 10)
  end.

Definition digits (n : Z) : Z := digits_fuel (S (Z.to_nat (Z.log2 n))) n.

(** [n / d] rounded to the nearest integer, a half to the even neighbour. *)
Definition round_half_even (n d : Z) : Z :=
  let q := n / d in
  let r := n mod d in
  if bool_decide (2 * r < d) then q
  else if bool_decide (d < 2 * r) then q + 1
  else if Z.even q then q else q + 1.

(** The result of an arithmetic operation on [Decimal] values, in Python's
    default decimal context ([prec=28], [ROUND_HALF_EVEN]): the exact result
    when it has at most 28 significant digits, and otherwise the exact
    result rounded to 28 significant digits. *)
Definition Decimal_context (value : Z) : Z :=
  if bool_decide (Z.abs value < 10 ^ 28) then value
  else
    let unit := 10 ^ (digits (Z.abs value) - 28) in
    Z.sgn value * (round_half_even (Z.abs value) unit * unit).

Module Program.
Record t := mk {
  duration : Z;
  total_credits : Z;
  tuition_fee : Z;
  registration_fee : Z;
  exam_fee : Z;
  other_fees : Z
}.

Definition total_fee_per_semester (self : t) : Z :=
  Decimal_context (Decimal_context (tuition_fee self + exam_fee self) + other_fees self).

Definition total_program_fee (self : t) : Z :=
  Decimal_context
    (Decimal_context (total_fee_per_semester self * duration self) + registration_fee self).
End Program.

Module Course.
Record t := mk {
  code : string;
  credits : Z
}.
End Course.

Module CoursePrerequisite.
Record t := mk {
  course : nat;
  prerequisite : nat;
  is_mandatory : bool;
  minimum_grade : option string
}.
End CoursePrerequisite.

Module ProgramCurriculum.
Record t := mk {
  program : nat;
  course : nat
}.
End ProgramCurriculum.

Module Semester.
Record t := mk {
  registration_start : Z;
  registration_end : Z;
  add_drop_deadline : Z
}.
End Semester.

Module CourseOffering.
Record t := mk {
  course : nat;
  semester : nat;
  capacity : Z;
  enrolled : Z;
  is_active : bool
}.

Definition available_seats (self : t) : Z := capacity self - enrolled self.

Definition is_full (self : t) : bool := bool_decide (enrolled self >= capacity self).

(** [self.enrolled = n] on the in-memory object. *)
Definition set_enrolled (n : Z) (self : t) : t :=
  mk (course self) (semester self) (capacity self) n (is_active self).
End CourseOffering.

Module Enrollment.
Record t := mk {
  student : nat;
  course_offering : nat;
  grade : string;
  is_active : bool;
  status : string;
  credits_earned : option Z
}.

(** [Enrollment(student=..., course_offering=..., status=...)]: the other
    fields take their declared defaults. *)
Definition new (student course_offering : nat) (status : string) : t :=
  mk student course_offering EmptyString true status None.

(** [self.is_active = False; self.status = 'withdrawn'] *)
Definition withdraw (self : t) : t :=
  mk (student self) (course_offering self) (grade self) false "withdrawn"
     (credits_earned self).
End Enrollment.

Module ProgramEnrollment.
Record t := mk {
  student : nat;
  program : nat
}.
End ProgramEnrollment.

Module FinanceRecord.
Record t := mk {
  student : nat;
  program : option nat;
  transaction_type : string;
  amount : Z;
  balance_after : Z
}.

Definition TRANSACTION_TYPES : list string :=
  ["fee"; "payment"; "refund"; "adjustment"].

(** [self.balance_after = b] *)
Definition set_balance_after (b : Z) (self : t) : t :=
  mk (student self) (program self) (transaction_type self) (amount self) b.
End FinanceRecord.

(** The database the ledger works on. *)
Record DB := mkDB {
  programs : nat -> Program.t;
  courses : nat -> Course.t;
  semesters : nat -> Semester.t;
  prerequisites : list CoursePrerequisite.t;
  curriculum : list ProgramCurriculum.t;
  offerings : gmap nat CourseOffering.t;
  enrollments : gmap nat Enrollment.t;
  finance_records : list FinanceRecord.t
}.

Definition set_offerings (t : gmap nat CourseOffering.t) (db : DB) : DB :=
  mkDB (programs db) (courses db) (semesters db) (prerequisites db)
       (curriculum db) t (enrollments db) (finance_records db).

Definition set_enrollments (t : gmap nat Enrollment.t) (db : DB) : DB :=
  mkDB (programs db) (courses db) (semesters db) (prerequisites db)
       (curriculum db) (offerings db) t (finance_records db).

Definition set_finance_records (t : list FinanceRecord.t) (db : DB) : DB :=
  mkDB (programs db) (courses db) (semesters db) (prerequisites db)
       (curriculum db) (offerings db) (enrollments db) t.

(** Exceptions the modelled code can raise and no caller handles. *)
Inductive Exception :=
| IntegrityError
| NameError (name : string)
| RelatedObjectDoesNotExist
| InvalidOperation
| OverflowError
| ZeroDivisionError.

(** *** Querysets *)

Section Tables.
Context {A : Type}.

(** [Model.objects.all()]: every row of the table. *)
Definition objects (table : gmap nat A) : list A := (map_to_list table).*2.

(** The primary key the database gives to the next inserted row. *)
Definition next_pk (table : gmap nat A) : nat :=
  S (max_list (elements (dom table))).

(** [queryset.exists()] *)
Definition exists_ (queryset : list A) : bool :=
  match queryset with [] => false | _ :: _ => true end.
End Tables.

(** [Enrollment.objects] joined with the offering each row references, as the
    lookups through [course_offering__course] make the database do. *)
Definition Enrollment_objects (db : DB) : list (Enrollment.t * CourseOffering.t) :=
  omap (fun e => o ← offerings db !! Enrollment.course_offering e; Some (e, o))
       (objects (enrollments db)).

(** *** Enrollment.save *)

(** [super().save()] of an [Enrollment]: an INSERT when the instance has no
    primary key, checked against [unique_together = ['student',
    'course_offering']], an UPDATE of the row otherwise. *)
Definition Enrollment_super_save (pk : option nat) (self : Enrollment.t) (db : DB)
  : option Exception * DB :=
  match pk with
  | None =>
      if exists_ (filter (fun e => Enrollment.student e = Enrollment.student self
                                /\ Enrollment.course_offering e = Enrollment.course_offering self)
                         (objects (enrollments db)))
      then (Some IntegrityError, db)
      else (None, set_enrollments (<[next_pk (enrollments db) := self]> (enrollments db)) db)
  | Some k => (None, set_enrollments (<[k := self]> (enrollments db)) db)
  end.

(** [Enrollment.save]; [course_offering] is the in-memory object behind
    [self.course_offering]. The offering is saved before the enrollment row
    is written, each write committed on its own. *)
Definition Enrollment_save (pk : option nat) (self : Enrollment.t)
    (course_offering : CourseOffering.t) (db : DB) : option Exception * DB :=
  let db :=
    if Enrollment.is_active self && bool_decide (pk = None) then
      let course_offering :=
        CourseOffering.set_enrolled (CourseOffering.enrolled course_offering + 1)
                                    course_offering in
      set_offerings (<[Enrollment.course_offering self := course_offering]> (offerings db)) db
    else db in
  Enrollment_super_save pk self db.

(** [Enrollment.objects.create(...)]: build the instance, then [save] it. *)
Definition Enrollment_create (self : Enrollment.t) (course_offering : CourseOffering.t)
    (db : DB) : option Exception * DB :=
  Enrollment_save None self course_offering db.

(** *** ProgramEnrollment.credits_completed, progress_percentage *)

Definition Zsum (l : list Z) : Z := foldr Z.add 0 l.

(** Python's [x or y] on an optional integer: [None] and [0] are falsy. *)
Definition py_or (x : option Z) (y : Z) : Z :=
  match x with
  | Some v => if bool_decide (v = 0) then y else v
  | None => y
  end.

Definition ProgramEnrollment_credits_completed (self : ProgramEnrollment.t) (db : DB) : Z :=
  let curriculum_courses :=
    ProgramCurriculum.course <$>
      filter (fun c => ProgramCurriculum.program c = ProgramEnrollment.program self)
             (curriculum db) in
  let completed_enrollments :=
    filter (fun eo => Enrollment.student eo.1 = ProgramEnrollment.student self
                   /\ CourseOffering.course eo.2 ∈ curriculum_courses
                   /\ Enrollment.status eo.1 = "completed")
           (Enrollment_objects db) in
  Zsum ((fun eo => py_or (Enrollment.credits_earned eo.1)
                         (Course.credits (courses db (CourseOffering.course eo.2))))
          <$> completed_enrollments).

(** A Python [float]: 53 bits of precision, exponents below 1024. *)
Definition prec : Z := 53.
Definition emax : Z := 1024.

(** What an arithmetic expression of the module evaluates to. *)
Inductive Number :=
| Int (n : Z)
| Float (x : spec_float).

(** [float(n)], as [n] is converted when it meets a float in an operation:
    exact for the small constants of the module. *)
Definition float_of_int (n : Z) : spec_float := binary_normalize prec emax n 0 false.

(** [a / b] on two [int]s, Python's true division: the quotient of the
    integers rounded once, to the nearest float, ties to even. The core of
    the library's division yields the leading bits of the quotient and the
    position of the rest, which its rounding turns into a float, 0.0 on
    underflow. ZeroDivisionError when [b] is 0, OverflowError when the
    rounded quotient is too large for a float. *)
Definition int_true_divide (a b : Z) : Exception + spec_float :=
  match b with
  | 0 => inl ZeroDivisionError
  | _ =>
      match a with
      | 0 => inr (S754_zero (b <? 0))
      | _ =>
          let '(q, e, l) := SFdiv_core_binary prec emax (Z.abs a) 0 (Z.abs b) 0 in
          match binary_round_aux prec emax (xorb (a <? 0) (b <? 0)) q e l with
          | S754_infinity _ => inl OverflowError
          | x => inr x
          end
      end
  end.

(** [progress_percentage]: the int 0, or the float that the true division
    and the multiplication by 100 leave, each rounding its result. *)
Definition ProgramEnrollment_progress_percentage (self : ProgramEnrollment.t) (db : DB)
  : Exception + Number :=
  let program := programs db (ProgramEnrollment.program self) in
  if bool_decide (Program.total_credits program > 0) then
    match int_true_divide (ProgramEnrollment_credits_completed self db)
                          (Program.total_credits program) with
    | inl e => inl e
    | inr quotient => inr (Float (SFmul prec emax quotient (float_of_int 100)))
    end
  else inr (Int 0).

(** *** FinanceRecord.save *)

(** The names bound at module level of [core/models.py]: its imports and its
    classes. None of them is a Python builtin either. *)
Definition module_names : list string :=
  ["models"; "settings"; "MinValueValidator"; "MaxValueValidator"; "timezone";
   "timedelta"; "Faculty"; "Department"; "ProgramType"; "Program"; "Course";
   "CoursePrerequisite"; "ProgramCurriculum"; "Semester"; "CourseOffering";
   "Enrollment"; "ProgramEnrollment"; "FinanceRecord"; "Assignment"; "Event"].

(** Evaluating a global name inside a method of the module. *)
Definition load_global (name : string) : option Exception :=
  if bool_decide (name ∈ module_names) then None else Some (NameError name).

(** [Decimal('0.00')]: the name is looked up first. *)
Definition Decimal_0_00 : Exception + Z :=
  match load_global "Decimal" with
  | Some e => inl e
  | None => inr 0
  end.

(** [r.amount if r.transaction_type in ('payment', 'refund') else -r.amount] *)
Definition signed_amount (r : FinanceRecord.t) : Z :=
  if bool_decide (FinanceRecord.transaction_type r ∈ ["payment"; "refund"])
  then FinanceRecord.amount r
  else - FinanceRecord.amount r.

(** The rows of [FinanceRecord.objects.filter(student=..., program=...)
    .exclude(pk=pk)], in primary-key order. *)
Definition previous_payments (pk : option nat) (self : FinanceRecord.t) (db : DB)
  : list FinanceRecord.t :=
  (filter (fun ir => FinanceRecord.student ir.2 = FinanceRecord.student self
                  /\ FinanceRecord.program ir.2 = FinanceRecord.program self
                  /\ Some ir.1 <> pk)
          (imap pair (finance_records db))).*2.

(** What a [DecimalField(max_digits=10, decimal_places=2)] column takes: a
    value of at most ten digits, two of them decimals, that is, fewer than
    10^10 hundredths in magnitude. *)
Definition DecimalField_fits (value : Z) : bool := bool_decide (Z.abs value < 10 ^ 10).

(** [super().save()] of a [FinanceRecord]: the values of the two decimal
    columns are prepared for the database first (quantized to two places in
    a context of [max_digits] digits), and one that does not fit raises
    [decimal.InvalidOperation] before any row is written. Otherwise the row
    is appended, or written over the stored row [k]. *)
Definition FinanceRecord_super_save (pk : option nat) (self : FinanceRecord.t) (db : DB)
  : option Exception * DB :=
  if DecimalField_fits (FinanceRecord.amount self)
     && DecimalField_fits (FinanceRecord.balance_after self)
  then (None,
        set_finance_records
          match pk with
          | None => finance_records db ++ [self]
          | Some k => <[k := self]> (finance_records db)
          end db)
  else (Some InvalidOperation, db).

(** [FinanceRecord.save]: [pk] is [None] for a record being appended and
    [Some k] for the stored row at position [k] being saved again. The
    amounts are column values of at most ten digits: the sum of fewer than
    10^18 of them is exact in the decimal context, and so is its difference
    with the fee whenever that difference fits the column. *)
Definition FinanceRecord_save (pk : option nat) (self : FinanceRecord.t) (db : DB)
  : option Exception * DB :=
  let program_total_fee :=
    match FinanceRecord.program self with
    | Some p => inr (Program.total_program_fee (programs db p))
    | None => Decimal_0_00
    end in
  match program_total_fee with
  | inl e => (Some e, db)
  | inr program_total_fee =>
      let total_paid := Zsum (signed_amount <$> previous_payments pk self db) in
      let total_paid :=
        if bool_decide (FinanceRecord.transaction_type self ∈ ["payment"; "refund"])
        then total_paid + FinanceRecord.amount self
        else if bool_decide (FinanceRecord.transaction_type self ∈ ["fee"; "adjustment"])
        then total_paid - FinanceRecord.amount self
        else total_paid in
      let self := FinanceRecord.set_balance_after (program_total_fee - total_paid) self in
      FinanceRecord_super_save pk self db
  end.

(** ** core/views.py *)

(** What a view answers: the message it flashes, or the failure of the
    request. Only the prerequisite message keeps its course code. *)
Inductive Response :=
| Http404
| RegistrationWindowClosed
| CapacityExceeded
| DuplicateEnrollment
| MissingPrerequisite (code : string)
| DeadlinePassed
| Success
| ServerError (e : Exception).

(** The truth value of [prereq.minimum_grade]: [None] and the empty string
    are falsy. *)
Definition minimum_grade_set (prereq : CoursePrerequisite.t) : option string :=
  match CoursePrerequisite.minimum_grade prereq with
  | Some g => if bool_decide (g = EmptyString) then None else Some g
  | None => None
  end.

(** The queryset [completed] of the prerequisite loop, after the optional
    [grade__lte] filter; strings compare lexicographically. *)
Definition completed (user : nat) (prereq : CoursePrerequisite.t) (db : DB)
  : list (Enrollment.t * CourseOffering.t) :=
  let completed :=
    filter (fun eo => Enrollment.student eo.1 = user
                   /\ CourseOffering.course eo.2 = CoursePrerequisite.prerequisite prereq
                   /\ Enrollment.status eo.1 = "completed"
                   /\ Enrollment.is_active eo.1 = true)
           (Enrollment_objects db) in
  match minimum_grade_set prereq with
  | Some minimum_grade =>
      filter (fun eo => String.leb (Enrollment.grade eo.1) minimum_grade = true) completed
  | None => completed
  end.

(** The loop over [offering.course.required_prerequisites.all()]: the first
    prerequisite row that stops the registration, if any. *)
Fixpoint check_prerequisites (user : nat) (prereqs : list CoursePrerequisite.t) (db : DB)
  : option CoursePrerequisite.t :=
  match prereqs with
  | [] => None
  | prereq :: rest =>
      if negb (exists_ (completed user prereq db)) && CoursePrerequisite.is_mandatory prereq
      then Some prereq
      else check_prerequisites user rest db
  end.

Definition required_prerequisites (course : nat) (db : DB) : list CoursePrerequisite.t :=
  filter (fun p => CoursePrerequisite.course p = course) (prerequisites db).

(** [get_object_or_404(Model, id=id, ...)]: the row with this primary key,
    when it also passes the other conditions of the lookup. *)
Definition get_object_or_404 {A : Type} (table : gmap nat A) (id : nat)
    (conditions : A -> bool) : option A :=
  match table !! id with
  | Some row => if conditions row then Some row else None
  | None => None
  end.

Definition register_course (user offering_id : nat) (today : Z) (db : DB) : Response * DB :=
  match get_object_or_404 (offerings db) offering_id CourseOffering.is_active with
  | None => (Http404, db)
  | Some offering =>
      let current_semester := semesters db (CourseOffering.semester offering) in
      if bool_decide (today < Semester.registration_start current_semester) then
        (RegistrationWindowClosed, db)
      else if bool_decide (today > Semester.add_drop_deadline current_semester) then
        (RegistrationWindowClosed, db)
      else if CourseOffering.is_full offering then
        (CapacityExceeded, db)
      else if exists_ (filter (fun e => Enrollment.student e = user
                                     /\ Enrollment.course_offering e = offering_id
                                     /\ Enrollment.is_active e = true)
                              (objects (enrollments db))) then
        (DuplicateEnrollment, db)
      else
        match check_prerequisites user
                (required_prerequisites (CourseOffering.course offering) db) db with
        | Some prereq =>
            (MissingPrerequisite
               (Course.code (courses db (CoursePrerequisite.prerequisite prereq))), db)
        | None =>
            match Enrollment_create (Enrollment.new user offering_id "registered")
                                    offering db with
            | (Some e, db) => (ServerError e, db)
            | (None, db) => (Success, db)
            end
        end
  end.

Definition drop_course (user enrollment_id : nat) (today : Z) (db : DB) : Response * DB :=
  match get_object_or_404 (enrollments db) enrollment_id
          (fun e => bool_decide (Enrollment.student e = user)) with
  | None => (Http404, db)
  | Some enrollment =>
      match offerings db !! Enrollment.course_offering enrollment with
      | None => (ServerError RelatedObjectDoesNotExist, db)
      | Some offering =>
          let current_semester := semesters db (CourseOffering.semester offering) in
          if bool_decide (today > Semester.add_drop_deadline current_semester) then
            (DeadlinePassed, db)
          else
            let enrollment := Enrollment.withdraw enrollment in
            match Enrollment_save (Some enrollment_id) enrollment offering db with
            | (Some e, db) => (ServerError e, db)
            | (None, db) =>
                let offering :=
                  CourseOffering.set_enrolled (CourseOffering.enrolled offering - 1)
                                              offering in
                (Success,
                 set_offerings
                   (<[Enrollment.course_offering enrollment := offering]> (offerings db)) db)
            end
      end
  end.

(** ** The calendar: Semester.save and the registration page *)

(** A stored [Semester]: the dates that [Semester.t] holds, with the fields
    that [save], the uniqueness of [code] and [Meta.ordering] read. *)
Module SemesterRow.
Record t := mk {
  code : string;
  start_date : Z;
  is_current : bool;
  calendar : Semester.t
}.

(** [is_current = b] on a row. *)
Definition set_is_current (b : bool) (self : t) : t :=
  mk (code self) (start_date self) b (calendar self).
End SemesterRow.

(** [Semester.objects.filter(is_current=True).update(is_current=False)] *)
Definition Semester_clear_current (table : gmap nat SemesterRow.t) : gmap nat SemesterRow.t :=
  (fun row => if SemesterRow.is_current row then SemesterRow.set_is_current false row
              else row) <$> table.

(** [super().save()] of a [Semester]: the row is written under its primary
    key, a fresh one for a new instance, unless another row has its [code],
    which is declared unique. *)
Definition Semester_super_save (pk : option nat) (self : SemesterRow.t)
    (table : gmap nat SemesterRow.t) : option Exception * gmap nat SemesterRow.t :=
  if exists_ (filter (fun kr : nat * SemesterRow.t =>
                        SemesterRow.code kr.2 = SemesterRow.code self /\ Some kr.1 <> pk)
                     (map_to_list table))
  then (Some IntegrityError, table)
  else (None, <[default (next_pk table) pk := self]> table).

(** [Semester.save]: the other current semesters are reset first, in a write
    of its own. *)
Definition Semester_save (pk : option nat) (self : SemesterRow.t)
    (table : gmap nat SemesterRow.t) : option Exception * gmap nat SemesterRow.t :=
  let table := if SemesterRow.is_current self then Semester_clear_current table else table in
  Semester_super_save pk self table.

(** [Meta.ordering = ['-start_date']]: [a] may come before [b]. *)
Definition Semester_ordering (a b : nat * SemesterRow.t) : Prop :=
  SemesterRow.start_date b.2 <= SemesterRow.start_date a.2.

#[global] Instance Semester_ordering_dec a b : Decision (Semester_ordering a b).
Proof. unfold Semester_ordering. apply _. Defined.

(** [Semester.objects.filter(is_current=True).first()]; rows with the same
    start date come in the order the table lists them. *)
Definition Semester_current (table : gmap nat SemesterRow.t) : option (nat * SemesterRow.t) :=
  head (merge_sort Semester_ordering
                   (filter (fun kr : nat * SemesterRow.t => SemesterRow.is_current kr.2 = true)
                           (map_to_list table))).

(** [SemesterAdmin.registration_status], without its markup. *)
Inductive RegistrationStatus :=
| RegistrationNotStarted
| RegistrationOpen
| RegistrationClosed.

Definition registration_status (now : Z) (obj : Semester.t) : RegistrationStatus :=
  if bool_decide (now < Semester.registration_start obj) then RegistrationNotStarted
  else if bool_decide (Semester.registration_start obj <= now
                       /\ now <= Semester.registration_end obj) then RegistrationOpen
  else RegistrationClosed.

(** A stored [ProgramEnrollment]: the pair that [ProgramEnrollment.t] holds,
    with the other fields of the row. *)
Module ProgramEnrollmentRow.
Record t := mk {
  enrollment : ProgramEnrollment.t;
  enrollment_date : Z;
  expected_graduation : Z;
  is_active : bool;
  status : string;
  current_semester : Z
}.

Definition student (self : t) : nat := ProgramEnrollment.student (enrollment self).
Definition program (self : t) : nat := ProgramEnrollment.program (enrollment self).

(** [ProgramEnrollment(student=..., program=..., expected_graduation=...)]
    on day [today]: the other fields take their declared defaults. *)
Definition new (student program : nat) (expected_graduation today : Z) : t :=
  mk (ProgramEnrollment.mk student program) today expected_graduation true "active" 1.
End ProgramEnrollmentRow.

(** [Meta.ordering = ['-enrollment_date']]: [a] may come before [b]. *)
Definition ProgramEnrollment_ordering (a b : nat * ProgramEnrollmentRow.t) : Prop :=
  ProgramEnrollmentRow.enrollment_date b.2 <= ProgramEnrollmentRow.enrollment_date a.2.

#[global] Instance ProgramEnrollment_ordering_dec a b :
  Decision (ProgramEnrollment_ordering a b).
Proof. unfold ProgramEnrollment_ordering. apply _. Defined.

(** [ProgramEnrollment.objects.filter(student=user, is_active=True).first()] *)
Definition ProgramEnrollment_first_active (user : nat)
    (program_enrollments : gmap nat ProgramEnrollmentRow.t)
  : option (nat * ProgramEnrollmentRow.t) :=
  head (merge_sort ProgramEnrollment_ordering
                   (filter (fun kr : nat * ProgramEnrollmentRow.t =>
                              ProgramEnrollmentRow.student kr.2 = user
                              /\ ProgramEnrollmentRow.is_active kr.2 = true)
                           (map_to_list program_enrollments))).

(** What [course_registration] answers: a message and a redirect, or the
    page with its context. *)
Inductive RegistrationPage :=
| NoActiveSemester
| RegistrationOpensOn (registration_start : Z)
| RegistrationEnded
| NotEnrolledInProgram
| Page (current_semester program_enrollment : nat)
       (available_offerings : gmap nat CourseOffering.t)
       (enrolled_courses : list nat).

Definition course_registration (user : nat) (today : Z)
    (semester_table : gmap nat SemesterRow.t)
    (program_enrollments : gmap nat ProgramEnrollmentRow.t) (db : DB) : RegistrationPage :=
  match Semester_current semester_table with
  | None => NoActiveSemester
  | Some (semester_id, current_semester) =>
      let calendar := SemesterRow.calendar current_semester in
      if bool_decide (today < Semester.registration_start calendar) then
        RegistrationOpensOn (Semester.registration_start calendar)
      else if bool_decide (today > Semester.registration_end calendar) then
        RegistrationEnded
      else
        match ProgramEnrollment_first_active user program_enrollments with
        | None => NotEnrolledInProgram
        | Some (program_enrollment, _) =>
            let available_offerings :=
              filter (fun ko : nat * CourseOffering.t =>
                        CourseOffering.semester ko.2 = semester_id
                        /\ CourseOffering.is_active ko.2 = true)
                     (offerings db) in
            let enrolled_courses :=
              (fun eo : Enrollment.t * CourseOffering.t => Enrollment.course_offering eo.1)
                <$> filter (fun eo : Enrollment.t * CourseOffering.t =>
                              Enrollment.student eo.1 = user
                              /\ CourseOffering.semester eo.2 = semester_id
                              /\ Enrollment.is_active eo.1 = true)
                           (Enrollment_objects db) in
            Page semester_id program_enrollment available_offerings enrolled_courses
        end
  end.

(** ** Program enrollment *)

(** A stored [Program]: the fees and credits that [Program.t] holds, with
    the active flag. *)
Module ProgramRow.
Record t := mk {
  program : Program.t;
  is_active : bool
}.
End ProgramRow.

(** [Program.current_students_count] of the program stored under [pk]. *)
Definition Program_current_students_count (pk : nat)
    (program_enrollments : gmap nat ProgramEnrollmentRow.t) : nat :=
  length (filter (fun r => ProgramEnrollmentRow.program r = pk
                        /\ ProgramEnrollmentRow.is_active r = true)
                 (objects program_enrollments)).

(** [ProgramEnrollment.objects.create(...)], checked against
    [unique_together = ['student', 'program']]. *)
Definition ProgramEnrollment_create (self : ProgramEnrollmentRow.t)
    (program_enrollments : gmap nat ProgramEnrollmentRow.t)
  : option Exception * gmap nat ProgramEnrollmentRow.t :=
  if exists_ (filter (fun r => ProgramEnrollmentRow.student r = ProgramEnrollmentRow.student self
                            /\ ProgramEnrollmentRow.program r
                               = ProgramEnrollmentRow.program self)
                     (objects program_enrollments))
  then (Some IntegrityError, program_enrollments)
  else (None, <[next_pk program_enrollments := self]> program_enrollments).

(** The day number of [date.max], 9999-12-31; that of [date.min] is 1. *)
Definition MAXORDINAL : Z := 3652059.

(** [timedelta(days=n)]: the magnitude of [n] is at most 999999999. *)
Definition timedelta (days : Z) : Exception + Z :=
  if bool_decide (Z.abs days <= 999999999) then inr days else inl OverflowError.

(** [date + timedelta]: the result has to be a date again. *)
Definition date_add (date delta : Z) : Exception + Z :=
  let ordinal := date + delta in
  if bool_decide (0 < ordinal <= MAXORDINAL) then inr ordinal else inl OverflowError.

Inductive Method := GET | POST.

(** What [program_enrollment_view] answers. *)
Inductive ProgramEnrollmentResponse :=
| ProgramNotFound
| AlreadyEnrolled
| Enrolled
| EnrollmentError (e : Exception)
| ProgramList (programs my_enrollments : list nat).

(** [program_enrollment_view]; [program_id] is the number posted in the
    form, [today] is the day number of [timezone.now().date()], and [GET]
    stands for every method other than POST. The page lists the keys of the
    active programs and of the student's program enrollments. *)
Definition program_enrollment_view (method : Method) (user program_id : nat) (today : Z)
    (program_table : gmap nat ProgramRow.t)
    (program_enrollments : gmap nat ProgramEnrollmentRow.t)
  : ProgramEnrollmentResponse * gmap nat ProgramEnrollmentRow.t :=
  match method with
  | POST =>
      match get_object_or_404 program_table program_id ProgramRow.is_active with
      | None => (ProgramNotFound, program_enrollments)
      | Some program =>
          if exists_ (filter (fun r => ProgramEnrollmentRow.student r = user
                                    /\ ProgramEnrollmentRow.program r = program_id
                                    /\ ProgramEnrollmentRow.is_active r = true)
                             (objects program_enrollments))
          then (AlreadyEnrolled, program_enrollments)
          else
            match timedelta (Program.duration (ProgramRow.program program) * 6 * 30) with
            | inl e => (EnrollmentError e, program_enrollments)
            | inr delta =>
                match date_add today delta with
                | inl e => (EnrollmentError e, program_enrollments)
                | inr expected_graduation =>
                    match ProgramEnrollment_create
                            (ProgramEnrollmentRow.new user program_id expected_graduation today)
                            program_enrollments with
                    | (Some e, program_enrollments) => (EnrollmentError e, program_enrollments)
                    | (None, program_enrollments) => (Enrolled, program_enrollments)
                    end
                end
            end
      end
  | GET =>
      (ProgramList
         ((map_to_list (filter (fun kp : nat * ProgramRow.t => ProgramRow.is_active kp.2 = true)
                               program_table)).*1)
         ((map_to_list (filter (fun kr : nat * ProgramEnrollmentRow.t =>
                                  ProgramEnrollmentRow.student kr.2 = user)
                               program_enrollments)).*1),
       program_enrollments)
  end.

(** ** Counts and displays *)

(** [Course.enrolled_students_count] of the course stored under [pk]. *)
Definition Course_enrolled_students_count (pk : nat) (db : DB) : nat :=
  length (filter (fun eo : Enrollment.t * CourseOffering.t =>
                    CourseOffering.course eo.2 = pk /\ Enrollment.is_active eo.1 = true)
                 (Enrollment_objects db)).

(** The colour [CourseOfferingAdmin.available_seats_display] gives the
    number of seats. *)
Definition available_seats_display (obj : CourseOffering.t) : string :=
  let seats := CourseOffering.available_seats obj in
  if bool_decide (seats > 10) then "green"
  else if bool_decide (seats > 0) then "orange"
  else "red".

(** [x >= n] for a number and a small [int] constant; the constant is
    converted when [x] is a float. *)
Definition Number_ge (x : Number) (n : Z) : bool :=
  match x with
  | Int m => bool_decide (m >= n)
  | Float f => SFleb (float_of_int n) f
  end.

(** The colour [ProgramEnrollmentAdmin.progress_display] gives the
    percentage. *)
Definition progress_display (obj : ProgramEnrollment.t) (db : DB) : Exception + string :=
  match ProgramEnrollment_progress_percentage obj db with
  | inl e => inl e
  | inr progress =>
      inr (if Number_ge progress 80 then "green"
           else if Number_ge progress 50 then "orange"
           else "red")
  end.

(** ** The student's course pages *)

(** The context of [student_courses]. *)
Record StudentCourses := mkStudentCourses {
  current_enrollments : list (Enrollment.t * CourseOffering.t);
  past_enrollments : list (Enrollment.t * CourseOffering.t);
  current_semester : option nat
}.

(** [student_courses]; a lookup on [course_offering__semester=None] matches
    no row. *)
Definition student_courses (user : nat) (semester_table : gmap nat SemesterRow.t) (db : DB)
  : StudentCourses :=
  let current_semester := fst <$> Semester_current semester_table in
  let enrollments :=
    filter (fun eo : Enrollment.t * CourseOffering.t =>
              Enrollment.student eo.1 = user /\ Enrollment.is_active eo.1 = true)
           (Enrollment_objects db) in
  mkStudentCourses
    (filter (fun eo : Enrollment.t * CourseOffering.t =>
               Some (CourseOffering.semester eo.2) = current_semester) enrollments)
    (filter (fun eo : Enrollment.t * CourseOffering.t =>
               ~ Some (CourseOffering.semester eo.2) = current_semester) enrollments)
    current_semester.

(** [context['current_courses_count']] of [DashboardView.get_context_data]
    for a student. *)
Definition DashboardView_current_courses_count (user : nat)
    (semester_table : gmap nat SemesterRow.t) (db : DB) : nat :=
  match Semester_current semester_table with
  | Some (semester_id, _) =>
      length (filter (fun eo : Enrollment.t * CourseOffering.t =>
                        Enrollment.student eo.1 = user
                        /\ CourseOffering.semester eo.2 = semester_id
                        /\ Enrollment.is_active eo.1 = true)
                     (Enrollment_objects db))
  | None => 0%nat
  end.

(** [enrollment.is_active = b] on an instance, as the admin's editable list
    sets it before it saves the row. *)
Definition Enrollment_set_is_active (b : bool) (self : Enrollment.t) : Enrollment.t :=
  Enrollment.mk (Enrollment.student self) (Enrollment.course_offering self)
                (Enrollment.grade self) b (Enrollment.status self)
                (Enrollment.credits_earned self).

(** ** Vocabulary of the specification *)

(** The registration window as [register_course] checks it. *)
Definition window_open (today : Z) (semester : Semester.t) : Prop :=
  Semester.registration_start semester <= today <= Semester.add_drop_deadline semester.

(** The student has an enrollment row for the offering. *)
Definition enrolled_in (user offering_id : nat) (e : Enrollment.t) : Prop :=
  Enrollment.student e = user /\ Enrollment.course_offering e = offering_id.

(** The number of active enrollments that reference an offering. *)
Definition active_count (offering_id : nat) (db : DB) : Z :=
  Z.of_nat (length (filter (fun e => Enrollment.is_active e = true
                                  /\ Enrollment.course_offering e = offering_id)
                           (objects (enrollments db)))).

(** The cached counter of every offering agrees with the enrollment rows. *)
Definition counter_consistent (db : DB) : Prop :=
  forall offering_id offering,
    offerings db !! offering_id = Some offering ->
    CourseOffering.enrolled offering = active_count offering_id db.

(** An enrollment's grade meets the threshold of a prerequisite row. *)
Definition grade_meets (prereq : CoursePrerequisite.t) (e : Enrollment.t) : Prop :=
  match CoursePrerequisite.minimum_grade prereq with
  | Some minimum_grade =>
      minimum_grade = EmptyString \/ String.leb (Enrollment.grade e) minimum_grade = true
  | None => True
  end.

(** A completed, active enrollment of the student in the prerequisite course
    whose grade meets the threshold. *)
Definition qualifies (user : nat) (prereq : CoursePrerequisite.t) (db : DB)
    (e : Enrollment.t) : Prop :=
  (exists pk, enrollments db !! pk = Some e) /\
  (exists o, offerings db !! Enrollment.course_offering e = Some o
          /\ CourseOffering.course o = CoursePrerequisite.prerequisite prereq) /\
  Enrollment.student e = user /\
  Enrollment.status e = "completed" /\
  Enrollment.is_active e = true /\
  grade_meets prereq e.

(** A mandatory prerequisite the student has no qualifying enrollment for. *)
Definition unmet (user : nat) (db : DB) (prereq : CoursePrerequisite.t) : Prop :=
  CoursePrerequisite.is_mandatory prereq = true /\
  ~ exists e, qualifies user prereq db e.

(** The signed amount of a ledger entry: payments and refunds add to what
    was paid, fees and adjustments subtract from it. *)
Definition paid (r : FinanceRecord.t) : Z :=
  if bool_decide (FinanceRecord.transaction_type r = "payment"
               \/ FinanceRecord.transaction_type r = "refund")
  then FinanceRecord.amount r
  else if bool_decide (FinanceRecord.transaction_type r = "fee"
                    \/ FinanceRecord.transaction_type r = "adjustment")
  then - FinanceRecord.amount r
  else 0.

(** The entries of one student for one program, in insertion order. *)
Definition ledger (student program : nat) (records : list FinanceRecord.t)
  : list FinanceRecord.t :=
  filter (fun r => FinanceRecord.student r = student
                /\ FinanceRecord.program r = Some program) records.

(** Appending transactions one after the other; the first exception ends
    the sequence. *)
Fixpoint append_transactions (txs : list FinanceRecord.t) (db : DB) : option Exception * DB :=
  match txs with
  | [] => (None, db)
  | tx :: txs =>
      match FinanceRecord_save None tx db with
      | (Some e, db) => (Some e, db)
      | (None, db) => append_transactions txs db
      end
  end.

(** What the replay of [records] leaves the pair to pay: the program fee
    minus the signed sum of the pair's entries. *)
Definition owed (db : DB) (student program : nat) (records : list FinanceRecord.t) : Z :=
  Program.total_program_fee (programs db program)
  - Zsum (signed_amount <$> ledger student program records).

(** The transactions can be stored one after the other: each amount fits its
    column, and so does the balance that each append leaves to pay. *)
Definition storable (db : DB) (txs : list FinanceRecord.t) : Prop :=
  forall i tx program,
    txs !! i = Some tx ->
    FinanceRecord.program tx = Some program ->
    DecimalField_fits (FinanceRecord.amount tx) = true /\
    DecimalField_fits (owed db (FinanceRecord.student tx) program
                         (finance_records db ++ take (S i) txs)) = true.

(** The fees of the program are what their columns take, and its duration
    has at most 17 digits: the program fee then has fewer than 28. *)
Definition fee_in_range (program : Program.t) : Prop :=
  DecimalField_fits (Program.tuition_fee program) = true /\
  DecimalField_fits (Program.exam_fee program) = true /\
  DecimalField_fits (Program.other_fees program) = true /\
  DecimalField_fits (Program.registration_fee program) = true /\
  Z.abs (Program.duration program) <= 10 ^ 17.

(** The enrollments [credits_completed] is specified to sum over: those of
    the student with status completed whose course is in the curriculum of
    the program. *)
Definition counts_towards (self : ProgramEnrollment.t) (db : DB)
    (eo : Enrollment.t * CourseOffering.t) : Prop :=
  Enrollment.student eo.1 = ProgramEnrollment.student self /\
  Enrollment.status eo.1 = "completed" /\
  Exists (fun c => ProgramCurriculum.program c = ProgramEnrollment.program self
                /\ ProgramCurriculum.course c = CourseOffering.course eo.2)
         (curriculum db).

#[global] Instance counts_towards_dec self db eo : Decision (counts_towards self db eo).
Proof. unfold counts_towards. apply _. Defined.

(** The credits of one enrollment: those it earned when recorded, the static
    credits of its course otherwise. *)
Definition credits_of (db : DB) (eo : Enrollment.t * CourseOffering.t) : Z :=
  match Enrollment.credits_earned eo.1 with
  | Some earned => earned
  | None => Course.credits (courses db (CourseOffering.course eo.2))
  end.

(** The rational number that a finite float stands for; 0 for the others. *)
Definition float_value (x : spec_float) : Q :=
  match x with
  | S754_finite s m e => inject_Z (cond_Zopp s (Zpos m)) * 2 ^ e
  | _ => 0
  end.

(** The checks of [register_course] that come before the prerequisite loop. *)
Definition reaches_prerequisites (user offering_id : nat) (today : Z) (db : DB)
    (offering : CourseOffering.t) : Prop :=
  offerings db !! offering_id = Some offering /\
  CourseOffering.is_active offering = true /\
  window_open today (semesters db (CourseOffering.semester offering)) /\
  CourseOffering.enrolled offering < CourseOffering.capacity offering /\
  (forall pk e, enrollments db !! pk = Some e -> enrolled_in user offering_id e ->
                Enrollment.is_active e = false).

(** Every transaction of the sequence names a program and has one of the
    declared types. *)
Definition appendable (tx : FinanceRecord.t) : Prop :=
  is_Some (FinanceRecord.program tx) /\
  FinanceRecord.transaction_type tx ∈ FinanceRecord.TRANSACTION_TYPES.

(** A request to one of the two views that change enrollments. *)
Inductive Request :=
| Register (user offering_id : nat) (today : Z)
| Drop (user enrollment_id : nat) (today : Z).

Definition handle (request : Request) (db : DB) : Response * DB :=
  match request with
  | Register user offering_id today => register_course user offering_id today db
  | Drop user enrollment_id today => drop_course user enrollment_id today db
  end.

(** The database after a sequence of requests, when each of them succeeds. *)
Fixpoint successful (requests : list Request) (db : DB) : option DB :=
  match requests with
  | [] => Some db
  | request :: requests =>
      match handle request db with
      | (Success, db) => successful requests db
      | _ => None
      end
  end.

(** Every drop of the sequence is aimed at an enrollment that is active when
    the request arrives. *)
Fixpoint drops_active (requests : list Request) (db : DB) : Prop :=
  match requests with
  | [] => True
  | request :: requests =>
      match request with
      | Register _ _ _ => True
      | Drop _ enrollment_id _ =>
          exists e, enrollments db !! enrollment_id = Some e
                 /\ Enrollment.is_active e = true
      end /\ drops_active requests (handle request db).2
  end.

(** ** Runs of requests and what they keep *)

(** The database after a sequence of requests, whatever each one answers. *)
Definition run (requests : list Request) (db : DB) : DB :=
  foldl (fun db request => (handle request db).2) db requests.

(** The cached counter [enrolled] of no offering exceeds the capacity of
    the offering. *)
Definition within_capacity (db : DB) : Prop :=
  forall offering_id offering,
    offerings db !! offering_id = Some offering ->
    CourseOffering.enrolled offering <= CourseOffering.capacity offering.

(** [unique_together = ['student', 'course_offering']] holds of the stored
    enrollments. *)
Definition unique_pairs (db : DB) : Prop :=
  forall pk1 pk2 e1 e2,
    enrollments db !! pk1 = Some e1 ->
    enrollments db !! pk2 = Some e2 ->
    Enrollment.student e1 = Enrollment.student e2 ->
    Enrollment.course_offering e1 = Enrollment.course_offering e2 ->
    pk1 = pk2.

(** The tables that registrations and drops only read. *)
Definition same_reference_data (db db' : DB) : Prop :=
  programs db' = programs db /\
  courses db' = courses db /\
  semesters db' = semesters db /\
  prerequisites db' = prerequisites db /\
  curriculum db' = curriculum db /\
  finance_records db' = finance_records db.

(** [Enrollment.GRADE_CHOICES], the stored values. *)
Definition GRADE_CHOICES : list string :=
  ["A"; "B"; "C"; "D"; "F"; "W"; "I"; "IP"; EmptyString].

(** The letter grades, best first. *)
Definition letter_grades : list string := ["A"; "B"; "C"; "D"; "F"].

(** What can happen to a stored enrollment row: it stays as it is, or it is
    withdrawn. *)
Definition kept_or_withdrawn (e e' : Enrollment.t) : Prop :=
  Enrollment.student e' = Enrollment.student e /\
  Enrollment.course_offering e' = Enrollment.course_offering e /\
  Enrollment.grade e' = Enrollment.grade e /\
  Enrollment.credits_earned e' = Enrollment.credits_earned e /\
  (e' = e \/ (Enrollment.is_active e' = false /\ Enrollment.status e' = "withdrawn")).

(** At most one stored semester is marked as current. *)
Definition one_current (table : gmap nat SemesterRow.t) : Prop :=
  forall k1 k2 r1 r2,
    table !! k1 = Some r1 ->
    table !! k2 = Some r2 ->
    SemesterRow.is_current r1 = true ->
    SemesterRow.is_current r2 = true ->
    k1 = k2.

(** The dates that [register_course] and [drop_course] read are those of
    the stored semesters. *)
Definition calendar_of (semester_table : gmap nat SemesterRow.t) (db : DB) : Prop :=
  forall k row, semester_table !! k = Some row -> semesters db k = SemesterRow.calendar row.

(** A day number that is a date: from 0001-01-01 to 9999-12-31. *)
Definition is_date (day : Z) : Prop := 0 < day <= MAXORDINAL.

(** What one enrollment adds to [Course.enrolled_students_count]. *)
Definition counts_for_course (course_id : nat) (db : DB) (e : Enrollment.t) : nat :=
  match offerings db !! Enrollment.course_offering e with
  | Some o =>
      if decide (CourseOffering.course o = course_id /\ Enrollment.is_active e = true)
      then 1%nat else 0%nat
  | None => 0%nat
  end.

(** ** Sample data *)

Module Sample.
(** Tuition 1000.00, exam fee 100.00, no other fees, registration 50.00,
    two semesters. *)
Definition program : Program.t := Program.mk 2 120 100000 5000 10000 0.

Definition course (id : nat) : Course.t :=
  if bool_decide (id = 1%nat) then Course.mk "CS101" 3 else Course.mk "CS201" 4.

(** Registration from day 10, add/drop until day 30. *)
Definition semester : Semester.t := Semester.mk 10 20 30.

(** Offering 1 teaches CS101 and has one of its thirty seats taken, by
    student 7; offering 2 teaches CS201, which requires CS101 with grade C
    or better, and has a single seat. *)
Definition db : DB :=
  mkDB (fun _ => program) course (fun _ => semester)
    [CoursePrerequisite.mk 2 1 true (Some "C")]
    [ProgramCurriculum.mk 1 1; ProgramCurriculum.mk 1 2]
    (<[1%nat := CourseOffering.mk 1 1 30 1 true]>
       (<[2%nat := CourseOffering.mk 2 1 1 0 true]> ∅))
    (<[1%nat := Enrollment.mk 7 1 EmptyString true "registered" None]> ∅)
    [].

(** Student 7 has dropped offering 1 and holds a withdrawn row for it. *)
Definition db_withdrawn : DB :=
  set_offerings (<[1%nat := CourseOffering.mk 1 1 30 0 true]> (offerings db))
    (set_enrollments
       (<[1%nat := Enrollment.mk 7 1 EmptyString false "withdrawn" None]> ∅) db).

(** Student 9 holds the only seat of offering 2. *)
Definition db_full : DB :=
  set_offerings (<[2%nat := CourseOffering.mk 2 1 1 1 true]> (offerings db))
    (set_enrollments
       (<[2%nat := Enrollment.mk 9 2 EmptyString true "registered" None]>
          (enrollments db)) db).

(** Student 7 has completed CS101 with grade B for 3 credits; the program
    has a negative credit target. *)
Definition db_progress : DB :=
  mkDB (fun _ => Program.mk 2 (-10) 100000 5000 10000 0) course (fun _ => semester)
    (prerequisites db) (curriculum db) (offerings db)
    (<[1%nat := Enrollment.mk 7 1 "B" true "completed" (Some 3)]> ∅)
    [].

(** Student 7 has completed CS101 and no grade is recorded yet. *)
Definition db_ungraded : DB :=
set_enrollments
  (<[1%nat := Enrollment.mk 7 1 EmptyString true "completed" None]> ∅) db.

(** Student 7 has completed CS101, with 0 credits recorded as earned. *)
Definition db_zero_earned : DB :=
set_enrollments
  (<[1%nat := Enrollment.mk 7 1 "F" true "completed" (Some 0)]> ∅) db.

Definition payment : FinanceRecord.t := FinanceRecord.mk 7 (Some 1%nat) "payment" 50000 0.
Definition fee : FinanceRecord.t := FinanceRecord.mk 7 (Some 1%nat) "fee" 20000 0.
End Sample.

(** ** More sample data *)

Module Fixtures.
(** The sample database after a payment of 500.00 and a fee of 200.00 by
    student 7 for program 1. *)
Definition db_ledger : DB :=
  (append_transactions [Sample.payment; Sample.fee] Sample.db).2.

(** The semester of the sample data, current, and a later one that is not. *)
Definition semester_table : gmap nat SemesterRow.t :=
  <[1%nat := SemesterRow.mk "F2025" 0 true Sample.semester]>
    (<[2%nat := SemesterRow.mk "S2026" 200 false (Semester.mk 210 220 230)]> ∅).

(** Student 7 is enrolled in program 1, student 8 was and has withdrawn. *)
Definition program_enrollments : gmap nat ProgramEnrollmentRow.t :=
  <[1%nat := ProgramEnrollmentRow.mk (ProgramEnrollment.mk 7 1) 0 360 true "active" 1]>
    (<[2%nat := ProgramEnrollmentRow.mk (ProgramEnrollment.mk 8 1) 0 360 false "withdrawn" 1]>
       ∅).

(** Program 1 is open for enrollment, program 2 is not. *)
Definition program_table : gmap nat ProgramRow.t :=
  <[1%nat := ProgramRow.mk Sample.program true]>
    (<[2%nat := ProgramRow.mk Sample.program false]> ∅).

(** The sample database, with the dates of both stored semesters. *)
Definition db : DB :=
  mkDB (programs Sample.db) (courses Sample.db)
    (fun k => if bool_decide (k = 2%nat) then Semester.mk 210 220 230 else Sample.semester)
    (prerequisites Sample.db) (curriculum Sample.db)
    (offerings Sample.db) (enrollments Sample.db) (finance_records Sample.db).

(** What the registration page lists for the current semester. *)
Definition available_offerings : gmap nat CourseOffering.t :=
  filter (fun ko : nat * CourseOffering.t =>
            CourseOffering.semester ko.2 = 1%nat /\ CourseOffering.is_active ko.2 = true)
         (offerings db).

(** Student 7 has completed CS101 for 3 credits, a third of the 9 that the
    program asks. *)
Definition db_third : DB :=
  mkDB (fun _ => Program.mk 2 9 100000 5000 10000 0) (courses Sample.db) (semesters Sample.db)
    (prerequisites Sample.db) (curriculum Sample.db) (offerings Sample.db)
    (enrollments Sample.db_progress) (finance_records Sample.db).

(** A program of two semesters at 99999999.99 each, the largest tuition its
    column takes, and nothing else to pay; no record yet. *)
Definition db_costly : DB :=
  mkDB (fun _ => Program.mk 2 120 9999999999 0 0 0) (courses Sample.db) (semesters Sample.db)
    (prerequisites Sample.db) (curriculum Sample.db) (offerings Sample.db)
    (enrollments Sample.db) [].

(** A program of 2^63 - 1 semesters, with the largest fees that the columns
    take but for a registration fee of 50.00. *)
Definition program_long : Program.t :=
  Program.mk (2 ^ 63 - 1) 120 9999999999 5000 9999999999 9999999999.

(** Student 7 has completed CS101 for 3 credits, all that the program asks. *)
Definition db_complete : DB :=
  mkDB (fun _ => Program.mk 2 3 100000 5000 10000 0) (courses Sample.db) (semesters Sample.db)
    (prerequisites Sample.db) (curriculum Sample.db) (offerings Sample.db)
    (enrollments Sample.db_progress) (finance_records Sample.db).
End Fixtures.

(** * Properties *)

(** ** Querysets and tables *)

Section TableFacts.
Context {A : Type}.
Implicit Types (table : gmap nat A) (queryset : list A).

Lemma elem_of_objects table (row : A) :
  row ∈ objects table <-> exists pk, table !! pk = Some row.
Proof.
  unfold objects. rewrite list_elem_of_fmap. split.
  - intros [[pk r] [-> Hin]]. exists pk. by apply elem_of_map_to_list in Hin.
  - intros [pk Hpk]. exists (pk, row). split; [done|]. by apply elem_of_map_to_list.
Qed.

Lemma next_pk_fresh table : table !! next_pk table = None.
Proof.
  destruct (table !! next_pk table) as [row|] eqn:Hrow; [|done].
  assert (Hin : next_pk table ∈ elements (dom table)).
  { apply elem_of_elements, elem_of_dom. eauto. }
  apply max_list_elem_of_le in Hin. unfold next_pk in Hin. lia.
Qed.

Lemma exists_true queryset : exists_ queryset = true <-> exists row, row ∈ queryset.
Proof.
  destruct queryset as [|row rest]; simpl; split; try done.
  - intros [row Hrow]. by apply not_elem_of_nil in Hrow.
  - intros _. exists row. left.
Qed.

Lemma exists_false queryset : exists_ queryset = false <-> forall row, row ∉ queryset.
Proof.
  rewrite <- not_true_iff_false, exists_true. split.
  - intros Hno row Hrow. apply Hno. eauto.
  - intros Hno [row Hrow]. by apply (Hno row).
Qed.

Lemma objects_insert_fresh table pk (row : A) :
  table !! pk = None -> objects (<[pk := row]> table) ≡ₚ row :: objects table.
Proof.
  intros Hpk. unfold objects. by rewrite map_to_list_insert.
Qed.

Lemma objects_insert_stored table pk (old row : A) :
  table !! pk = Some old ->
  exists rest, objects table ≡ₚ old :: rest /\ objects (<[pk := row]> table) ≡ₚ row :: rest.
Proof.
  intros Hpk. exists (objects (delete pk table)). split.
  - unfold objects. by rewrite <- (map_to_list_delete table pk old).
  - rewrite <- insert_delete_eq. apply objects_insert_fresh, lookup_delete_eq.
Qed.

Lemma get_object_or_404_Some table id conditions (row : A) :
  get_object_or_404 table id conditions = Some row <->
  table !! id = Some row /\ conditions row = true.
Proof.
  unfold get_object_or_404. destruct (table !! id) as [r|]; [|by split; [|intros []]].
  destruct (conditions r) eqn:Hc; split; try done.
  - intros [= ->]. done.
  - intros [[= ->] _]. done.
  - intros [[= ->] Hc']. congruence.
Qed.
End TableFacts.

Lemma elem_of_Enrollment_objects db e o :
  (e, o) ∈ Enrollment_objects db <->
  (exists pk, enrollments db !! pk = Some e) /\
  offerings db !! Enrollment.course_offering e = Some o.
Proof.
  unfold Enrollment_objects. rewrite list_elem_of_omap. split.
  - intros [e' [Hin Hsome]]. apply elem_of_objects in Hin.
    destruct (offerings db !! Enrollment.course_offering e') as [o'|] eqn:Ho;
      simpl in Hsome; [|done].
    by simplify_eq.
  - intros [Hin Ho]. exists e. split; [by apply elem_of_objects|].
    by rewrite Ho.
Qed.

(** ** The prerequisite gate *)

Lemma minimum_grade_set_spec prereq e :
  match minimum_grade_set prereq with
  | Some minimum_grade => String.leb (Enrollment.grade e) minimum_grade = true
  | None => True
  end <-> grade_meets prereq e.
Proof.
  unfold minimum_grade_set, grade_meets.
  destruct (CoursePrerequisite.minimum_grade prereq) as [g|]; [|done].
  case_bool_decide as Hg; split; auto.
  intros [Hempty|Hle]; [done|exact Hle].
Qed.

Lemma elem_of_completed user prereq db e o :
  (e, o) ∈ completed user prereq db <->
  (e, o) ∈ Enrollment_objects db /\
  Enrollment.student e = user /\
  CourseOffering.course o = CoursePrerequisite.prerequisite prereq /\
  Enrollment.status e = "completed" /\
  Enrollment.is_active e = true /\
  grade_meets prereq e.
Proof.
  rewrite <- (minimum_grade_set_spec prereq e). unfold completed.
  destruct (minimum_grade_set prereq) as [g|];
    rewrite ?list_elem_of_filter; simpl; tauto.
Qed.

Lemma completed_qualifies user prereq db :
  exists_ (completed user prereq db) = true <-> exists e, qualifies user prereq db e.
Proof.
  rewrite exists_true. split.
  - intros [[e o] Hin]. apply elem_of_completed in Hin as (Hin & ? & ? & ? & ? & ?).
    apply elem_of_Enrollment_objects in Hin as [Hpk Ho].
    exists e. unfold qualifies. eauto 10.
  - intros [e (Hpk & [o [Ho Hc]] & ? & ? & ? & ?)]. exists (e, o).
    apply elem_of_completed. rewrite elem_of_Enrollment_objects. eauto 10.
Qed.

Lemma blocks_unmet user prereq db :
  negb (exists_ (completed user prereq db)) && CoursePrerequisite.is_mandatory prereq = true
  <-> unmet user db prereq.
Proof.
  unfold unmet. rewrite <- completed_qualifies, andb_true_iff, negb_true_iff.
  rewrite not_true_iff_false. tauto.
Qed.

Lemma check_prerequisites_Some user prereqs db prereq :
  check_prerequisites user prereqs db = Some prereq <->
  exists before after,
    prereqs = before ++ prereq :: after /\
    Forall (fun p => ~ unmet user db p) before /\
    unmet user db prereq.
Proof.
  induction prereqs as [|p rest IH]; simpl.
  - split; [done|]. intros (before & after & Heq & _). by destruct before.
  - destruct (negb (exists_ (completed user p db)) && CoursePrerequisite.is_mandatory p)
      eqn:Hblocks.
    + apply blocks_unmet in Hblocks. split.
      * intros [= <-]. by exists [], rest.
      * intros (before & after & Heq & Hbefore & Hunmet).
        destruct before as [|q before]; simpl in Heq; simplify_eq; [done|].
        by apply Forall_cons in Hbefore as [Hq _].
    + assert (Hp : ~ unmet user db p).
      { rewrite <- blocks_unmet, Hblocks. done. }
      rewrite IH. split.
      * intros (before & after & -> & Hbefore & Hunmet).
        exists (p :: before), after. repeat split; [by constructor|apply Hunmet..].
      * intros (before & after & Heq & Hbefore & Hunmet).
        destruct before as [|q before]; simpl in Heq; simplify_eq; [done|].
        apply Forall_cons in Hbefore as [_ Hbefore]. by exists before, after.
Qed.

Lemma check_prerequisites_None user prereqs db :
  check_prerequisites user prereqs db = None <->
  forall p, p ∈ prereqs -> ~ unmet user db p.
Proof.
  induction prereqs as [|p rest IH]; simpl.
  - split; [|done]. intros _ p Hp. by apply not_elem_of_nil in Hp.
  - destruct (negb (exists_ (completed user p db)) && CoursePrerequisite.is_mandatory p)
      eqn:Hblocks.
    + apply blocks_unmet in Hblocks. split; [done|].
      intros Hall. destruct (Hall p); [left|done].
    + assert (Hp : ~ unmet user db p).
      { rewrite <- blocks_unmet, Hblocks. done. }
      rewrite IH. split.
      * intros Hall q Hq. apply elem_of_cons in Hq as [->|Hq]; auto.
      * intros Hall q Hq. apply Hall. by right.
Qed.

(** C10. A completed, active enrollment of the student in the prerequisite
    course whose grade is the empty string passes the [grade__lte] filter of
    the prerequisite check whatever minimum grade the prerequisite row sets:
    it is among the qualifying enrollments, so this prerequisite never stops
    the registration. *)
Theorem empty_grade_meets_any_threshold db user prereq pk e o :
  enrollments db !! pk = Some e ->
  offerings db !! Enrollment.course_offering e = Some o ->
  CourseOffering.course o = CoursePrerequisite.prerequisite prereq ->
  Enrollment.student e = user ->
  Enrollment.status e = "completed" ->
  Enrollment.is_active e = true ->
  Enrollment.grade e = EmptyString ->
  (forall minimum_grade, String.leb (Enrollment.grade e) minimum_grade = true) /\
  (e, o) ∈ completed user prereq db /\
  forall prereqs, check_prerequisites user prereqs db <> Some prereq.
Proof.
  intros Hpk Ho Hcourse Hstudent Hstatus Hactive Hgrade.
  assert (Hle : forall minimum_grade, String.leb (Enrollment.grade e) minimum_grade = true).
  { intros g. rewrite Hgrade. by destruct g. }
  assert (Hin : (e, o) ∈ completed user prereq db).
  { apply elem_of_completed. rewrite elem_of_Enrollment_objects.
    repeat split; eauto.
    unfold grade_meets. destruct (CoursePrerequisite.minimum_grade prereq); auto. }
  repeat split; [done..|].
  intros prereqs Hcheck. apply check_prerequisites_Some in Hcheck as (_ & _ & _ & _ & Hno).
  apply Hno. apply completed_qualifies, exists_true. eauto.
Qed.

Lemma empty_grade_meets_any_threshold_witness :
  (Enrollment.mk 7 1 EmptyString true "completed" None, CourseOffering.mk 1 1 30 1 true)
    ∈ completed 7 (CoursePrerequisite.mk 2 1 true (Some "A")) Sample.db_ungraded.
Proof.
  apply (empty_grade_meets_any_threshold Sample.db_ungraded 7
           (CoursePrerequisite.mk 2 1 true (Some "A")) 1%nat
           (Enrollment.mk 7 1 EmptyString true "completed" None)
           (CourseOffering.mk 1 1 30 1 true)); reflexivity.
Defined.

(** ** Enrollment.save *)

Lemma uniqueness_check db (self : Enrollment.t) :
  exists_ (filter (fun e => Enrollment.student e = Enrollment.student self
                         /\ Enrollment.course_offering e = Enrollment.course_offering self)
                  (objects (enrollments db))) = true
  <-> exists pk e, enrollments db !! pk = Some e
                /\ enrolled_in (Enrollment.student self) (Enrollment.course_offering self) e.
Proof.
  rewrite exists_true. split.
  - intros [e He]. apply list_elem_of_filter in He as [Hpair He].
    apply elem_of_objects in He as [pk Hpk]. by exists pk, e.
  - intros (pk & e & Hpk & Hpair). exists e. apply list_elem_of_filter.
    split; [done|]. apply elem_of_objects. eauto.
Qed.

Lemma Enrollment_create_new db user offering_id status offering :
  (forall pk e, enrollments db !! pk = Some e -> ~ enrolled_in user offering_id e) ->
  Enrollment_create (Enrollment.new user offering_id status) offering db =
  (None,
   set_enrollments
     (<[next_pk (enrollments db) := Enrollment.new user offering_id status]> (enrollments db))
     (set_offerings
        (<[offering_id :=
             CourseOffering.set_enrolled (CourseOffering.enrolled offering + 1) offering]>
           (offerings db)) db)).
Proof.
  intros Hnone. unfold Enrollment_create, Enrollment_save, Enrollment_super_save. simpl.
  destruct (exists_ _) eqn:Hex; [|done].
  apply (uniqueness_check _ (Enrollment.new user offering_id status)) in Hex
    as (pk & e & Hpk & Hpair).
  destruct (Hnone pk e Hpk Hpair).
Qed.

Lemma Enrollment_create_duplicate db user offering_id status offering pk e :
  enrollments db !! pk = Some e ->
  enrolled_in user offering_id e ->
  (Enrollment_create (Enrollment.new user offering_id status) offering db).1
    = Some IntegrityError /\
  enrollments (Enrollment_create (Enrollment.new user offering_id status) offering db).2
    = enrollments db.
Proof.
  intros Hpk Hpair. unfold Enrollment_create, Enrollment_save, Enrollment_super_save. simpl.
  destruct (exists_ _) eqn:Hex; [done|].
  apply not_true_iff_false in Hex. destruct Hex.
  apply (uniqueness_check _ (Enrollment.new user offering_id status)). eauto.
Qed.

(** ** register_course *)

Lemma duplicate_check db user offering_id :
  exists_ (filter (fun e => Enrollment.student e = user
                         /\ Enrollment.course_offering e = offering_id
                         /\ Enrollment.is_active e = true)
                  (objects (enrollments db))) = true
  <-> exists pk e, enrollments db !! pk = Some e
                /\ enrolled_in user offering_id e
                /\ Enrollment.is_active e = true.
Proof.
  rewrite exists_true. unfold enrolled_in. split.
  - intros [e He]. apply list_elem_of_filter in He as [(? & ? & ?) He].
    apply elem_of_objects in He as [pk Hpk]. by exists pk, e.
  - intros (pk & e & Hpk & [? ?] & ?). exists e. apply list_elem_of_filter.
    split; [done|]. apply elem_of_objects. eauto.
Qed.

Lemma is_full_spec offering :
  CourseOffering.is_full offering = true
  <-> CourseOffering.enrolled offering >= CourseOffering.capacity offering.
Proof. unfold CourseOffering.is_full. apply bool_decide_eq_true. Qed.

Lemma register_course_prerequisites db user offering_id today offering :
  reaches_prerequisites user offering_id today db offering ->
  register_course user offering_id today db =
  match check_prerequisites user
          (required_prerequisites (CourseOffering.course offering) db) db with
  | Some prereq =>
      (MissingPrerequisite
         (Course.code (courses db (CoursePrerequisite.prerequisite prereq))), db)
  | None =>
      match Enrollment_create (Enrollment.new user offering_id "registered") offering db with
      | (Some e, db) => (ServerError e, db)
      | (None, db) => (Success, db)
      end
  end.
Proof.
  intros (Ho & Hactive & [Hstart Hend] & Hseats & Hdup). unfold register_course.
  assert (Hget : get_object_or_404 (offerings db) offering_id CourseOffering.is_active
                 = Some offering) by by apply get_object_or_404_Some.
  rewrite Hget.
  rewrite bool_decide_eq_false_2 by lia. rewrite bool_decide_eq_false_2 by lia.
  destruct (CourseOffering.is_full offering) eqn:Hfull.
  { apply is_full_spec in Hfull. lia. }
  destruct (exists_ _) eqn:Hex; [|done].
  apply duplicate_check in Hex as (pk & e & Hpk & Hpair & Hact).
  rewrite (Hdup pk e Hpk Hpair) in Hact. done.
Qed.

Lemma no_row_no_active_row db user offering_id :
  (forall pk e, enrollments db !! pk = Some e -> ~ enrolled_in user offering_id e) ->
  forall pk e, enrollments db !! pk = Some e -> enrolled_in user offering_id e ->
               Enrollment.is_active e = false.
Proof. intros Hnone pk e Hpk Hpair. destruct (Hnone pk e Hpk Hpair). Qed.

Lemma no_row_check db user offering_id :
  exists_ (filter (fun e => Enrollment.student e = user
                         /\ Enrollment.course_offering e = offering_id)
                  (objects (enrollments db))) = false
  <-> forall pk e, enrollments db !! pk = Some e -> ~ enrolled_in user offering_id e.
Proof.
  rewrite <- not_true_iff_false.
  rewrite (uniqueness_check db (Enrollment.new user offering_id EmptyString)). simpl.
  split.
  - intros Hno pk e Hpk Hpair. apply Hno. eauto.
  - intros Hno (pk & e & Hpk & Hpair). by apply (Hno pk e).
Qed.

Lemma no_active_row_check db user offering_id :
  exists_ (filter (fun e => Enrollment.student e = user
                         /\ Enrollment.course_offering e = offering_id
                         /\ Enrollment.is_active e = true)
                  (objects (enrollments db))) = false
  <-> forall pk e, enrollments db !! pk = Some e -> enrolled_in user offering_id e ->
                   Enrollment.is_active e = false.
Proof.
  rewrite <- not_true_iff_false, duplicate_check. split.
  - intros Hno pk e Hpk Hpair. apply not_true_iff_false. intros Hact.
    apply Hno. eauto.
  - intros Hno (pk & e & Hpk & Hpair & Hact). rewrite (Hno pk e Hpk Hpair) in Hact. done.
Qed.

(** For a student who has no enrollment row at all for the offering, the
    registration does what is specified of it: on an active offering with
    the window open and all prerequisites met, it fails with
    CapacityExceeded and changes nothing when enrolled >= capacity, and
    otherwise succeeds, inserting an active Enrollment under a fresh key and
    raising the offering's enrolled counter by exactly 1. *)
Lemma register_course_first_time db user offering_id today offering :
  offerings db !! offering_id = Some offering ->
  CourseOffering.is_active offering = true ->
  window_open today (semesters db (CourseOffering.semester offering)) ->
  (forall pk e, enrollments db !! pk = Some e -> ~ enrolled_in user offering_id e) ->
  (forall p, p ∈ required_prerequisites (CourseOffering.course offering) db ->
             ~ unmet user db p) ->
  (CourseOffering.enrolled offering >= CourseOffering.capacity offering ->
   register_course user offering_id today db = (CapacityExceeded, db)) /\
  (CourseOffering.enrolled offering < CourseOffering.capacity offering ->
   exists db' pk enrollment offering',
     register_course user offering_id today db = (Success, db') /\
     enrollments db !! pk = None /\
     enrollments db' = <[pk := enrollment]> (enrollments db) /\
     enrolled_in user offering_id enrollment /\
     Enrollment.is_active enrollment = true /\
     Enrollment.status enrollment = "registered" /\
     offerings db' = <[offering_id := offering']> (offerings db) /\
     CourseOffering.enrolled offering' = CourseOffering.enrolled offering + 1 /\
     CourseOffering.capacity offering' = CourseOffering.capacity offering).
Proof.
  intros Ho Hactive Hwindow Hnone Hmet. split.
  - intros Hfull. unfold register_course.
    assert (Hget : get_object_or_404 (offerings db) offering_id CourseOffering.is_active
                   = Some offering) by by apply get_object_or_404_Some.
    destruct Hwindow as [Hstart Hend]. rewrite Hget.
    rewrite bool_decide_eq_false_2 by lia. rewrite bool_decide_eq_false_2 by lia.
    apply is_full_spec in Hfull. by rewrite Hfull.
  - intros Hseats.
    rewrite (register_course_prerequisites db user offering_id today offering)
      by (split_and!; try done; by apply no_row_no_active_row).
    apply check_prerequisites_None in Hmet. rewrite Hmet.
    rewrite Enrollment_create_new by done.
    eexists _, (next_pk (enrollments db)), _, _. split; [done|].
    split; [apply next_pk_fresh|]. simpl. repeat split.
Qed.

(** C3. A registration that meets every condition of the claim and finds
    seats free does not succeed when the student has dropped the offering
    before. In the sample database where student 7 holds a withdrawn row
    for offering 1, the offering is active, the window is open, the student
    has no active enrollment in the offering, no prerequisite is unmet and
    0 of 30 seats are taken; the registration ends in an IntegrityError
    that the view does not handle, creates no Enrollment, and leaves the
    offering counting 1 enrolled for 0 active enrollments. *)
Theorem register_course_free_seat_fails :
  exists offering db',
    offerings Sample.db_withdrawn !! 1%nat = Some offering /\
    CourseOffering.is_active offering = true /\
    window_open 15 (semesters Sample.db_withdrawn (CourseOffering.semester offering)) /\
    (forall pk e, enrollments Sample.db_withdrawn !! pk = Some e ->
                  enrolled_in 7 1 e -> Enrollment.is_active e = false) /\
    (forall p, p ∈ required_prerequisites (CourseOffering.course offering)
                     Sample.db_withdrawn ->
               ~ unmet 7 Sample.db_withdrawn p) /\
    CourseOffering.enrolled offering < CourseOffering.capacity offering /\
    register_course 7 1 15 Sample.db_withdrawn = (ServerError IntegrityError, db') /\
    enrollments db' = enrollments Sample.db_withdrawn /\
    CourseOffering.enrolled <$> offerings db' !! 1%nat = Some 1 /\
    active_count 1 db' = 0.
Proof.
  exists (CourseOffering.mk 1 1 30 0 true). eexists.
  split_and!; try reflexivity.
  - unfold window_open. simpl. lia.
  - apply no_active_row_check. reflexivity.
  - apply check_prerequisites_None. reflexivity.
Qed.

(** C4. Registering again after a withdrawal creates no new Enrollment row.
    In the sample database student 7 drops offering 1 and registers for it
    again the day after, with 0 of 30 seats taken, the window open and no
    prerequisite to meet. The drop succeeds and leaves the row withdrawn;
    the duplicate check of the registration, which looks at active rows
    only, lets the request through, and the insert is refused by the
    uniqueness of (student, course_offering) over all rows: an unhandled
    IntegrityError, still one row for the pair, withdrawn, and a counter
    raised to 1. *)
Theorem reregistration_after_drop_fails :
  exists db1 db2,
    handle (Drop 7 1 15) Sample.db = (Success, db1) /\
    objects (enrollments db1) = [Enrollment.mk 7 1 EmptyString false "withdrawn" None] /\
    reaches_prerequisites 7 1 16 db1 (CourseOffering.mk 1 1 30 0 true) /\
    check_prerequisites 7 (required_prerequisites 1 db1) db1 = None /\
    handle (Register 7 1 16) db1 = (ServerError IntegrityError, db2) /\
    objects (enrollments db2) = [Enrollment.mk 7 1 EmptyString false "withdrawn" None] /\
    CourseOffering.enrolled <$> offerings db2 !! 1%nat = Some 1.
Proof.
  eexists _, _. split; [reflexivity|]. split; [reflexivity|].
  split; [|split_and!; reflexivity].
  split_and!; try reflexivity.
  - unfold window_open. simpl. lia.
  - apply no_active_row_check. reflexivity.
Qed.

(** C5, as amended. When the registration reaches the prerequisite loop
    (offering active, window open, a seat free, no active enrollment of the
    student in the offering), it is stopped with MissingPrerequisite if and
    only if some mandatory prerequisite of the course is unmet, and the code
    it reports is that of the first unmet mandatory prerequisite; a
    prerequisite that is not mandatory is never unmet. *)
Theorem register_course_missing_prerequisite db user offering_id today offering :
  reaches_prerequisites user offering_id today db offering ->
  let prereqs := required_prerequisites (CourseOffering.course offering) db in
  (forall code,
     (register_course user offering_id today db).1 = MissingPrerequisite code <->
     exists before prereq after,
       prereqs = before ++ prereq :: after /\
       Forall (fun p => ~ unmet user db p) before /\
       unmet user db prereq /\
       code = Course.code (courses db (CoursePrerequisite.prerequisite prereq))) /\
  ((exists code, (register_course user offering_id today db).1 = MissingPrerequisite code) <->
   exists prereq, prereq ∈ prereqs /\ unmet user db prereq) /\
  (forall prereq rows,
     CoursePrerequisite.is_mandatory prereq = false ->
     check_prerequisites user rows db <> Some prereq).
Proof.
  intros Hreach prereqs.
  assert (Hcode : forall code,
     (register_course user offering_id today db).1 = MissingPrerequisite code <->
     exists before prereq after,
       prereqs = before ++ prereq :: after /\
       Forall (fun p => ~ unmet user db p) before /\
       unmet user db prereq /\
       code = Course.code (courses db (CoursePrerequisite.prerequisite prereq))).
  { intros code.
    rewrite (register_course_prerequisites db user offering_id today offering Hreach).
    fold prereqs. destruct (check_prerequisites user prereqs db) as [p|] eqn:Hcheck.
    - simpl. apply check_prerequisites_Some in Hcheck as Hfirst.
      destruct Hfirst as (before & after & Heq & Hbefore & Hunmet). split.
      + intros [= <-]. by exists before, p, after.
      + intros (before' & p' & after' & Heq' & Hbefore' & Hunmet' & ->).
        assert (Hcheck' : check_prerequisites user prereqs db = Some p').
        { apply check_prerequisites_Some. by exists before', after'. }
        by simplify_eq.
    - split.
      + destruct (Enrollment_create _ _ _) as [[e|] db']; simpl; discriminate.
      + intros (before & p & after & Heq & Hbefore & Hunmet & _).
        assert (Hcheck' : check_prerequisites user prereqs db = Some p).
        { apply check_prerequisites_Some. by exists before, after. }
        by simplify_eq. }
  split_and!; [exact Hcode| |].
  - split.
    + intros [code Hres]. apply Hcode in Hres as (before & p & after & -> & _ & Hunmet & _).
      exists p. split; [|done]. apply elem_of_app. right. left.
    + intros [p [Hin Hunmet]].
      destruct (check_prerequisites user prereqs db) as [q|] eqn:Hcheck.
      * apply check_prerequisites_Some in Hcheck as (before & after & Heq & Hbefore & Hq).
        exists (Course.code (courses db (CoursePrerequisite.prerequisite q))).
        apply Hcode. by exists before, q, after.
      * destruct (proj1 (check_prerequisites_None user prereqs db) Hcheck p Hin Hunmet).
  - intros prereq rows Hopt Hcheck.
    apply check_prerequisites_Some in Hcheck as (_ & _ & _ & _ & [Hmand _]). congruence.
Qed.

Lemma register_course_missing_prerequisite_witness :
  (exists code, (register_course 7 2 15 Sample.db).1 = MissingPrerequisite code) <->
  exists prereq,
    prereq ∈ required_prerequisites 2 Sample.db /\ unmet 7 Sample.db prereq.
Proof.
  apply (register_course_missing_prerequisite Sample.db 7 2 15
           (CourseOffering.mk 2 1 1 0 true)).
  split_and!; try reflexivity.
  - unfold window_open. simpl. lia.
  - apply no_active_row_check. reflexivity.
Defined.

(** Offering 2 is full and student 8 lacks its mandatory prerequisite: the
    registration is stopped by the capacity check, not by the prerequisite. *)
Lemma register_course_missing_prerequisite_counterexample :
  CoursePrerequisite.mk 2 1 true (Some "C") ∈ required_prerequisites 2 Sample.db_full /\
  unmet 8 Sample.db_full (CoursePrerequisite.mk 2 1 true (Some "C")) /\
  (register_course 8 2 15 Sample.db_full).1 = CapacityExceeded /\
  ~ exists code, (register_course 8 2 15 Sample.db_full).1 = MissingPrerequisite code.
Proof.
  split_and!.
  - left.
  - apply blocks_unmet. reflexivity.
  - reflexivity.
  - intros [code Hcode]. discriminate Hcode.
Qed.

(** C7, as amended. A registration by a student who already has an active
    enrollment in the offering fails, creates no Enrollment and leaves the
    counter unchanged: the database is the same afterwards. The failure is
    DuplicateEnrollment when the offering is active, the window is open and
    a seat is free; the window and capacity checks come first and answer
    otherwise. *)
Theorem register_course_duplicate db user offering_id today pk e :
  enrollments db !! pk = Some e ->
  enrolled_in user offering_id e ->
  Enrollment.is_active e = true ->
  (register_course user offering_id today db).2 = db /\
  (register_course user offering_id today db).1
    ∈ [Http404; RegistrationWindowClosed; CapacityExceeded; DuplicateEnrollment] /\
  (forall offering,
     offerings db !! offering_id = Some offering ->
     CourseOffering.is_active offering = true ->
     window_open today (semesters db (CourseOffering.semester offering)) ->
     CourseOffering.enrolled offering < CourseOffering.capacity offering ->
     (register_course user offering_id today db).1 = DuplicateEnrollment).
Proof.
  intros Hpk Hpair Hact.
  assert (Hdup : exists_ (filter (fun e => Enrollment.student e = user
                                        /\ Enrollment.course_offering e = offering_id
                                        /\ Enrollment.is_active e = true)
                                 (objects (enrollments db))) = true).
  { apply duplicate_check. eauto. }
  unfold register_course. split_and!.
  - destruct (get_object_or_404 _ _ _); [|done].
    repeat case_bool_decide; try done.
    destruct (CourseOffering.is_full _); [done|]. by rewrite Hdup.
  - destruct (get_object_or_404 _ _ _); [|set_solver].
    repeat case_bool_decide; try set_solver.
    destruct (CourseOffering.is_full _); [set_solver|]. rewrite Hdup. set_solver.
  - intros offering Ho Hactive [Hstart Hend] Hseats.
    assert (Hget : get_object_or_404 (offerings db) offering_id CourseOffering.is_active
                   = Some offering) by by apply get_object_or_404_Some.
    rewrite Hget.
    rewrite bool_decide_eq_false_2 by lia. rewrite bool_decide_eq_false_2 by lia.
    destruct (CourseOffering.is_full offering) eqn:Hfull.
    { apply is_full_spec in Hfull. lia. }
    by rewrite Hdup.
Qed.

Lemma register_course_duplicate_witness :
  (register_course 7 1 15 Sample.db).2 = Sample.db.
Proof.
  apply (register_course_duplicate Sample.db 7 1 15 1%nat
           (Enrollment.mk 7 1 EmptyString true "registered" None)).
  - reflexivity.
  - split; reflexivity.
  - reflexivity.
Defined.

(** Student 9 holds the only seat of offering 2 and registers again: the
    answer is CapacityExceeded, not DuplicateEnrollment. *)
Lemma register_course_duplicate_counterexample :
  enrollments Sample.db_full !! 2%nat
    = Some (Enrollment.mk 9 2 EmptyString true "registered" None) /\
  (register_course 9 2 15 Sample.db_full).1 = CapacityExceeded /\
  (register_course 9 2 15 Sample.db_full).1 <> DuplicateEnrollment.
Proof. split_and!; [reflexivity..|discriminate]. Qed.

(** ** drop_course *)

Lemma drop_course_Success db user enrollment_id today enrollment offering :
  enrollments db !! enrollment_id = Some enrollment ->
  Enrollment.student enrollment = user ->
  offerings db !! Enrollment.course_offering enrollment = Some offering ->
  today <= Semester.add_drop_deadline (semesters db (CourseOffering.semester offering)) ->
  drop_course user enrollment_id today db =
  (Success,
   set_offerings
     (<[Enrollment.course_offering enrollment :=
          CourseOffering.set_enrolled (CourseOffering.enrolled offering - 1) offering]>
        (offerings db))
     (set_enrollments (<[enrollment_id := Enrollment.withdraw enrollment]> (enrollments db))
        db)).
Proof.
  intros Hpk Hstudent Ho Hdeadline. unfold drop_course.
  assert (Hget : get_object_or_404 (enrollments db) enrollment_id
                   (fun e => bool_decide (Enrollment.student e = user)) = Some enrollment).
  { apply get_object_or_404_Some. split; [done|]. by apply bool_decide_eq_true. }
  rewrite Hget, Ho. rewrite bool_decide_eq_false_2 by lia. done.
Qed.

(** C6. For an enrollment dropped by its student: after the semester's
    add/drop deadline the drop fails with DeadlinePassed and the database,
    so the counter, the status and the active flag, is unchanged; on or
    before the deadline the drop succeeds, the enrollment is withdrawn and
    inactive, and the offering's enrolled counter is lower by exactly 1. *)
Theorem drop_course_deadline db user enrollment_id today enrollment offering :
  enrollments db !! enrollment_id = Some enrollment ->
  Enrollment.student enrollment = user ->
  offerings db !! Enrollment.course_offering enrollment = Some offering ->
  (today > Semester.add_drop_deadline (semesters db (CourseOffering.semester offering)) ->
   drop_course user enrollment_id today db = (DeadlinePassed, db)) /\
  (today <= Semester.add_drop_deadline (semesters db (CourseOffering.semester offering)) ->
   exists db' enrollment' offering',
     drop_course user enrollment_id today db = (Success, db') /\
     enrollments db' !! enrollment_id = Some enrollment' /\
     Enrollment.status enrollment' = "withdrawn" /\
     Enrollment.is_active enrollment' = false /\
     offerings db' !! Enrollment.course_offering enrollment = Some offering' /\
     CourseOffering.enrolled offering' = CourseOffering.enrolled offering - 1).
Proof.
  intros Hpk Hstudent Ho. split.
  - intros Hlate. unfold drop_course.
    assert (Hget : get_object_or_404 (enrollments db) enrollment_id
                     (fun e => bool_decide (Enrollment.student e = user)) = Some enrollment).
    { apply get_object_or_404_Some. split; [done|]. by apply bool_decide_eq_true. }
    rewrite Hget, Ho. by rewrite bool_decide_eq_true_2.
  - intros Hdeadline.
    rewrite (drop_course_Success db user enrollment_id today enrollment offering) by done.
    eexists _, _, _. split; [done|]. simpl.
    rewrite !lookup_insert_eq. split_and!; done.
Qed.

Lemma drop_course_deadline_witness :
  drop_course 7 1 31 Sample.db = (DeadlinePassed, Sample.db) /\
  exists db', drop_course 7 1 30 Sample.db = (Success, db').
Proof.
  destruct (drop_course_deadline Sample.db 7 1 31
              (Enrollment.mk 7 1 EmptyString true "registered" None)
              (CourseOffering.mk 1 1 30 1 true)) as [Hlate _]; [reflexivity..|].
  destruct (drop_course_deadline Sample.db 7 1 30
              (Enrollment.mk 7 1 EmptyString true "registered" None)
              (CourseOffering.mk 1 1 30 1 true)) as [_ Hok]; [reflexivity..|].
  split.
  - apply Hlate. simpl. lia.
  - destruct Hok as (db' & _ & _ & Hok & _); [simpl; lia|]. by exists db'.
Defined.

(** ** FinanceRecord.save *)

(** C9. Saving a finance record that has no program raises NameError on
    [Decimal], a name that no import and no class of the module binds,
    before any balance is computed or any row written; with a program the
    branch is not taken: a balance is computed and the record goes to
    [super().save()], so that no exception is raised, unless the amount or
    the balance exceeds its decimal column, which is InvalidOperation. *)
Theorem FinanceRecord_save_without_program pk student transaction_type amount
    balance_after db :
  load_global "Decimal" = Some (NameError "Decimal") /\
  FinanceRecord_save pk
    (FinanceRecord.mk student None transaction_type amount balance_after) db
    = (Some (NameError "Decimal"), db) /\
  forall program,
    exists balance,
      FinanceRecord_save pk
        (FinanceRecord.mk student (Some program) transaction_type amount balance_after) db
      = FinanceRecord_super_save pk
          (FinanceRecord.mk student (Some program) transaction_type amount balance) db /\
      (FinanceRecord_save pk
         (FinanceRecord.mk student (Some program) transaction_type amount balance_after) db).1
      <> Some (NameError "Decimal") /\
      (FinanceRecord_save pk
         (FinanceRecord.mk student (Some program) transaction_type amount balance_after) db).1
      = if DecimalField_fits amount && DecimalField_fits balance
        then None else Some InvalidOperation.
Proof.
  split_and!; [reflexivity..|]. intros program. eexists. split; [reflexivity|].
  unfold FinanceRecord_save, FinanceRecord_super_save. simpl.
  by destruct (DecimalField_fits amount && DecimalField_fits _).
Qed.

(** ** The finance ledger *)

Lemma Zsum_app (l1 l2 : list Z) : Zsum (l1 ++ l2) = Zsum l1 + Zsum l2.
Proof. unfold Zsum. induction l1 as [|x l1 IH]; simpl; lia. Qed.

Lemma filter_imap_pair {A : Type} (P : A -> Prop) `{forall x, Decision (P x)}
    (f : nat -> nat) (l : list A) :
  (filter (fun ir : nat * A => P ir.2) (imap (fun i x => (f i, x)) l)).*2 = filter P l.
Proof.
  revert f. induction l as [|x l IH]; intros f; [done|].
  rewrite imap_cons, !filter_cons. simpl.
  specialize (IH (f ∘ S)).
  destruct (decide (P x)); simpl; by rewrite <- IH.
Qed.

Lemma previous_payments_new self db :
  previous_payments None self db =
  filter (fun r => FinanceRecord.student r = FinanceRecord.student self
                /\ FinanceRecord.program r = FinanceRecord.program self)
         (finance_records db).
Proof.
  unfold previous_payments.
  rewrite <- (filter_imap_pair _ id (finance_records db)).
  f_equal. apply list_filter_iff. intros [i r]. simpl. split; [tauto|].
  intros [? ?]. done.
Qed.

(** A transaction of one of the four declared types counts for itself what
    it counts for when it is replayed as a previous payment. *)
Lemma signed_amount_paid r :
  FinanceRecord.transaction_type r ∈ FinanceRecord.TRANSACTION_TYPES ->
  signed_amount r = paid r.
Proof.
  unfold FinanceRecord.TRANSACTION_TYPES, signed_amount, paid. intros Hin.
  repeat (apply elem_of_cons in Hin as [->|Hin]); [..|by apply not_elem_of_nil in Hin];
    reflexivity.
Qed.

Lemma ledger_app student program l1 l2 :
  ledger student program (l1 ++ l2) = ledger student program l1 ++ ledger student program l2.
Proof. apply filter_app. Qed.

Lemma ledger_cons student program r l :
  ledger student program (r :: l) =
  if decide (FinanceRecord.student r = student /\ FinanceRecord.program r = Some program)
  then r :: ledger student program l
  else ledger student program l.
Proof. unfold ledger. rewrite filter_cons. by destruct (decide _). Qed.

(** The balance an append leaves is what the replay of the ledger with the
    new record leaves to pay. *)
Lemma owed_snoc db (self : FinanceRecord.t) program records :
  FinanceRecord.program self = Some program ->
  owed db (FinanceRecord.student self) program (records ++ [self])
  = Program.total_program_fee (programs db program)
    - (Zsum (signed_amount <$> ledger (FinanceRecord.student self) program records)
       + signed_amount self).
Proof.
  intros Hp. unfold owed. rewrite ledger_app, (ledger_cons _ _ self []).
  rewrite decide_True by done. rewrite fmap_app, Zsum_app. unfold Zsum. simpl. lia.
Qed.

(** Only the student, the program, the type and the amount of a record
    count when it is replayed. *)
Lemma owed_set_balance_after db student program b tx l1 l2 :
  owed db student program (l1 ++ FinanceRecord.set_balance_after b tx :: l2)
  = owed db student program (l1 ++ tx :: l2).
Proof.
  unfold owed. rewrite !ledger_app, !ledger_cons. simpl.
  destruct (decide _); by rewrite !fmap_app, ?fmap_cons.
Qed.

Lemma FinanceRecord_save_new (self : FinanceRecord.t) db program :
  FinanceRecord.program self = Some program ->
  FinanceRecord.transaction_type self ∈ FinanceRecord.TRANSACTION_TYPES ->
  DecimalField_fits (FinanceRecord.amount self) = true ->
  DecimalField_fits (owed db (FinanceRecord.student self) program
                       (finance_records db ++ [self])) = true ->
  FinanceRecord_save None self db =
  (None,
   set_finance_records
     (finance_records db ++
      [FinanceRecord.set_balance_after
         (owed db (FinanceRecord.student self) program (finance_records db ++ [self]))
         self]) db).
Proof.
  intros Hprogram Htype Hamount Hbalance. unfold FinanceRecord_save. rewrite Hprogram.
  rewrite previous_payments_new, Hprogram.
  fold (ledger (FinanceRecord.student self) program (finance_records db)).
  rewrite owed_snoc in * by done.
  assert (Hsame :
    (if bool_decide (FinanceRecord.transaction_type self ∈ ["payment"; "refund"])
     then Zsum (signed_amount <$> ledger (FinanceRecord.student self) program
                                    (finance_records db)) + FinanceRecord.amount self
     else if bool_decide (FinanceRecord.transaction_type self ∈ ["fee"; "adjustment"])
     then Zsum (signed_amount <$> ledger (FinanceRecord.student self) program
                                    (finance_records db)) - FinanceRecord.amount self
     else Zsum (signed_amount <$> ledger (FinanceRecord.student self) program
                                    (finance_records db)))
    = Zsum (signed_amount <$> ledger (FinanceRecord.student self) program (finance_records db))
      + signed_amount self).
  { unfold FinanceRecord.TRANSACTION_TYPES, signed_amount in *.
    repeat (apply elem_of_cons in Htype as [->|Htype]); [..|by apply not_elem_of_nil in Htype];
      simpl; lia. }
  rewrite Hsame. unfold FinanceRecord_super_save. simpl. by rewrite Hamount, Hbalance.
Qed.

(** An append whose amount or balance does not fit its column raises
    InvalidOperation and stores nothing. *)
Lemma FinanceRecord_save_overflow (self : FinanceRecord.t) db program :
  FinanceRecord.program self = Some program ->
  FinanceRecord.transaction_type self ∈ FinanceRecord.TRANSACTION_TYPES ->
  DecimalField_fits (FinanceRecord.amount self)
  && DecimalField_fits (owed db (FinanceRecord.student self) program
                          (finance_records db ++ [self])) = false ->
  FinanceRecord_save None self db = (Some InvalidOperation, db).
Proof.
  intros Hprogram Htype Hfits. unfold FinanceRecord_save. rewrite Hprogram.
  rewrite previous_payments_new, Hprogram.
  fold (ledger (FinanceRecord.student self) program (finance_records db)).
  rewrite owed_snoc in * by done.
  unfold FinanceRecord_super_save. simpl.
  match goal with |- (if ?a && DecimalField_fits ?x then _ else _) = _ =>
    match type of Hfits with ?a' && DecimalField_fits ?y = false =>
      replace x with y; [by rewrite Hfits|] end end.
  unfold FinanceRecord.TRANSACTION_TYPES, signed_amount in *.
  repeat (apply elem_of_cons in Htype as [->|Htype]); [..|by apply not_elem_of_nil in Htype];
    simpl; lia.
Qed.

Lemma storable_cons db tx rest program :
  FinanceRecord.program tx = Some program ->
  storable db (tx :: rest) ->
  DecimalField_fits (FinanceRecord.amount tx) = true /\
  DecimalField_fits (owed db (FinanceRecord.student tx) program
                       (finance_records db ++ [tx])) = true /\
  forall b,
    storable (set_finance_records
                (finance_records db ++ [FinanceRecord.set_balance_after b tx]) db) rest.
Proof.
  intros Hp Hok. destruct (Hok 0%nat tx program eq_refl Hp) as [Hamount Hbalance].
  split; [done|]. split; [done|]. intros b i tx' p' Hi Hp'.
  destruct (Hok (S i) tx' p' Hi Hp') as [Hamount' Hbalance']. split; [done|].
  simpl. rewrite <- app_assoc. simpl.
  unfold owed at 1. simpl. fold (owed db (FinanceRecord.student tx') p'
    (finance_records db ++ FinanceRecord.set_balance_after b tx :: take (S i) rest)).
  by rewrite owed_set_balance_after.
Qed.

Lemma append_transactions_ledger student program txs :
  forall db,
    Forall appendable txs ->
    storable db txs ->
    exists db',
      append_transactions txs db = (None, db') /\
      programs db' = programs db /\
      (exists new, finance_records db' = finance_records db ++ new) /\
      forall K tx,
        ledger student program txs !! K = Some tx ->
        ledger student program (finance_records db')
          !! (length (ledger student program (finance_records db)) + K)%nat
        = Some (FinanceRecord.set_balance_after
                  (Program.total_program_fee (programs db program)
                   - (Zsum (signed_amount <$> ledger student program (finance_records db))
                      + Zsum (paid <$> take (S K) (ledger student program txs)))) tx).
Proof.
  induction txs as [|tx rest IH]; intros db Hok Hfit.
  - exists db. split_and!; [done..|exists []; by rewrite app_nil_r|]. intros K tx HK. done.
  - apply Forall_cons in Hok as [[[p Hp] Htype] Hrest]. simpl.
    destruct (storable_cons db tx rest p Hp Hfit) as (Hamount & Hbalance & Hfit').
    rewrite (FinanceRecord_save_new tx db p Hp Htype Hamount Hbalance).
    set (r1 := FinanceRecord.set_balance_after _ tx).
    set (db1 := set_finance_records (finance_records db ++ [r1]) db).
    destruct (IH db1 Hrest (Hfit' _)) as (db' & Happend & Hprograms & [new Hnew] & Hledger).
    exists db'. split_and!; [done|done| |].
    { exists (r1 :: new). rewrite Hnew. simpl. by rewrite <- app_assoc. }
    assert (Hledger1 : ledger student program (finance_records db1) =
                       ledger student program (finance_records db)
                         ++ if decide (FinanceRecord.student tx = student
                                       /\ FinanceRecord.program tx = Some program)
                            then [r1] else []).
    { unfold db1. simpl. rewrite ledger_app, (ledger_cons _ _ r1 []). unfold r1. simpl.
      by destruct (decide _). }
    intros K tx' HK. rewrite ledger_cons in HK. rewrite (ledger_cons _ _ tx rest).
    destruct (decide (FinanceRecord.student tx = student
                      /\ FinanceRecord.program tx = Some program)) as [[Hs Hpp]|Hother].
    + assert (p = program) as -> by congruence.
      destruct K as [|K]; simpl in HK.
      * injection HK as <-.
        rewrite Hnew. simpl. rewrite !ledger_app, (ledger_cons _ _ r1 []).
        simpl. rewrite decide_True by done.
        rewrite <- app_assoc. rewrite lookup_app_r by lia.
        replace (_ + 0 - _)%nat with 0%nat by lia. simpl.
        unfold r1. rewrite owed_snoc by done. rewrite Hs.
        rewrite (signed_amount_paid tx Htype). do 3 f_equal. unfold Zsum. simpl. lia.
      * specialize (Hledger K tx' HK). rewrite Hledger1 in Hledger.
        rewrite length_app in Hledger. simpl in Hledger.
        replace (_ + S K)%nat
          with (length (ledger student program (finance_records db)) + 1 + K)%nat by lia.
        rewrite Hledger. do 3 f_equal. rewrite fmap_app, Zsum_app. simpl.
        change (signed_amount r1) with (signed_amount tx).
        rewrite (signed_amount_paid tx Htype).
        change (list_fmap FinanceRecord.t Z paid) with (fmap (M:=list) paid). lia.
    + specialize (Hledger K tx' HK). rewrite Hledger1, app_nil_r in Hledger. exact Hledger.
Qed.

Lemma storable_nil db : storable db [].
Proof. intros i tx program Hi. done. Qed.

Lemma storable_cons_2 db tx rest program b :
  FinanceRecord.program tx = Some program ->
  DecimalField_fits (FinanceRecord.amount tx) = true ->
  DecimalField_fits (owed db (FinanceRecord.student tx) program
                       (finance_records db ++ [tx])) = true ->
  storable (set_finance_records
              (finance_records db ++ [FinanceRecord.set_balance_after b tx]) db) rest ->
  storable db (tx :: rest).
Proof.
  intros Hp Hamount Hbalance Hrest i tx' p' Hi Hp'. destruct i as [|i]; simpl in Hi.
  - injection Hi as <-. assert (p' = program) as -> by congruence. done.
  - destruct (Hrest i tx' p' Hi Hp') as [Hamount' Hbalance']. split; [done|].
    simpl in Hbalance'. rewrite <- app_assoc in Hbalance'. simpl in Hbalance'.
    unfold owed at 1 in Hbalance'. simpl in Hbalance'.
    fold (owed db (FinanceRecord.student tx') p'
            (finance_records db ++ FinanceRecord.set_balance_after b tx :: take (S i) rest))
      in Hbalance'.
    by rewrite owed_set_balance_after in Hbalance'.
Qed.

(** A sequence of appends stores the transactions up to the first one whose
    amount or balance does not fit its column, and ends there with
    InvalidOperation. *)
Lemma append_transactions_stored txs :
  forall db,
    Forall appendable txs ->
    exists n,
      (n <= length txs)%nat /\
      storable db (take n txs) /\
      ((n < length txs)%nat -> ~ storable db (take (S n) txs)) /\
      append_transactions txs db
      = ((if decide (n = length txs) then None else Some InvalidOperation),
         (append_transactions (take n txs) db).2).
Proof.
  induction txs as [|tx rest IH]; intros db Hok.
  - exists 0%nat. split_and!; [done|apply storable_nil|simpl; lia|done].
  - apply Forall_cons in Hok as [[[p Hp] Htype] Hrest].
    destruct (DecimalField_fits (FinanceRecord.amount tx)
              && DecimalField_fits (owed db (FinanceRecord.student tx) p
                                      (finance_records db ++ [tx]))) eqn:Hfits.
    + apply andb_true_iff in Hfits as [Hamount Hbalance].
      pose proof (FinanceRecord_save_new tx db p Hp Htype Hamount Hbalance) as Hsave.
      set (db1 := set_finance_records _ db) in Hsave.
      destruct (IH db1 Hrest) as (n & Hn & Hstored & Hfirst & Happend).
      exists (S n). split_and!.
      * simpl. lia.
      * simpl. by eapply (storable_cons_2 db tx (take n rest) p); [done..|exact Hstored].
      * simpl. intros Hlt Hall.
        destruct (storable_cons db tx (take (S n) rest) p Hp Hall) as (_ & _ & Hall').
        apply Hfirst; [lia|]. apply Hall'.
      * simpl. rewrite Hsave, Happend. f_equal.
        destruct (decide (n = length rest)), (decide (S n = S (length rest))); done || lia.
    + exists 0%nat. split_and!.
      * simpl. lia.
      * apply storable_nil.
      * intros _ Hall. destruct (Hall 0%nat tx p eq_refl Hp) as [Hamount Hbalance].
        simpl in Hbalance. by rewrite Hamount, Hbalance in Hfits.
      * simpl. by rewrite (FinanceRecord_save_overflow tx db p Hp Htype Hfits).
Qed.

Lemma storable_take db txs n : storable db txs -> storable db (take n txs).
Proof.
  intros Hall i tx program Hi Hp.
  apply lookup_take_Some in Hi as [Hi Hlt].
  destruct (Hall i tx program Hi Hp) as [Hamount Hbalance]. split; [done|].
  by rewrite take_take, Nat.min_l by lia.
Qed.

(** A result of fewer than 28 digits is not rounded. *)
Lemma Decimal_context_small (value : Z) :
  Z.abs value < 10 ^ 28 -> Decimal_context value = value.
Proof. intros Hsmall. unfold Decimal_context. by rewrite bool_decide_eq_true_2. Qed.

(** The fee of a program whose fees and duration are in range is computed
    without rounding. *)
Lemma total_program_fee_exact (program : Program.t) :
  fee_in_range program ->
  Program.total_program_fee program
  = (Program.tuition_fee program + Program.exam_fee program + Program.other_fees program)
    * Program.duration program
    + Program.registration_fee program.
Proof.
  intros (Ht & He & Ho & Hr & Hd).
  unfold DecimalField_fits in *. apply bool_decide_eq_true_1 in Ht, He, Ho, Hr.
  unfold Program.total_program_fee, Program.total_fee_per_semester.
  assert (H10 : 10 ^ 10 = 10000000000) by reflexivity.
  assert (H17 : 10 ^ 17 = 100000000000000000) by reflexivity.
  assert (H28 : 10 ^ 28 = 10000000000000000000000000000) by reflexivity.
  rewrite H10 in *. rewrite H17 in *.
  rewrite (Decimal_context_small (_ + Program.exam_fee program)) by (rewrite H28; lia).
  rewrite (Decimal_context_small (_ + Program.other_fees program)) by (rewrite H28; lia).
  set (fees := Program.tuition_fee program + Program.exam_fee program
               + Program.other_fees program).
  assert (Hfees : Z.abs fees < 30000000000) by (unfold fees; lia).
  assert (Hproduct : Z.abs (fees * Program.duration program)
                     <= 30000000000 * 100000000000000000).
  { rewrite Z.abs_mul. apply Z.mul_le_mono_nonneg; lia. }
  rewrite (Decimal_context_small (fees * _)) by (rewrite H28; lia).
  rewrite Decimal_context_small by (rewrite H28; lia). done.
Qed.

(** C2. Appending a sequence of transactions, each naming a program and of
    a declared type, to a database that has no record yet for a
    student/program pair. The appends succeed up to the first transaction
    whose amount or balance does not fit the ten-digit decimal columns,
    which raises InvalidOperation and ends the sequence; when all of them
    fit, all are appended. The K-th record stored for the pair is the K-th
    transaction of the pair, with balance_after equal to
    total_program_fee(program) minus the signed sum of the amounts of the
    pair's records 1..K, payments and refunds counted positive, fees and
    adjustments negative. total_program_fee is (tuition_fee + exam_fee +
    other_fees) x duration + registration_fee, for fees that their columns
    take and a duration of at most 17 digits: the decimal context computes
    such a fee without rounding. *)
Theorem balance_after_replays_ledger db student program txs :
  Forall appendable txs ->
  ledger student program (finance_records db) = [] ->
  (exists n db',
     (n <= length txs)%nat /\
     (storable db txs -> n = length txs) /\
     ((n < length txs)%nat -> ~ storable db (take (S n) txs)) /\
     append_transactions txs db
     = ((if decide (n = length txs) then None else Some InvalidOperation), db') /\
     forall K tx,
       ledger student program (take n txs) !! K = Some tx ->
       exists r,
         ledger student program (finance_records db') !! K = Some r /\
         FinanceRecord.transaction_type r = FinanceRecord.transaction_type tx /\
         FinanceRecord.amount r = FinanceRecord.amount tx /\
         FinanceRecord.balance_after r =
           Program.total_program_fee (programs db program)
           - Zsum (paid <$> take (S K) (ledger student program txs))) /\
  (fee_in_range (programs db program) ->
   Program.total_program_fee (programs db program) =
     (Program.tuition_fee (programs db program) + Program.exam_fee (programs db program)
      + Program.other_fees (programs db program)) * Program.duration (programs db program)
     + Program.registration_fee (programs db program)).
Proof.
  intros Hok Hempty. split; [|apply total_program_fee_exact].
  destruct (append_transactions_stored txs db Hok) as (n & Hn & Hstored & Hfirst & Happend).
  assert (Hok' : Forall appendable (take n txs)) by by apply Forall_take.
  destruct (append_transactions_ledger student program (take n txs) db Hok' Hstored)
    as (db' & Hprefix & _ & _ & Hledger).
  rewrite Hprefix in Happend. simpl in Happend.
  exists n, db'. split_and!; [done| |done|done|].
  - intros Hall. destruct (decide (n = length txs)) as [|Hne]; [done|].
    destruct Hfirst; [lia|]. by apply storable_take.
  - intros K tx HK.
    specialize (Hledger K tx HK). rewrite Hempty in Hledger. simpl in Hledger.
    eexists. split; [exact Hledger|]. split_and!; [done..|].
    cbn [FinanceRecord.balance_after FinanceRecord.set_balance_after].
    change (Zsum (signed_amount <$> [])) with 0.
    assert (Hsame : take (S K) (ledger student program (take n txs))
                    = take (S K) (ledger student program txs)).
    { rewrite <- (take_drop n txs) at 2. rewrite ledger_app.
      apply lookup_lt_Some in HK. by rewrite take_app_le by lia. }
    rewrite Hsame. lia.
Qed.

Lemma sample_storable : storable Sample.db [Sample.payment; Sample.fee].
Proof.
  intros i tx program Hi Hp.
  destruct i as [|[|i]]; simpl in Hi; [| |done]; injection Hi as <-; injection Hp as <-;
    split; reflexivity.
Qed.

Lemma sample_fee_in_range : fee_in_range Sample.program.
Proof. unfold fee_in_range. split_and!; try reflexivity. simpl. lia. Qed.

Lemma balance_after_replays_ledger_witness :
  (exists db',
     append_transactions [Sample.payment; Sample.fee] Sample.db = (None, db') /\
     forall K tx,
       ledger 7 1 [Sample.payment; Sample.fee] !! K = Some tx ->
       exists r,
         ledger 7 1 (finance_records db') !! K = Some r /\
         FinanceRecord.transaction_type r = FinanceRecord.transaction_type tx /\
         FinanceRecord.amount r = FinanceRecord.amount tx /\
         FinanceRecord.balance_after r =
           Program.total_program_fee (programs Sample.db 1%nat)
           - Zsum (paid <$> take (S K) (ledger 7 1 [Sample.payment; Sample.fee]))) /\
  Program.total_program_fee (programs Sample.db 1%nat) = (100000 + 10000 + 0) * 2 + 5000.
Proof.
  destruct (balance_after_replays_ledger Sample.db 7 1 [Sample.payment; Sample.fee])
    as [(n & db' & _ & Hall & _ & Happend & Hledger) Hfee].
  - repeat apply Forall_cons_2; try done;
      (split; [by eexists|]); unfold FinanceRecord.TRANSACTION_TYPES; simpl; set_solver.
  - reflexivity.
  - split; [|exact (Hfee sample_fee_in_range)].
    rewrite (Hall sample_storable) in Happend, Hledger. by exists db'.
Defined.

(** Beyond 28 digits the fee is rounded: a program of 2^63 - 1 semesters
    at 299999999.97 each, with a registration fee of 50.00, costs
    2767011610779731580994356776 and not 2767011610779731580994356775.79. *)
Example total_program_fee_rounded :
  Program.total_program_fee Fixtures.program_long = 276701161077973158099435677600 /\
  (9999999999 + 9999999999 + 9999999999) * (2 ^ 63 - 1) + 5000
  = 276701161077973158099435677579.
Proof. split; reflexivity. Qed.

(** The example of the specification: with a total fee of 2250.00, a payment
    of 500.00 leaves 1750.00 and a fee of 200.00 then leaves 1950.00. *)
Example balance_after_example :
  Program.total_program_fee Sample.program = 225000 /\
  FinanceRecord.balance_after
    <$> finance_records (append_transactions [Sample.payment; Sample.fee] Sample.db).2
  = [175000; 195000].
Proof. split; reflexivity. Qed.

(** A balance that needs more than ten digits is not stored: with a total
    fee of 199999999.98, a payment of 99999999.99 leaves 99999999.99, and a
    fee of 0.01 would then leave 100000000.00. The second append raises
    InvalidOperation and the ledger keeps its single record. *)
Example balance_after_overflow :
  let txs := [FinanceRecord.mk 7 (Some 1%nat) "payment" 9999999999 0;
              FinanceRecord.mk 7 (Some 1%nat) "fee" 1 0] in
  Program.total_program_fee (programs Fixtures.db_costly 1%nat) = 19999999998 /\
  (append_transactions txs Fixtures.db_costly).1 = Some InvalidOperation /\
  FinanceRecord.balance_after
    <$> finance_records (append_transactions txs Fixtures.db_costly).2
  = [9999999999].
Proof. split_and!; reflexivity. Qed.

(** A record whose type is outside the declared choices leaves its own
    balance untouched and is subtracted when later records replay it. *)
Example balance_after_undeclared_type :
  FinanceRecord.balance_after
    <$> finance_records
          (append_transactions
             [FinanceRecord.mk 7 (Some 1%nat) "waiver" 30000 0; Sample.payment] Sample.db).2
  = [225000; 205000].
Proof. reflexivity. Qed.

(** ** Rounding to binary64 *)

Lemma digits2_pos_log2 (p : positive) : Zpos (digits2_pos p) = Z.log2 (Zpos p) + 1.
Proof.
  induction p as [p IH|p IH|]; simpl digits2_pos; [| |done].
  - rewrite Pos2Z.inj_succ, IH, Pos2Z.inj_xI, Z.log2_succ_double by done. lia.
  - rewrite Pos2Z.inj_succ, IH, Pos2Z.inj_xO, Z.log2_double by done. lia.
Qed.

Lemma Zdigits2_log2 (m : Z) : 0 < m -> Zdigits2 m = Z.log2 m + 1.
Proof. destruct m as [|p|p]; try lia. intros _. apply digits2_pos_log2. Qed.

Lemma shr_1_m mrs : 0 <= shr_m mrs -> shr_m (shr_1 mrs) = shr_m mrs / 2.
Proof.
  destruct mrs as [m r s]. simpl. intros Hm.
  destruct m as [|[p|p|]|p]; simpl; try lia; try done.
  - rewrite Pos2Z.inj_xI. apply Z.div_unique with 1; lia.
  - rewrite Pos2Z.inj_xO. apply Z.div_unique with 0; lia.
Qed.

Lemma iter_pos_shr_1_m (p : positive) :
  forall mrs, 0 <= shr_m mrs -> shr_m (@SpecFloat.iter_pos shr_record shr_1 p mrs) = shr_m mrs / 2 ^ Zpos p.
Proof.
  assert (Hhalf : forall mrs, 0 <= shr_m mrs -> 0 <= shr_m (shr_1 mrs)).
  { intros mrs Hm. rewrite shr_1_m by done. apply Z.div_pos; lia. }
  induction p as [p IH|p IH|]; intros mrs Hm; simpl SpecFloat.iter_pos.
  - assert (Hpos : 0 < 2 ^ Zpos p) by (apply Z.pow_pos_nonneg; lia).
    rewrite IH, IH, shr_1_m by (rewrite ?IH; auto; apply Z.div_pos; auto; lia).
    rewrite !Z.div_div by lia. f_equal.
    replace (Z.pos p~1) with (1 + Z.pos p + Z.pos p) by lia.
    rewrite !Z.pow_add_r by lia. lia.
  - assert (Hpos : 0 < 2 ^ Zpos p) by (apply Z.pow_pos_nonneg; lia).
    rewrite IH, IH by (rewrite ?IH; auto; apply Z.div_pos; auto; lia).
    rewrite !Z.div_div by lia. f_equal.
    replace (Z.pos p~0) with (Z.pos p + Z.pos p) by lia.
    rewrite !Z.pow_add_r by lia. lia.
  - by rewrite shr_1_m.
Qed.

Lemma shr_record_of_loc_m m l : shr_m (shr_record_of_loc m l) = m.
Proof. by destruct l as [|[]]. Qed.

(** The first step of rounding drops the bits that the format cannot keep. *)
Lemma shr_fexp_spec m e l :
  0 <= m ->
  let n := Z.max 0 (fexp prec emax (Zdigits2 m + e) - e) in
  shr_m (shr_fexp prec emax m e l).1 = m / 2 ^ n /\ (shr_fexp prec emax m e l).2 = e + n.
Proof.
  intros Hm n. unfold shr_fexp, shr. fold (fexp prec emax).
  subst n. destruct (fexp prec emax (Zdigits2 m + e) - e) as [|p|p] eqn:Hn; simpl.
  - rewrite shr_record_of_loc_m, Z.div_1_r. split; [done|lia].
  - rewrite iter_pos_shr_1_m by (by rewrite shr_record_of_loc_m).
    rewrite shr_record_of_loc_m. split; [done|lia].
  - rewrite shr_record_of_loc_m, Z.div_1_r. split; [done|lia].
Qed.

Lemma round_nearest_even_cases m l :
  round_nearest_even m l = m \/ round_nearest_even m l = m + 1.
Proof. destruct l as [|[]]; simpl; try (by left); try (by right). destruct (Z.even m); auto. Qed.

Lemma fexp_normal e : -1021 <= e -> fexp prec emax e = e - 53.
Proof. unfold fexp, emin, prec, emax. lia. Qed.

Lemma log2_bounds m k : 2 ^ k <= m < 2 ^ (k + 1) -> 0 <= k -> Z.log2 m = k.
Proof. intros Hm Hk. by apply Z.log2_unique. Qed.

(** Rounding a mantissa of at least 53 bits, above the subnormal range: the
    mantissa is cut to its 53 leading bits, and what is cut off decides
    whether it is kept or raised by one. *)
Lemma binary_round_aux_normal sx mx ex lx :
  2 ^ 52 <= mx -> -1074 <= ex ->
  let n := Z.log2 mx - 52 in
  let m1 := mx / 2 ^ n in
  exists m e,
    binary_round_aux prec emax sx mx ex lx
    = (if e <=? 971 then S754_finite sx (Z.to_pos m) e else S754_infinity sx) /\
    0 <= n /\
    2 ^ 52 <= m1 < 2 ^ 53 /\
    2 ^ 52 <= m < 2 ^ 53 /\
    ((m = m1 /\ e = ex + n) \/
     (m = m1 + 1 /\ e = ex + n) \/
     (m = 2 ^ 52 /\ e = ex + n + 1 /\ m1 + 1 = 2 ^ 53)).
Proof.
  intros Hmx Hex n m1.
  assert (Hpos : 0 < mx) by (pose proof (Z.pow_pos_nonneg 2 52); lia).
  assert (Hn : 0 <= n).
  { unfold n. apply Z.log2_le_mono in Hmx. rewrite Z.log2_pow2 in Hmx; lia. }
  destruct (Z.log2_spec mx Hpos) as [Hlow Hhigh].
  assert (H2n : 0 < 2 ^ n) by (apply Z.pow_pos_nonneg; lia).
  assert (Hsplit : 2 ^ Z.log2 mx = 2 ^ n * 2 ^ 52).
  { rewrite <- Z.pow_add_r by lia. f_equal. unfold n. lia. }
  assert (Hm1 : 2 ^ 52 <= m1 < 2 ^ 53).
  { unfold m1. split.
    - apply Z.div_le_lower_bound; lia.
    - apply Z.div_lt_upper_bound; [lia|].
      replace (Z.succ (Z.log2 mx)) with (n + 53) in Hhigh by (unfold n; lia).
      rewrite Z.pow_add_r in Hhigh; lia. }
  unfold binary_round_aux.
  destruct (shr_fexp_spec mx ex lx) as [Hm' He']; [lia|].
  destruct (shr_fexp prec emax mx ex lx) as [mrs' e'] eqn:H1. simpl in Hm', He'.
  rewrite (Zdigits2_log2 mx Hpos), fexp_normal in Hm', He' by lia.
  replace (Z.max 0 (Z.log2 mx + 1 + ex - 53 - ex)) with n in Hm', He' by (unfold n; lia).
  fold m1 in Hm'.
  set (m2 := round_nearest_even (shr_m mrs') (loc_of_shr_record mrs')).
  assert (Hm2 : m2 = m1 \/ m2 = m1 + 1).
  { unfold m2. rewrite <- Hm'. apply round_nearest_even_cases. }
  destruct (shr_fexp_spec m2 e' loc_Exact) as [Hm'' He'']; [lia|].
  destruct (shr_fexp prec emax m2 e' loc_Exact) as [mrs'' e''] eqn:H2. simpl in Hm'', He''.
  rewrite (Zdigits2_log2 m2) in Hm'', He'' by lia.
  destruct (decide (m2 < 2 ^ 53)) as [Hsmall|Hbig].
  - assert (Hlog : Z.log2 m2 = 52) by (apply log2_bounds; [split|]; simpl; lia).
    rewrite Hlog, fexp_normal in Hm'', He'' by lia.
    replace (Z.max 0 (52 + 1 + e' - 53 - e')) with 0 in Hm'', He'' by lia.
    rewrite Z.div_1_r in Hm''.
    exists m2, e'. rewrite Hm''.
    assert (He : e'' = e') by lia. rewrite He.
    split.
    { destruct m2 as [|p|p]; try lia. done. }
    split; [done|]. split; [done|]. split; [lia|].
    destruct Hm2 as [->| ->]; [left|right; left]; split; lia.
  - assert (Heq : m2 = 2 ^ 53) by lia.
    assert (Hlog : Z.log2 m2 = 53) by (rewrite Heq; apply Z.log2_pow2; lia).
    rewrite Hlog, fexp_normal in Hm'', He'' by lia.
    replace (Z.max 0 (53 + 1 + e' - 53 - e')) with 1 in Hm'', He'' by lia.
    rewrite Heq in Hm''. change (2 ^ 53 / 2 ^ 1) with (2 ^ 52) in Hm''.
    exists (2 ^ 52), (e' + 1). rewrite Hm'', He''.
    split; [done|]. split; [done|]. split; [done|]. split; [lia|].
    right. right. lia.
Qed.

Lemma new_location_zero b : new_location b 0 = loc_Exact.
Proof. unfold new_location, new_location_even, new_location_odd. by destruct (Z.even b). Qed.

(** The quotient that is handed to the rounding: at least 53 bits of
    [a / b], the rest being described by the location. *)
Lemma SFdiv_core_binary_spec a b :
  0 < a -> 0 < b ->
  -1021 <= Z.log2 a - Z.log2 b ->
  let e := Z.min (Z.log2 a - Z.log2 b - 53) 0 in
  let q := a * 2 ^ (- e) / b in
  SFdiv_core_binary prec emax a 0 b 0
  = (q, e, new_location b (a * 2 ^ (- e) mod b)) /\
  2 ^ 52 <= q /\
  q * b <= a * 2 ^ (- e) < (q + 1) * b.
Proof.
  intros Ha Hb HD e q.
  assert (He : - e >= 0) by (unfold e; lia).
  assert (H2e : 0 < 2 ^ (- e)) by (apply Z.pow_pos_nonneg; lia).
  split; [|split].
  - unfold SFdiv_core_binary.
    rewrite (Zdigits2_log2 a Ha), (Zdigits2_log2 b Hb).
    replace (Z.log2 a + 1 + 0 - (Z.log2 b + 1 + 0)) with (Z.log2 a - Z.log2 b) by lia.
    rewrite fexp_normal by lia. change (0 - 0) with 0. fold e.
    replace (0 - e) with (- e) by lia.
    assert (Hshift : match - e with
                     | Z.pos _ => Z.shiftl a (- e)
                     | 0 => a
                     | Z.neg _ => 0
                     end = a * 2 ^ (- e)).
    { destruct (- e) as [|p|p] eqn:Hs.
      - rewrite Z.pow_0_r. lia.
      - rewrite Z.shiftl_mul_pow2; [reflexivity|done].
      - lia. }
    rewrite Hshift. unfold q, Z.div, Z.modulo.
    by destruct (Z.div_eucl (a * 2 ^ (- e)) b).
  - unfold q. apply Z.div_le_lower_bound; [done|].
    destruct (Z.log2_spec a Ha) as [Hla _]. destruct (Z.log2_spec b Hb) as [_ Hlb].
    assert (Hlog2b : 0 <= Z.log2 b) by apply Z.log2_nonneg.
    assert (Hlog2a : 0 <= Z.log2 a) by apply Z.log2_nonneg.
    destruct (decide (Z.log2 a - Z.log2 b - 53 <= 0)) as [Hle|Hgt].
    + replace (- e) with (53 + Z.log2 b - Z.log2 a) by (unfold e; lia).
      assert (Hpow : 2 ^ Z.log2 a * 2 ^ (53 + Z.log2 b - Z.log2 a)
                     = 2 ^ 52 * 2 ^ Z.succ (Z.log2 b)).
      { rewrite <- (Z.pow_add_r 2 (Z.log2 a)), <- (Z.pow_add_r 2 52) by lia. f_equal. lia. }
      assert (0 < 2 ^ (53 + Z.log2 b - Z.log2 a)) by (apply Z.pow_pos_nonneg; lia).
      nia.
    + replace (- e) with 0 by (unfold e; lia). rewrite Z.mul_1_r.
      assert (Hpow : 2 ^ 52 * 2 ^ Z.succ (Z.log2 b) <= 2 ^ Z.log2 a).
      { rewrite <- (Z.pow_add_r 2 52) by lia. apply Z.pow_le_mono_r; lia. }
      nia.
  - unfold q. split.
    + pose proof (Z.mul_div_le (a * 2 ^ (- e)) b Hb). lia.
    + pose proof (Z.mul_succ_div_gt (a * 2 ^ (- e)) b Hb). lia.
Qed.

Lemma Qpow2_pos (e : Z) : (0 < 2 ^ e)%Q.
Proof. by apply Qpower_0_lt. Qed.

Lemma Qpow2_add (a b : Z) : (2 ^ (a + b) == 2 ^ a * 2 ^ b)%Q.
Proof. by apply Qpower_plus. Qed.

Lemma Qpow2_inject (n : Z) : 0 <= n -> (inject_Z (2 ^ n) == 2 ^ n)%Q.
Proof. intros Hn. by rewrite Zpower_Qpower. Qed.

(** Rounding stays within one unit of the last of the 53 bits: a relative
    error of at most 2^-52. *)
Lemma binary_round_aux_error mx ex lx (x : Q) :
  2 ^ 52 <= mx -> -1074 <= ex ->
  (inject_Z mx * 2 ^ ex <= x)%Q ->
  (x < inject_Z (mx + 1) * 2 ^ ex)%Q ->
  exists m e,
    binary_round_aux prec emax false mx ex lx
    = (if e <=? 971 then S754_finite false m e else S754_infinity false) /\
    2 ^ 52 <= Zpos m < 2 ^ 53 /\
    ex <= e /\
    (Qabs (inject_Z (Zpos m) * 2 ^ e - x) <= x * (1 # 2 ^ 52))%Q.
Proof.
  intros Hmx Hex Hlow Hhigh.
  destruct (binary_round_aux_normal false mx ex lx Hmx Hex)
    as (m & e & Hround & Hn & Hm1 & Hm & Hcases).
  set (n := Z.log2 mx - 52) in *. set (m1 := mx / 2 ^ n) in *.
  assert (H2n : 0 < 2 ^ n) by (apply Z.pow_pos_nonneg; lia).
  assert (Hfloor : m1 * 2 ^ n <= mx /\ mx + 1 <= (m1 + 1) * 2 ^ n).
  { pose proof (Z.mul_div_le mx (2 ^ n) H2n).
    pose proof (Z.mul_succ_div_gt mx (2 ^ n) H2n). unfold m1. lia. }
  destruct Hfloor as [Hfloor Hceil].
  set (U := (2 ^ (ex + n))%Q).
  assert (HU : (0 < U)%Q) by apply Qpow2_pos.
  assert (HUeq : (U == inject_Z (2 ^ n) * 2 ^ ex)%Q).
  { unfold U. rewrite Qpow2_add, Qpow2_inject by done. ring. }
  assert (Hlo : (inject_Z m1 * U <= x)%Q).
  { eapply Qle_trans; [|exact Hlow]. rewrite HUeq, Qmult_assoc, <- inject_Z_mult.
    apply Qmult_le_compat_r; [by rewrite <- Zle_Qle|]. apply Qlt_le_weak, Qpow2_pos. }
  assert (Hhi : (x < (inject_Z m1 + 1) * U)%Q).
  { eapply Qlt_le_trans; [exact Hhigh|].
    rewrite HUeq, Qmult_assoc. change 1%Q with (inject_Z 1).
    rewrite <- inject_Z_plus, <- inject_Z_mult.
    apply Qmult_le_compat_r; [by rewrite <- Zle_Qle|]. apply Qlt_le_weak, Qpow2_pos. }
  assert (Hbig : (inject_Z (2 ^ 52) <= inject_Z m1)%Q) by (rewrite <- Zle_Qle; lia).
  assert (Hulp : (U <= x * (1 # 2 ^ 52))%Q).
  { change (inject_Z (2 ^ 52)) with (4503599627370496 # 1)%Q in Hbig.
    change (1 # 2 ^ 52)%Q with (1 # 4503599627370496)%Q. nra. }
  destruct m as [|p|p]; try lia.
  exists p, e. split; [exact Hround|]. split; [lia|]. split; [lia|].
  apply Qabs_Qle_condition.
  destruct Hcases as [[-> ->]|[[Hp ->]|(Hp & -> & Hfull)]].
  - fold U. lra.
  - fold U. rewrite Hp, inject_Z_plus. change (inject_Z 1) with 1%Q. lra.
  - assert (Hval : (inject_Z (Z.pos p) * 2 ^ (ex + n + 1) == (inject_Z m1 + 1) * U)%Q).
    { rewrite Qpow2_add. fold U. change (2 ^ 1)%Q with 2%Q.
      change 1%Q with (inject_Z 1) at 1. rewrite <- inject_Z_plus, Hfull, Hp.
      change (inject_Z (2 ^ 53)) with (2 * inject_Z (2 ^ 52))%Q. ring. }
    rewrite Hval. lra.
Qed.

Lemma Qpow2_opp_inject (n : Z) : 0 <= n -> (2 ^ (- n) == / inject_Z (2 ^ n))%Q.
Proof. intros Hn. by rewrite Qpower_opp, Qpow2_inject. Qed.

Lemma Qpow2_le (a b : Z) : a <= b -> (2 ^ a <= 2 ^ b)%Q.
Proof. intros Hab. by apply Qpower_le_compat_l. Qed.

(** A float of 53 bits whose value stays below 2^1024 has an exponent that
    the format takes. *)
Lemma exponent_in_range (m : positive) (e : Z) :
  2 ^ 52 <= Zpos m ->
  (inject_Z (Zpos m) * 2 ^ e < 2 ^ 1024)%Q ->
  e <= 971.
Proof.
  intros Hm Hvalue. destruct (decide (e <= 971)) as [|Hbig]; [done|].
  assert (Hpow : (2 ^ 972 <= 2 ^ e)%Q) by (apply Qpow2_le; lia).
  assert (Hm' : (inject_Z (2 ^ 52) <= inject_Z (Zpos m))%Q) by by rewrite <- Zle_Qle.
  assert (Hsplit : (2 ^ 1024 == inject_Z (2 ^ 52) * 2 ^ 972)%Q) by reflexivity.
  rewrite Hsplit in Hvalue.
  pose proof (Qpow2_pos 972) as H972. pose proof (Qpow2_pos e) as He.
  set (P := (2 ^ 972)%Q) in *. set (E := (2 ^ e)%Q) in *.
  change (inject_Z (2 ^ 52)) with (4503599627370496 # 1)%Q in *. nra.
Qed.

(** The true division of two positive integers whose quotient is not
    subnormal: OverflowError, or a float of 53 bits within a relative 2^-52
    of the quotient. *)
Lemma int_true_divide_error a b :
  0 < a -> 0 < b ->
  -1021 <= Z.log2 a - Z.log2 b ->
  exists m e,
    int_true_divide a b
    = (if e <=? 971 then inr (S754_finite false m e) else inl OverflowError) /\
    2 ^ 52 <= Zpos m < 2 ^ 53 /\
    Z.min (Z.log2 a - Z.log2 b - 53) 0 <= e /\
    (Qabs (inject_Z (Zpos m) * 2 ^ e - inject_Z a / inject_Z b)
     <= inject_Z a / inject_Z b * (1 # 2 ^ 52))%Q.
Proof.
  intros Ha Hb HD.
  destruct (SFdiv_core_binary_spec a b Ha Hb HD) as (Hcore & Hq & Hlow & Hhigh).
  set (e0 := Z.min (Z.log2 a - Z.log2 b - 53) 0) in *.
  set (q := a * 2 ^ (- e0) / b) in *.
  assert (He0 : 0 <= - e0) by (unfold e0; lia).
  assert (HE : 0 < 2 ^ (- e0)) by (apply Z.pow_pos_nonneg; lia).
  assert (Hpow : (2 ^ e0 == / inject_Z (2 ^ (- e0)))%Q).
  { rewrite <- (Qpow2_opp_inject (- e0)) by done. by rewrite Z.opp_involutive. }
  assert (HbQ : (0 < inject_Z b)%Q) by (by rewrite <- (Zlt_Qlt 0)).
  assert (HEQ : (0 < inject_Z (2 ^ (- e0)))%Q) by (by rewrite <- (Zlt_Qlt 0)).
  destruct (binary_round_aux_error q e0
              (new_location b (a * 2 ^ (- e0) mod b)) (inject_Z a / inject_Z b))
    as (m & e & Hround & Hm & He & Herror).
  - done.
  - unfold e0. lia.
  - rewrite Hpow. apply Qle_shift_div_l; [done|].
    assert (Hmove : (inject_Z q * / inject_Z (2 ^ (- e0)) * inject_Z b
                     == inject_Z (q * b) / inject_Z (2 ^ (- e0)))%Q).
    { rewrite inject_Z_mult. field. intros H0. rewrite H0 in HEQ. by apply Qlt_irrefl in HEQ. }
    rewrite Hmove.
    apply Qle_shift_div_r; [done|]. rewrite <- inject_Z_mult, <- Zle_Qle. lia.
  - rewrite Hpow. apply Qlt_shift_div_r; [done|].
    assert (Hmove : (inject_Z (q + 1) * / inject_Z (2 ^ (- e0)) * inject_Z b
                     == inject_Z ((q + 1) * b) / inject_Z (2 ^ (- e0)))%Q).
    { rewrite inject_Z_mult. field. intros H0. rewrite H0 in HEQ. by apply Qlt_irrefl in HEQ. }
    rewrite Hmove.
    apply Qlt_shift_div_l; [done|]. rewrite <- inject_Z_mult, <- Zlt_Qlt. lia.
  - exists m, e. split; [|done].
    unfold int_true_divide. destruct a as [|pa|pa]; try lia. destruct b as [|pb|pb]; try lia.
    change (Z.abs (Z.pos pa)) with (Z.pos pa). change (Z.abs (Z.pos pb)) with (Z.pos pb).
    rewrite Hcore. change (xorb (Z.pos pa <? 0) (Z.pos pb <? 0)) with false.
    rewrite Hround. by destruct (e <=? 971).
Qed.

(** A float of 53 bits that is not close to the subnormal range, times 100:
    infinity, or a float of 53 bits within a relative 2^-52 of the
    product. *)
Lemma SFmul_100_error (m : positive) (e : Z) :
  2 ^ 52 <= Zpos m -> -1028 <= e ->
  exists m' e',
    SFmul prec emax (S754_finite false m e) (float_of_int 100)
    = (if e' <=? 971 then S754_finite false m' e' else S754_infinity false) /\
    2 ^ 52 <= Zpos m' < 2 ^ 53 /\
    (Qabs (inject_Z (Zpos m') * 2 ^ e' - 100 * (inject_Z (Zpos m) * 2 ^ e))
     <= 100 * (inject_Z (Zpos m) * 2 ^ e) * (1 # 2 ^ 52))%Q.
Proof.
  intros Hm He.
  change (float_of_int 100) with (S754_finite false 7036874417766400 (-46)).
  unfold SFmul. change (xorb false false) with false.
  assert (Hvalue : (inject_Z (Z.pos (m * 7036874417766400)) * 2 ^ (e + -46)
                    == 100 * (inject_Z (Zpos m) * 2 ^ e))%Q).
  { rewrite Pos2Z.inj_mul, inject_Z_mult, Qpow2_add.
    change (2 ^ (-46))%Q with (/ (70368744177664 # 1))%Q.
    change (inject_Z 7036874417766400) with (7036874417766400 # 1)%Q.
    field. }
  destruct (binary_round_aux_error (Z.pos (m * 7036874417766400)) (e + -46) loc_Exact
              (100 * (inject_Z (Zpos m) * 2 ^ e)))
    as (m' & e' & Hround & Hm' & _ & Herror).
  - rewrite Pos2Z.inj_mul. nia.
  - lia.
  - rewrite <- Hvalue. apply Qle_refl.
  - rewrite <- Hvalue. apply Qmult_lt_compat_r; [apply Qpow2_pos|].
    rewrite <- Zlt_Qlt. lia.
  - by exists m', e'.
Qed.

(** The comparison of two positive floats of 53 bits is that of their
    values. *)
Lemma SFleb_value (m1 m2 : positive) (e1 e2 : Z) :
  2 ^ 52 <= Zpos m1 -> Zpos m2 < 2 ^ 53 ->
  (inject_Z (Zpos m1) * 2 ^ e1 <= inject_Z (Zpos m2) * 2 ^ e2)%Q ->
  SFleb (S754_finite false m1 e1) (S754_finite false m2 e2) = true.
Proof.
  intros Hm1 Hm2 Hle. unfold SFleb, SFcompare.
  destruct (Z.compare_spec e1 e2) as [->|Hlt|Hgt]; [|done|].
  - assert (Hm : Zpos m1 <= Zpos m2).
    { rewrite Zle_Qle. apply Qmult_le_r with (z := (2 ^ e2)%Q); [apply Qpow2_pos|done]. }
    change (Pos.compare_cont Eq m1 m2) with (Pos.compare m1 m2).
    destruct (Pos.compare_spec m1 m2); try done. lia.
  - exfalso.
    assert (Hpow : (2 ^ (e2 + 1) <= 2 ^ e1)%Q) by (apply Qpow2_le; lia).
    rewrite Qpow2_add in Hpow. change (2 ^ 1)%Q with 2%Q in Hpow.
    assert (H1 : (inject_Z (2 ^ 52) <= inject_Z (Zpos m1))%Q) by by rewrite <- Zle_Qle.
    assert (H2 : (inject_Z (Zpos m2) < inject_Z (2 ^ 53))%Q) by by rewrite <- Zlt_Qlt.
    assert (H3 : (0 < inject_Z (Zpos m2))%Q) by (by rewrite <- (Zlt_Qlt 0)).
    pose proof (Qpow2_pos e1) as He1. pose proof (Qpow2_pos e2) as He2.
    set (E1 := (2 ^ e1)%Q) in *. set (E2 := (2 ^ e2)%Q) in *.
    set (M1 := inject_Z (Zpos m1)) in *. set (M2 := inject_Z (Zpos m2)) in *.
    change (inject_Z (2 ^ 53)) with (9007199254740992 # 1)%Q in *.
    change (inject_Z (2 ^ 52)) with (4503599627370496 # 1)%Q in *.
    nra.
Qed.

(** The two roundings of [(a / b) * 100], for positive integers whose
    quotient is far from the subnormal range: each result is an error, or
    infinite, when its exponent passes 971, and a float of 53 bits
    otherwise; the product is within a relative 2^-50 of [100 * a / b]. *)
Lemma percentage_error a b :
  0 < a -> 0 < b ->
  -975 <= Z.log2 a - Z.log2 b ->
  exists m1 e1 m2 e2,
    int_true_divide a b
    = (if e1 <=? 971 then inr (S754_finite false m1 e1) else inl OverflowError) /\
    SFmul prec emax (S754_finite false m1 e1) (float_of_int 100)
    = (if e2 <=? 971 then S754_finite false m2 e2 else S754_infinity false) /\
    2 ^ 52 <= Zpos m1 < 2 ^ 53 /\
    2 ^ 52 <= Zpos m2 < 2 ^ 53 /\
    (Qabs (inject_Z (Zpos m1) * 2 ^ e1 - inject_Z a / inject_Z b)
     <= inject_Z a / inject_Z b * (1 # 2 ^ 52))%Q /\
    (Qabs (inject_Z (Zpos m2) * 2 ^ e2 - 100 * (inject_Z a / inject_Z b))
     <= 100 * (inject_Z a / inject_Z b) * (1 # 2 ^ 50))%Q.
Proof.
  intros Ha Hb HD.
  destruct (int_true_divide_error a b Ha Hb) as (m1 & e1 & Hdiv & Hm1 & He1 & Herr1); [lia|].
  destruct (SFmul_100_error m1 e1) as (m2 & e2 & Hmul & Hm2 & Herr2); [lia|lia|].
  exists m1, e1, m2, e2. split_and!; try done; try lia.
  assert (Hx : (0 < inject_Z a / inject_Z b)%Q).
  { apply Qlt_shift_div_l; [by rewrite <- (Zlt_Qlt 0)|].
    rewrite Qmult_0_l. by rewrite <- (Zlt_Qlt 0). }
  set (x := (inject_Z a / inject_Z b)%Q) in *.
  set (V1 := (inject_Z (Zpos m1) * 2 ^ e1)%Q) in *.
  set (V2 := (inject_Z (Zpos m2) * 2 ^ e2)%Q) in *.
  apply Qabs_Qle_condition in Herr1, Herr2.
  change (1 # 2 ^ 52)%Q with (1 # 4503599627370496)%Q in *.
  change (1 # 2 ^ 50)%Q with (1 # 1125899906842624)%Q.
  apply Qabs_Qle_condition. lra.
Qed.

Lemma quotient_ge_1 a b : 0 < b -> b <= a -> (1 <= inject_Z a / inject_Z b)%Q.
Proof.
  intros Hb Hab. apply Qle_shift_div_l; [by rewrite <- (Zlt_Qlt 0)|].
  rewrite Qmult_1_l. by rewrite <- Zle_Qle.
Qed.

Lemma quotient_le a b : 0 < b -> 0 <= a -> (inject_Z a / inject_Z b <= inject_Z a)%Q.
Proof.
  intros Hb Ha. apply Qle_shift_div_r; [by rewrite <- (Zlt_Qlt 0)|].
  rewrite <- inject_Z_mult, <- Zle_Qle. nia.
Qed.

(** The quotient of an integer by itself is 1.0 and the percentage 100.0. *)
Lemma int_true_divide_same a :
  0 < a ->
  int_true_divide a a = inr (float_of_int 1) /\
  SFmul prec emax (float_of_int 1) (float_of_int 100) = float_of_int 100.
Proof.
  intros Ha. split; [|reflexivity].
  destruct (SFdiv_core_binary_spec a a Ha Ha) as (Hcore & _); [lia|].
  replace (Z.min (Z.log2 a - Z.log2 a - 53) 0) with (-53) in Hcore by lia.
  change (- -53) with 53 in Hcore.
  replace (a * 2 ^ 53) with (2 ^ 53 * a) in Hcore by lia.
  rewrite Z.div_mul, Z.mod_mul, new_location_zero in Hcore by lia.
  unfold int_true_divide. destruct a as [|p|p]; try lia.
  change (Z.abs (Z.pos p)) with (Z.pos p). rewrite Hcore. reflexivity.
Qed.

(** ** Program progress *)

Lemma in_curriculum (self : ProgramEnrollment.t) db course :
  course ∈ ProgramCurriculum.course <$>
             filter (fun c => ProgramCurriculum.program c = ProgramEnrollment.program self)
                    (curriculum db)
  <-> Exists (fun c => ProgramCurriculum.program c = ProgramEnrollment.program self
                    /\ ProgramCurriculum.course c = course)
             (curriculum db).
Proof.
  rewrite list_elem_of_fmap, Exists_exists. split.
  - intros [c [-> Hc]]. apply list_elem_of_filter in Hc as [Hp Hc]. by exists c.
  - intros [c [Hc [Hp <-]]]. exists c. split; [done|]. by apply list_elem_of_filter.
Qed.

Lemma py_or_credits_of db eo :
  Enrollment.credits_earned eo.1 <> Some 0 ->
  py_or (Enrollment.credits_earned eo.1)
        (Course.credits (courses db (CourseOffering.course eo.2)))
  = credits_of db eo.
Proof.
  unfold py_or, credits_of. destruct (Enrollment.credits_earned eo.1) as [v|]; [|done].
  intros Hv. case_bool_decide; [congruence|done].
Qed.

Lemma log2_lt_63 a : 0 < a < 2 ^ 63 -> 0 <= Z.log2 a <= 62.
Proof.
  intros [Hpos Hlt]. split; [apply Z.log2_nonneg|].
  apply Z.log2_lt_pow2 in Hlt; lia.
Qed.

(** C8, as amended. progress_percentage is the int 0 when the program's
    total_credits is 0 or negative. Otherwise it is a float: the quotient
    completedCredits / total_credits rounded to the nearest float, times
    100, rounded again. That float is 0.0 when no credit is completed,
    100.0 when the completed credits equal the total, and for positive
    64-bit values within a relative 2^-50 of 100 x completedCredits /
    total_credits. completedCredits sums, over the student's enrollments
    with status completed whose course is in the program's curriculum, the
    credits_earned of the enrollment when recorded and not zero, and the
    static credits of the course when none is recorded. *)
Theorem progress_percentage_spec (self : ProgramEnrollment.t) db :
  Forall (fun eo => Enrollment.credits_earned eo.1 <> Some 0)
         (filter (counts_towards self db) (Enrollment_objects db)) ->
  let completed := ProgramEnrollment_credits_completed self db in
  let total := Program.total_credits (programs db (ProgramEnrollment.program self)) in
  completed = Zsum (credits_of db <$> filter (counts_towards self db) (Enrollment_objects db)) /\
  (total <= 0 -> ProgramEnrollment_progress_percentage self db = inr (Int 0)) /\
  (0 < total -> completed = 0 ->
   ProgramEnrollment_progress_percentage self db = inr (Float (S754_zero false))) /\
  (0 < total -> completed = total ->
   ProgramEnrollment_progress_percentage self db = inr (Float (float_of_int 100))) /\
  (0 < total < 2 ^ 63 -> 0 < completed < 2 ^ 63 ->
   exists m e,
     ProgramEnrollment_progress_percentage self db = inr (Float (S754_finite false m e)) /\
     (Qabs (float_value (S754_finite false m e)
            - 100 * (inject_Z completed / inject_Z total))
      <= 100 * (inject_Z completed / inject_Z total) * (1 # 2 ^ 50))%Q).
Proof.
  intros Hearned completed total. split_and!.
  - unfold completed, ProgramEnrollment_credits_completed.
    assert (Hfilter :
      filter (fun eo : Enrollment.t * CourseOffering.t =>
                Enrollment.student eo.1 = ProgramEnrollment.student self
                /\ CourseOffering.course eo.2 ∈
                     ProgramCurriculum.course <$>
                       filter (fun c => ProgramCurriculum.program c
                                        = ProgramEnrollment.program self)
                              (curriculum db)
                /\ Enrollment.status eo.1 = "completed")
             (Enrollment_objects db)
      = filter (counts_towards self db) (Enrollment_objects db)).
    { apply list_filter_iff. intros eo. unfold counts_towards.
      rewrite in_curriculum. tauto. }
    rewrite Hfilter. f_equal. apply Forall_fmap_ext.
    eapply Forall_impl; [exact Hearned|]. intros eo Heo. by apply py_or_credits_of.
  - intros Hzero. unfold ProgramEnrollment_progress_percentage. fold total.
    by rewrite bool_decide_eq_false_2 by lia.
  - intros Hpos Hnone. unfold ProgramEnrollment_progress_percentage. fold total completed.
    rewrite bool_decide_eq_true_2, Hnone by lia.
    destruct total as [|p|p]; try lia. reflexivity.
  - intros Hpos Hall. unfold ProgramEnrollment_progress_percentage. fold total completed.
    rewrite bool_decide_eq_true_2, Hall by lia.
    destruct (int_true_divide_same total Hpos) as [-> ->]. reflexivity.
  - intros Htotal Hcompleted.
    pose proof (log2_lt_63 total Htotal). pose proof (log2_lt_63 completed Hcompleted).
    destruct (percentage_error completed total)
      as (m1 & e1 & m2 & e2 & Hdiv & Hmul & Hm1 & Hm2 & Herr1 & Herr2); [lia..|].
    assert (Hx : (0 < inject_Z completed / inject_Z total)%Q).
    { apply Qlt_shift_div_l; [rewrite <- (Zlt_Qlt 0); lia|].
      rewrite Qmult_0_l. rewrite <- (Zlt_Qlt 0). lia. }
    assert (Hsmall : (inject_Z completed / inject_Z total < inject_Z (2 ^ 63))%Q).
    { eapply Qle_lt_trans; [apply quotient_le; lia|]. rewrite <- Zlt_Qlt. lia. }
    assert (Hhuge : (inject_Z (2 ^ 72) <= 2 ^ 1024)%Q).
    { apply Qle_bool_imp_le. by vm_compute. }
    set (x := (inject_Z completed / inject_Z total)%Q) in *.
    change (inject_Z (2 ^ 63)) with (9223372036854775808 # 1)%Q in Hsmall.
    change (inject_Z (2 ^ 72)) with (4722366482869645213696 # 1)%Q in Hhuge.
    assert (He1 : e1 <= 971).
    { apply (exponent_in_range m1); [lia|].
      apply Qabs_Qle_condition in Herr1.
      change (1 # 2 ^ 52)%Q with (1 # 4503599627370496)%Q in Herr1.
      set (V1 := (inject_Z (Z.pos m1) * 2 ^ e1)%Q) in *. set (P := (2 ^ 1024)%Q) in *. lra. }
    assert (He2 : e2 <= 971).
    { apply (exponent_in_range m2); [lia|].
      apply Qabs_Qle_condition in Herr2.
      change (1 # 2 ^ 50)%Q with (1 # 1125899906842624)%Q in Herr2.
      set (V2 := (inject_Z (Z.pos m2) * 2 ^ e2)%Q) in *. set (P := (2 ^ 1024)%Q) in *. lra. }
    apply Z.leb_le in He1, He2. rewrite He1 in Hdiv. rewrite He2 in Hmul.
    exists m2, e2. split; [|exact Herr2].
    unfold ProgramEnrollment_progress_percentage. fold total completed.
    rewrite bool_decide_eq_true_2 by lia. by rewrite Hdiv, Hmul.
Qed.

Lemma progress_percentage_spec_witness :
  exists m e,
    ProgramEnrollment_progress_percentage (ProgramEnrollment.mk 7 1) Fixtures.db_third
    = inr (Float (S754_finite false m e)) /\
    (Qabs (float_value (S754_finite false m e) - 100 * (inject_Z 3 / inject_Z 9))
     <= 100 * (inject_Z 3 / inject_Z 9) * (1 # 2 ^ 50))%Q.
Proof.
  destruct (progress_percentage_spec (ProgramEnrollment.mk 7 1) Fixtures.db_third)
    as (_ & _ & _ & _ & Hfloat).
  - replace (filter _ _)
      with [(Enrollment.mk 7 1 "B" true "completed" (Some 3), CourseOffering.mk 1 1 30 1 true)]
      by reflexivity.
    apply Forall_cons_2; [discriminate|apply Forall_nil_2].
  - apply Hfloat; [simpl; lia|].
    replace (ProgramEnrollment_credits_completed (ProgramEnrollment.mk 7 1) Fixtures.db_third)
      with 3 by reflexivity.
    lia.
Defined.

(** Two programs for which the percentage is not 100 x completedCredits /
    total_credits. With a total_credits of -10 and 3 completed credits it is
    the int 0. With 3 completed credits of 9 it is the float
    33.33333333333333 (4691249611844266 x 2^-47): the third is rounded
    before it is multiplied, so that the result is neither 100 x 3 / 9 nor
    the float nearest to it, which is that of 300 / 9,
    33.333333333333336. *)
Lemma progress_percentage_spec_counterexample :
  (Program.total_credits (programs Sample.db_progress 1%nat) = -10 /\
   ProgramEnrollment_credits_completed (ProgramEnrollment.mk 7 1) Sample.db_progress = 3 /\
   ProgramEnrollment_progress_percentage (ProgramEnrollment.mk 7 1) Sample.db_progress
   = inr (Int 0) /\
   ~ (inject_Z 0 == 100 * (inject_Z 3 / inject_Z (-10)))%Q) /\
  (Program.total_credits (programs Fixtures.db_third 1%nat) = 9 /\
   ProgramEnrollment_credits_completed (ProgramEnrollment.mk 7 1) Fixtures.db_third = 3 /\
   ProgramEnrollment_progress_percentage (ProgramEnrollment.mk 7 1) Fixtures.db_third
   = inr (Float (S754_finite false 4691249611844266 (-47))) /\
   ~ (float_value (S754_finite false 4691249611844266 (-47))
      == 100 * (inject_Z 3 / inject_Z 9))%Q /\
   int_true_divide 300 9 = inr (S754_finite false 4691249611844267 (-47))).
Proof.
  split; split_and!; try reflexivity.
  - intros Heq. apply Qeq_bool_iff in Heq. vm_compute in Heq. discriminate Heq.
  - intros Heq. apply Qeq_bool_iff in Heq. vm_compute in Heq. discriminate Heq.
Qed.

(** The true division at the ends of its range: a quotient of 2^1024 is too
    large for a float, and a third of 2^-1074 is rounded to 0.0. *)
Example int_true_divide_range :
  int_true_divide (2 ^ 1024) 1 = inl OverflowError /\
  int_true_divide 1 (3 * 2 ^ 1074) = inr (S754_zero false) /\
  int_true_divide (-1) 3 = inr (S754_finite true 6004799503160661 (-54)) /\
  int_true_divide 1 0 = inl ZeroDivisionError.
Proof. split_and!; by vm_compute. Qed.


(** An enrollment completed with 0 credits earned is counted with the
    static credits of its course. *)
Example credits_completed_zero_earned :
  ProgramEnrollment_credits_completed (ProgramEnrollment.mk 7 1) Sample.db_zero_earned = 3.
Proof. reflexivity. Qed.

(** ** The enrolled counter *)

Lemma active_count_insert_new offering_id db db' pk e :
  enrollments db !! pk = None ->
  enrollments db' = <[pk := e]> (enrollments db) ->
  active_count offering_id db' =
  active_count offering_id db
  + (if decide (Enrollment.is_active e = true /\ Enrollment.course_offering e = offering_id)
     then 1 else 0).
Proof.
  intros Hpk Hrows. unfold active_count. rewrite Hrows.
  rewrite (objects_insert_fresh _ _ _ Hpk).
  destruct (decide _) as [He|He];
    [rewrite filter_cons_True by exact He|rewrite filter_cons_False by exact He];
    rewrite ?length_cons; lia.
Qed.

Lemma active_count_insert_stored offering_id db db' pk old e :
  enrollments db !! pk = Some old ->
  enrollments db' = <[pk := e]> (enrollments db) ->
  active_count offering_id db' =
  active_count offering_id db
  - (if decide (Enrollment.is_active old = true /\ Enrollment.course_offering old = offering_id)
     then 1 else 0)
  + (if decide (Enrollment.is_active e = true /\ Enrollment.course_offering e = offering_id)
     then 1 else 0).
Proof.
  intros Hpk Hrows. unfold active_count. rewrite Hrows.
  destruct (objects_insert_stored (enrollments db) pk old e Hpk) as (rest & Hold & Hnew).
  rewrite Hold, Hnew.
  destruct (decide (_ old = true /\ _)) as [Ho|Ho];
    [rewrite (filter_cons_True _ old) by exact Ho
    |rewrite (filter_cons_False _ old) by exact Ho];
    (destruct (decide _) as [He|He];
     [rewrite filter_cons_True by exact He|rewrite filter_cons_False by exact He]);
    rewrite ?length_cons; lia.
Qed.

Lemma register_course_Success db user offering_id today db' :
  register_course user offering_id today db = (Success, db') ->
  exists offering,
    offerings db !! offering_id = Some offering /\
    db' = set_enrollments
            (<[next_pk (enrollments db) := Enrollment.new user offering_id "registered"]>
               (enrollments db))
            (set_offerings
               (<[offering_id :=
                    CourseOffering.set_enrolled (CourseOffering.enrolled offering + 1)
                                                offering]> (offerings db)) db).
Proof.
  unfold register_course.
  destruct (get_object_or_404 _ _ _) as [offering|] eqn:Hget; [|done].
  apply get_object_or_404_Some in Hget as [Ho _].
  repeat case_bool_decide; try done.
  destruct (CourseOffering.is_full offering); [done|].
  destruct (exists_ _); [done|].
  destruct (check_prerequisites _ _ _); [done|].
  unfold Enrollment_create, Enrollment_save, Enrollment_super_save. simpl.
  destruct (exists_ _); [done|]. intros [= <-]. by exists offering.
Qed.

Lemma drop_course_inv db user enrollment_id today db' :
  drop_course user enrollment_id today db = (Success, db') ->
  exists enrollment offering,
    enrollments db !! enrollment_id = Some enrollment /\
    offerings db !! Enrollment.course_offering enrollment = Some offering /\
    db' = set_offerings
            (<[Enrollment.course_offering enrollment :=
                 CourseOffering.set_enrolled (CourseOffering.enrolled offering - 1)
                                             offering]> (offerings db))
            (set_enrollments
               (<[enrollment_id := Enrollment.withdraw enrollment]> (enrollments db)) db).
Proof.
  unfold drop_course.
  destruct (get_object_or_404 _ _ _) as [enrollment|] eqn:Hget; [|done].
  apply get_object_or_404_Some in Hget as [Hpk _].
  destruct (offerings db !! Enrollment.course_offering enrollment) as [offering|] eqn:Ho;
    [|done].
  case_bool_decide; [done|]. simpl. intros [= <-]. by exists enrollment, offering.
Qed.

Lemma register_course_counter db user offering_id today db' :
  counter_consistent db ->
  register_course user offering_id today db = (Success, db') ->
  counter_consistent db'.
Proof.
  intros Hdb Hreg. apply register_course_Success in Hreg as (offering & Ho & ->).
  intros oid o. simpl. intros Hoid.
  rewrite (active_count_insert_new oid db _ (next_pk (enrollments db))
             (Enrollment.new user offering_id "registered"))
    by (done || apply next_pk_fresh).
  simpl. apply lookup_insert_Some in Hoid as [[<- <-]|[Hne Hoid]].
  - rewrite decide_True by done. simpl. rewrite (Hdb offering_id offering Ho). done.
  - rewrite decide_False by (intros [_ Heq]; done). rewrite (Hdb oid o Hoid). lia.
Qed.

Lemma drop_course_counter db user enrollment_id today db' enrollment :
  counter_consistent db ->
  enrollments db !! enrollment_id = Some enrollment ->
  Enrollment.is_active enrollment = true ->
  drop_course user enrollment_id today db = (Success, db') ->
  counter_consistent db'.
Proof.
  intros Hdb Hpk Hactive Hdrop.
  apply drop_course_inv in Hdrop as (e & offering & Hpk' & Ho & ->).
  assert (e = enrollment) as -> by congruence.
  intros oid o. simpl. intros Hoid.
  rewrite (active_count_insert_stored oid db _ enrollment_id enrollment
             (Enrollment.withdraw enrollment)) by done.
  rewrite (decide_False (P := Enrollment.is_active (Enrollment.withdraw enrollment) = true
                                /\ _)) by (intros [? _]; done).
  apply lookup_insert_Some in Hoid as [[<- <-]|[Hne Hoid]].
  - rewrite decide_True by done. simpl. rewrite (Hdb _ offering Ho). lia.
  - rewrite decide_False by (intros [_ Heq]; done). rewrite (Hdb oid o Hoid). lia.
Qed.

(** The counter stays consistent along every sequence of successful
    registrations and drops in which each drop is aimed at an active
    enrollment. *)
Lemma successful_counter requests :
  forall db db',
    counter_consistent db ->
    drops_active requests db ->
    successful requests db = Some db' ->
    counter_consistent db'.
Proof.
  induction requests as [|request rest IH]; intros db db' Hdb Hdrops Hrun; simpl in *.
  - by simplify_eq.
  - destruct Hdrops as [Hdrop Hrest].
    destruct (handle request db) as [[] db1] eqn:Hhandle; try done.
    apply (IH db1 db'); [|done..].
    destruct request as [user offering_id today|user enrollment_id today]; simpl in *.
    + by apply (register_course_counter db user offering_id today).
    + destruct Hdrop as (e & Hpk & Hactive).
      by apply (drop_course_counter db user enrollment_id today db1 e).
Qed.

(** C1. From a database whose counters agree with the active enrollments,
    dropping the same enrollment twice is a sequence of two successful
    drops, after which the offering counts -1 enrolled for 0 active
    enrollments: the counter no longer equals the number of active
    Enrollments. *)
Theorem drop_twice_breaks_counter :
  counter_consistent Sample.db /\
  exists db',
    successful [Drop 7 1 15; Drop 7 1 15] Sample.db = Some db' /\
    CourseOffering.enrolled <$> offerings db' !! 1%nat = Some (-1) /\
    active_count 1 db' = 0 /\
    ~ counter_consistent db'.
Proof.
  split.
  - change (map_Forall (fun oid o => CourseOffering.enrolled o = active_count oid Sample.db)
                       (offerings Sample.db)).
    apply map_Forall_to_list.
    replace (map_to_list (offerings Sample.db))
      with [(2%nat, CourseOffering.mk 2 1 1 0 true); (1%nat, CourseOffering.mk 1 1 30 1 true)]
      by reflexivity.
    repeat apply Forall_cons_2; try done.
  - eexists. split; [reflexivity|]. split_and!; [reflexivity..|].
    intros Hdb. specialize (Hdb 1%nat _ eq_refl). discriminate Hdb.
Qed.

(** ** What a request changes *)

Lemma same_reference_data_refl db : same_reference_data db db.
Proof. by repeat split. Qed.

Lemma same_reference_data_trans db1 db2 db3 :
  same_reference_data db1 db2 -> same_reference_data db2 db3 ->
  same_reference_data db1 db3.
Proof.
  intros (? & ? & ? & ? & ? & ?) (? & ? & ? & ? & ? & ?).
  repeat split; congruence.
Qed.

(** Either [register_course] leaves the database as it is, or it has passed
    every check: then the offering is saved with one more enrolled, and the
    enrollment row is inserted unless the pair already has one. *)
Lemma register_course_effect db user offering_id today :
  ((register_course user offering_id today db).1 <> Success /\
   (register_course user offering_id today db).2 = db) \/
  exists offering,
    reaches_prerequisites user offering_id today db offering /\
    check_prerequisites user
      (required_prerequisites (CourseOffering.course offering) db) db = None /\
    same_reference_data db (register_course user offering_id today db).2 /\
    offerings (register_course user offering_id today db).2 =
      <[offering_id :=
          CourseOffering.set_enrolled (CourseOffering.enrolled offering + 1) offering]>
        (offerings db) /\
    (((register_course user offering_id today db).1 = ServerError IntegrityError /\
      enrollments (register_course user offering_id today db).2 = enrollments db /\
      exists pk e, enrollments db !! pk = Some e /\ enrolled_in user offering_id e) \/
     ((register_course user offering_id today db).1 = Success /\
      enrollments (register_course user offering_id today db).2 =
        <[next_pk (enrollments db) := Enrollment.new user offering_id "registered"]>
          (enrollments db) /\
      forall pk e, enrollments db !! pk = Some e -> ~ enrolled_in user offering_id e)).
Proof.
  unfold register_course.
  destruct (get_object_or_404 _ _ _) as [offering|] eqn:Hget; [|by left].
  apply get_object_or_404_Some in Hget as [Ho Hactive].
  case_bool_decide as Hstart; [by left|].
  case_bool_decide as Hend; [by left|].
  destruct (CourseOffering.is_full offering) eqn:Hfull; [by left|].
  destruct (exists_ _) eqn:Hdup; [by left|].
  destruct (check_prerequisites _ _ _) as [p|] eqn:Hcheck; [by left|].
  right. exists offering.
  assert (Hreach : reaches_prerequisites user offering_id today db offering).
  { split_and!; [done|done|unfold window_open; lia| |by apply no_active_row_check].
    apply not_true_iff_false in Hfull. rewrite is_full_spec in Hfull. lia. }
  split; [done|]. split; [done|].
  unfold Enrollment_create, Enrollment_save, Enrollment_super_save. simpl.
  match goal with |- context [exists_ ?rows] => destruct (exists_ rows) eqn:Hrow end; simpl.
  - split; [by repeat split|]. split; [done|]. left.
    split_and!; [done..|].
    by apply (uniqueness_check db (Enrollment.new user offering_id "registered")) in Hrow.
  - split; [by repeat split|]. split; [done|]. right.
    split_and!; [done..|]. by apply no_row_check.
Qed.

(** Either [drop_course] leaves the database as it is, or it succeeds: the
    row is withdrawn and the offering saved with one enrolled less. *)
Lemma drop_course_effect db user enrollment_id today :
  ((drop_course user enrollment_id today db).1 <> Success /\
   (drop_course user enrollment_id today db).2 = db) \/
  exists enrollment offering,
    enrollments db !! enrollment_id = Some enrollment /\
    Enrollment.student enrollment = user /\
    offerings db !! Enrollment.course_offering enrollment = Some offering /\
    today <= Semester.add_drop_deadline (semesters db (CourseOffering.semester offering)) /\
    (drop_course user enrollment_id today db).1 = Success /\
    same_reference_data db (drop_course user enrollment_id today db).2 /\
    offerings (drop_course user enrollment_id today db).2 =
      <[Enrollment.course_offering enrollment :=
          CourseOffering.set_enrolled (CourseOffering.enrolled offering - 1) offering]>
        (offerings db) /\
    enrollments (drop_course user enrollment_id today db).2 =
      <[enrollment_id := Enrollment.withdraw enrollment]> (enrollments db).
Proof.
  unfold drop_course.
  destruct (get_object_or_404 _ _ _) as [enrollment|] eqn:Hget; [|by left].
  apply get_object_or_404_Some in Hget as [Hpk Hstudent].
  apply bool_decide_eq_true in Hstudent.
  destruct (offerings db !! Enrollment.course_offering enrollment) as [offering|] eqn:Ho;
    [|by left].
  case_bool_decide as Hlate; [by left|].
  right. exists enrollment, offering. simpl.
  split_and!; [done|done|done|lia|done|by repeat split|done|done].
Qed.

Lemma handle_effect request db :
  ((handle request db).2 = db) \/
  (exists user offering_id today offering,
     request = Register user offering_id today /\
     reaches_prerequisites user offering_id today db offering /\
     same_reference_data db (handle request db).2 /\
     offerings (handle request db).2 =
       <[offering_id :=
           CourseOffering.set_enrolled (CourseOffering.enrolled offering + 1) offering]>
         (offerings db) /\
     (enrollments (handle request db).2 = enrollments db \/
      (enrollments (handle request db).2 =
         <[next_pk (enrollments db) := Enrollment.new user offering_id "registered"]>
           (enrollments db) /\
       forall pk e, enrollments db !! pk = Some e -> ~ enrolled_in user offering_id e))) \/
  (exists enrollment_id enrollment offering,
     enrollments db !! enrollment_id = Some enrollment /\
     offerings db !! Enrollment.course_offering enrollment = Some offering /\
     same_reference_data db (handle request db).2 /\
     offerings (handle request db).2 =
       <[Enrollment.course_offering enrollment :=
           CourseOffering.set_enrolled (CourseOffering.enrolled offering - 1) offering]>
         (offerings db) /\
     enrollments (handle request db).2 =
       <[enrollment_id := Enrollment.withdraw enrollment]> (enrollments db)).
Proof.
  destruct request as [user offering_id today|user enrollment_id today]; simpl.
  - destruct (register_course_effect db user offering_id today)
      as [[_ Hsame]|(offering & Hreach & _ & Href & Hoff & Hrows)]; [by left|].
    right. left. exists user, offering_id, today, offering.
    split_and!; [done..|].
    destruct Hrows as [(_ & Hrows & _)|(_ & Hrows & Hnone)]; [by left|by right].
  - destruct (drop_course_effect db user enrollment_id today)
      as [[_ Hsame]|(e & offering & Hpk & _ & Ho & _ & _ & Href & Hoff & Hrows)];
      [by left|].
    right. right. by exists enrollment_id, e, offering.
Qed.

Lemma run_cons request requests db :
  run (request :: requests) db = run requests (handle request db).2.
Proof. done. Qed.

Lemma handle_within_capacity request db :
  within_capacity db -> within_capacity (handle request db).2.
Proof.
  intros Hcap.
  destruct (handle_effect request db)
    as [->|[(user & oid & today & offering & _ & Hreach & _ & Hoff & _)
           |(k & e & offering & _ & Ho & _ & Hoff & _)]]; [done| |];
    intros oid' o'; rewrite Hoff; intros Ho'.
  - destruct Hreach as (_ & _ & _ & Hseats & _).
    apply lookup_insert_Some in Ho' as [[_ <-]|[_ Ho']]; [simpl; lia|].
    by apply (Hcap oid').
  - apply lookup_insert_Some in Ho' as [[_ <-]|[_ Ho']].
    + simpl. specialize (Hcap _ _ Ho). lia.
    + by apply (Hcap oid').
Qed.

(** X1. The cached counter stays within the capacity: when the enrolled
    counter of no offering exceeds its capacity, that of none does after any
    sequence of registrations and drops, whatever each request answers.
    This bounds the counter that [is_full] reads, not the number of active
    enrollments: two drops of one row lower the counter twice. *)
Theorem run_within_capacity requests db :
  within_capacity db -> within_capacity (run requests db).
Proof.
  revert db. induction requests as [|request rest IH]; intros db Hcap; [done|].
  rewrite run_cons. by apply IH, handle_within_capacity.
Qed.

Lemma run_within_capacity_witness :
  within_capacity (run [Register 8 2 15; Register 9 2 15; Drop 7 1 15] Sample.db).
Proof.
  apply (run_within_capacity [Register 8 2 15; Register 9 2 15; Drop 7 1 15] Sample.db).
  change (map_Forall (fun _ o => CourseOffering.enrolled o <= CourseOffering.capacity o)
                     (offerings Sample.db)).
  apply (bool_decide_unpack _). vm_compute. exact I.
Defined.

Lemma set_enrolled_erased n offering :
  CourseOffering.set_enrolled 0 (CourseOffering.set_enrolled n offering)
  = CourseOffering.set_enrolled 0 offering.
Proof. done. Qed.

Lemma handle_keeps_offerings request db :
  same_reference_data db (handle request db).2 /\
  forall offering_id,
    CourseOffering.set_enrolled 0 <$> offerings (handle request db).2 !! offering_id
    = CourseOffering.set_enrolled 0 <$> offerings db !! offering_id.
Proof.
  destruct (handle_effect request db)
    as [->|[(user & oid & today & offering & _ & Hreach & Href & Hoff & _)
           |(k & e & offering & _ & Ho & Href & Hoff & _)]].
  - split; [apply same_reference_data_refl|done].
  - split; [done|]. intros oid'. rewrite Hoff. destruct Hreach as (Ho & _).
    destruct (decide (oid = oid')) as [<-|Hne].
    + by rewrite lookup_insert_eq, Ho.
    + by rewrite lookup_insert_ne.
  - split; [done|]. intros oid'. rewrite Hoff.
    destruct (decide (Enrollment.course_offering e = oid')) as [<-|Hne].
    + by rewrite lookup_insert_eq, Ho.
    + by rewrite lookup_insert_ne.
Qed.

(** X2. Registrations and drops write nothing but enrollment rows and the
    enrolled counters: after any sequence of requests the programs, courses,
    semesters, prerequisites, curricula and finance records are the same,
    no offering has appeared or disappeared, and every offering has kept its
    course, semester, capacity and active flag. *)
Theorem run_keeps_offerings requests db :
  same_reference_data db (run requests db) /\
  forall offering_id,
    CourseOffering.set_enrolled 0 <$> offerings (run requests db) !! offering_id
    = CourseOffering.set_enrolled 0 <$> offerings db !! offering_id.
Proof.
  revert db. induction requests as [|request rest IH]; intros db.
  - split; [apply same_reference_data_refl|done].
  - rewrite run_cons. destruct (IH (handle request db).2) as [Href Hoff].
    destruct (handle_keeps_offerings request db) as [Href1 Hoff1]. split.
    + by apply (same_reference_data_trans _ (handle request db).2).
    + intros oid. by rewrite Hoff, Hoff1.
Qed.

Lemma kept_or_withdrawn_refl e : kept_or_withdrawn e e.
Proof. split_and!; auto. Qed.

Lemma kept_or_withdrawn_trans e1 e2 e3 :
  kept_or_withdrawn e1 e2 -> kept_or_withdrawn e2 e3 -> kept_or_withdrawn e1 e3.
Proof.
  intros (? & ? & ? & ? & H12) (? & ? & ? & ? & H23).
  split_and!; try congruence.
  destruct H23 as [->|H23]; [done|by right].
Qed.

Lemma handle_keeps_row request db pk e :
  enrollments db !! pk = Some e ->
  exists e', enrollments (handle request db).2 !! pk = Some e' /\ kept_or_withdrawn e e'.
Proof.
  intros Hpk.
  destruct (handle_effect request db)
    as [->|[(user & oid & today & offering & _ & _ & _ & _ & [->|[-> _]])
           |(k & e0 & offering & Hk & _ & _ & _ & ->)]].
  - exists e. split; [done|apply kept_or_withdrawn_refl].
  - exists e. split; [done|apply kept_or_withdrawn_refl].
  - exists e. split; [|apply kept_or_withdrawn_refl].
    rewrite lookup_insert_ne; [done|]. intros Heq.
    rewrite <- Heq, next_pk_fresh in Hpk. done.
  - destruct (decide (k = pk)) as [->|Hne].
    + assert (e0 = e) as -> by congruence.
      exists (Enrollment.withdraw e). rewrite lookup_insert_eq.
      split; [done|]. split_and!; try done. by right.
    + exists e. rewrite lookup_insert_ne by done.
      split; [done|apply kept_or_withdrawn_refl].
Qed.

Lemma run_keeps_row requests db pk e :
  enrollments db !! pk = Some e ->
  exists e', enrollments (run requests db) !! pk = Some e' /\ kept_or_withdrawn e e'.
Proof.
  revert db e. induction requests as [|request rest IH]; intros db e Hpk.
  - exists e. split; [done|apply kept_or_withdrawn_refl].
  - rewrite run_cons.
    destruct (handle_keeps_row request db pk e Hpk) as (e1 & Hpk1 & H1).
    destruct (IH _ e1 Hpk1) as (e2 & Hpk2 & H2).
    exists e2. split; [done|]. by apply (kept_or_withdrawn_trans e e1 e2).
Qed.

(** X3. Enrollment rows are never deleted and never reassigned: after any
    sequence of registrations and drops a stored row is still stored under
    its key, for the same student and offering, with the same grade and
    credits earned; it is either unchanged or inactive with status
    withdrawn. *)
Theorem run_keeps_enrollments requests db pk e :
  enrollments db !! pk = Some e ->
  exists e',
    enrollments (run requests db) !! pk = Some e' /\
    Enrollment.student e' = Enrollment.student e /\
    Enrollment.course_offering e' = Enrollment.course_offering e /\
    Enrollment.grade e' = Enrollment.grade e /\
    Enrollment.credits_earned e' = Enrollment.credits_earned e /\
    (e' = e \/ (Enrollment.is_active e' = false /\ Enrollment.status e' = "withdrawn")).
Proof.
  intros Hpk. destruct (run_keeps_row requests db pk e Hpk) as (e' & Hpk' & Hkept).
  by exists e'.
Qed.

Lemma run_keeps_enrollments_witness :
  exists e',
    enrollments (run [Drop 7 1 15; Register 7 1 16] Sample.db) !! 1%nat = Some e' /\
    Enrollment.student e' = 7%nat /\
    Enrollment.course_offering e' = 1%nat /\
    Enrollment.grade e' = EmptyString /\
    Enrollment.credits_earned e' = None /\
    (e' = Enrollment.mk 7 1 EmptyString true "registered" None \/
     (Enrollment.is_active e' = false /\ Enrollment.status e' = "withdrawn")).
Proof.
  apply (run_keeps_enrollments [Drop 7 1 15; Register 7 1 16] Sample.db 1%nat
           (Enrollment.mk 7 1 EmptyString true "registered" None)).
  reflexivity.
Defined.

(** X4. A student is registered for an offering at most once: after a
    successful registration, and whatever requests follow, also drops by the
    student, no later registration of the same student for the same offering
    succeeds. *)
Theorem register_course_once db user offering_id today db1 requests today' :
  register_course user offering_id today db = (Success, db1) ->
  (register_course user offering_id today' (run requests db1)).1 <> Success.
Proof.
  intros Hreg.
  destruct (register_course_effect db user offering_id today)
    as [[Hfail _]|(offering & _ & _ & _ & _ & Hrows)]; rewrite Hreg in *; simpl in *;
    [done|].
  destruct Hrows as [[Herr _]|(_ & Hrows & _)]; [done|].
  assert (Hpk : enrollments db1 !! next_pk (enrollments db)
                = Some (Enrollment.new user offering_id "registered")).
  { rewrite Hrows. apply lookup_insert_eq. }
  destruct (run_keeps_row requests db1 _ _ Hpk) as (e' & Hpk' & Hs & Ho & _).
  destruct (register_course_effect (run requests db1) user offering_id today')
    as [[Hfail _]|(offering' & _ & _ & _ & _ & [[Herr _]|(_ & _ & Hnone)])].
  - done.
  - rewrite Herr. done.
  - destruct (Hnone _ _ Hpk'). by split.
Qed.

Lemma register_course_once_witness :
  (register_course 8 1 16
     (run [Drop 8 2 15] (register_course 8 1 15 Sample.db).2)).1 <> Success.
Proof.
  apply (register_course_once Sample.db 8 1 15 (register_course 8 1 15 Sample.db).2
           [Drop 8 2 15] 16).
  reflexivity.
Defined.

Lemma handle_unique_pairs request db :
  unique_pairs db -> unique_pairs (handle request db).2.
Proof.
  intros Huniq.
  destruct (handle_effect request db)
    as [->|[(user & oid & today & offering & _ & _ & _ & _ & [Hrows|[Hrows Hnone]])
           |(k & e0 & offering & Hk & _ & _ & _ & Hrows)]]; [done|..];
    intros pk1 pk2 e1 e2; rewrite Hrows; [apply Huniq| |].
  - intros H1 H2 Hs Ho.
    apply lookup_insert_Some in H1 as [[<- <-]|[Hne1 H1]];
      apply lookup_insert_Some in H2 as [[<- <-]|[Hne2 H2]].
    + done.
    + destruct (Hnone pk2 e2 H2). by split.
    + destruct (Hnone pk1 e1 H1). by split.
    + by apply (Huniq pk1 pk2 e1 e2).
  - intros H1 H2 Hs Ho.
    apply lookup_insert_Some in H1 as [[<- <-]|[Hne1 H1]];
      apply lookup_insert_Some in H2 as [[<- <-]|[Hne2 H2]].
    + done.
    + by apply (Huniq k pk2 e0 e2).
    + by apply (Huniq pk1 k e1 e0).
    + by apply (Huniq pk1 pk2 e1 e2).
Qed.

(** X5. The uniqueness of enrollment rows per (student, offering) is kept:
    when no two stored rows share their student and offering, none do after
    any sequence of registrations and drops. *)
Theorem run_unique_pairs requests db :
  unique_pairs db -> unique_pairs (run requests db).
Proof.
  revert db. induction requests as [|request rest IH]; intros db Huniq; [done|].
  rewrite run_cons. by apply IH, handle_unique_pairs.
Qed.

Lemma run_unique_pairs_witness :
  unique_pairs (run [Register 8 1 15; Drop 7 1 15; Register 7 2 15] Sample.db).
Proof.
  apply (run_unique_pairs [Register 8 1 15; Drop 7 1 15; Register 7 2 15] Sample.db).
  intros pk1 pk2 e1 e2 H1 H2 _ _. cbv [Sample.db enrollments] in H1, H2.
  apply lookup_singleton_Some in H1 as [<- _].
  by apply lookup_singleton_Some in H2 as [<- _].
Defined.

(** X6. A registration can be undone the same day: after a successful
    registration, the drop of the new enrollment by the student succeeds,
    and it leaves every offering exactly as it was before the registration,
    the new row staying behind as withdrawn. *)
Theorem register_then_drop db user offering_id today db1 :
  register_course user offering_id today db = (Success, db1) ->
  exists db2,
    drop_course user (next_pk (enrollments db)) today db1 = (Success, db2) /\
    offerings db2 = offerings db /\
    enrollments db2 =
      <[next_pk (enrollments db) :=
          Enrollment.withdraw (Enrollment.new user offering_id "registered")]>
        (enrollments db) /\
    same_reference_data db db2.
Proof.
  intros Hreg.
  destruct (register_course_effect db user offering_id today)
    as [[Hfail _]|(offering & Hreach & _ & Href & Hoff & Hrows)];
    rewrite Hreg in *; simpl in *; [done|].
  destruct Hrows as [[Herr _]|(_ & Hrows & _)]; [done|].
  destruct Hreach as (Ho & _ & [_ Hend] & _).
  assert (Hsem : semesters db1 = semesters db) by apply Href.
  rewrite (drop_course_Success db1 user (next_pk (enrollments db)) today
             (Enrollment.new user offering_id "registered")
             (CourseOffering.set_enrolled (CourseOffering.enrolled offering + 1) offering)).
  - eexists. split; [done|]. simpl. split_and!.
    + rewrite Hoff, insert_insert_eq. apply insert_id. rewrite Ho. f_equal.
      destruct offering as [c s cap n a]. unfold CourseOffering.set_enrolled. simpl.
      f_equal. lia.
    + by rewrite Hrows, insert_insert_eq.
    + destruct Href as (? & ? & ? & ? & ? & ?). by repeat split.
  - rewrite Hrows. apply lookup_insert_eq.
  - done.
  - simpl. rewrite Hoff. apply lookup_insert_eq.
  - simpl. rewrite Hsem. exact Hend.
Qed.

Lemma register_then_drop_witness :
  exists db2,
    drop_course 8 (next_pk (enrollments Sample.db)) 15
      (register_course 8 1 15 Sample.db).2 = (Success, db2) /\
    offerings db2 = offerings Sample.db.
Proof.
  destruct (register_then_drop Sample.db 8 1 15 (register_course 8 1 15 Sample.db).2)
    as (db2 & Hdrop & Hoff & _); [reflexivity|].
  by exists db2.
Defined.

(** X7. [Enrollment.save] saves the offering before the row is inserted,
    each write on its own: when the insert is rejected because the student
    already has a row for the offering, the enrollments are unchanged but
    the offering's enrolled counter is one higher, so a counter that agreed
    with the active enrollments no longer does. *)
Theorem rejected_insert_raises_counter db user offering_id today offering pk e :
  reaches_prerequisites user offering_id today db offering ->
  check_prerequisites user
    (required_prerequisites (CourseOffering.course offering) db) db = None ->
  enrollments db !! pk = Some e ->
  enrolled_in user offering_id e ->
  (register_course user offering_id today db).1 = ServerError IntegrityError /\
  enrollments (register_course user offering_id today db).2 = enrollments db /\
  (CourseOffering.enrolled <$>
     offerings (register_course user offering_id today db).2 !! offering_id)
  = Some (CourseOffering.enrolled offering + 1) /\
  (counter_consistent db ->
   ~ counter_consistent (register_course user offering_id today db).2).
Proof.
  intros Hreach Hmet Hpk Hpair.
  rewrite (register_course_prerequisites db user offering_id today offering Hreach), Hmet.
  unfold Enrollment_create, Enrollment_save, Enrollment_super_save. simpl.
  match goal with |- context [exists_ ?rows] => destruct (exists_ rows) eqn:Hrow end.
  2:{ apply not_true_iff_false in Hrow. destruct Hrow.
      apply (uniqueness_check db (Enrollment.new user offering_id "registered")). eauto. }
  simpl. split_and!; [done|done|by rewrite lookup_insert_eq|].
  intros Hdb Hdb'. destruct Hreach as (Ho & _).
  specialize (Hdb offering_id offering Ho).
  specialize (Hdb' offering_id _ (lookup_insert_eq _ _ _)). simpl in Hdb'.
  unfold active_count in *. simpl in *. lia.
Qed.

Lemma rejected_insert_raises_counter_witness :
  (CourseOffering.enrolled <$>
     offerings (register_course 7 1 15 Sample.db_withdrawn).2 !! 1%nat)
  = Some (0 + 1).
Proof.
  apply (rejected_insert_raises_counter Sample.db_withdrawn 7 1 15
           (CourseOffering.mk 1 1 30 0 true) 1%nat
           (Enrollment.mk 7 1 EmptyString false "withdrawn" None)).
  - split_and!; try reflexivity.
    + unfold window_open. simpl. lia.
    + apply no_active_row_check. reflexivity.
  - reflexivity.
  - reflexivity.
  - split; reflexivity.
Defined.

(** X8. A student can drop only an enrollment of their own: [drop_course]
    answers 404 exactly when no enrollment with the given id belongs to the
    requesting student, be the id unknown or the row another student's, and
    then nothing is written. *)
Theorem drop_course_not_found db user enrollment_id today :
  ((drop_course user enrollment_id today db).1 = Http404 <->
   ~ exists e, enrollments db !! enrollment_id = Some e /\ Enrollment.student e = user) /\
  ((drop_course user enrollment_id today db).1 = Http404 ->
   (drop_course user enrollment_id today db).2 = db).
Proof.
  unfold drop_course.
  destruct (get_object_or_404 _ _ _) as [e|] eqn:Hget.
  - apply get_object_or_404_Some in Hget as [Hpk Hstudent].
    apply bool_decide_eq_true in Hstudent.
    destruct (offerings db !! Enrollment.course_offering e);
      [case_bool_decide|]; simpl; (split; [split; [done|]|done]);
      intros Hno; destruct Hno; eauto.
  - simpl. split; [|done]. split; [|done]. intros _ (e & Hpk & Hstudent).
    assert (Hsome : get_object_or_404 (enrollments db) enrollment_id
                      (fun e => bool_decide (Enrollment.student e = user)) = Some e).
    { apply get_object_or_404_Some. split; [done|]. by apply bool_decide_eq_true. }
    congruence.
Qed.

(** X9. [register_course] answers 404 exactly when the offering id is
    unknown or the offering is not active, whatever the date, the seats and
    the student's enrollments, and then nothing is written. *)
Theorem register_course_not_found db user offering_id today :
  ((register_course user offering_id today db).1 = Http404 <->
   ~ exists offering, offerings db !! offering_id = Some offering
                   /\ CourseOffering.is_active offering = true) /\
  ((register_course user offering_id today db).1 = Http404 ->
   (register_course user offering_id today db).2 = db).
Proof.
  destruct (register_course_effect db user offering_id today)
    as [[_ Hsame]|(offering & Hreach & _ & _ & _ & Hrows)].
  - split; [|done]. unfold register_course.
    destruct (get_object_or_404 _ _ _) as [offering|] eqn:Hget.
    + apply get_object_or_404_Some in Hget as [Ho Hactive].
      assert (Hfound : exists offering, offerings db !! offering_id = Some offering
                                     /\ CourseOffering.is_active offering = true) by eauto.
      repeat case_bool_decide; simpl; try (split; [done|by intros []]).
      destruct (CourseOffering.is_full offering); simpl; try (split; [done|by intros []]).
      destruct (exists_ _); simpl; try (split; [done|by intros []]).
      destruct (check_prerequisites _ _ _); simpl; try (split; [done|by intros []]).
      destruct (Enrollment_create _ _ _) as [[exc|] db']; simpl;
        (split; [done|by intros []]).
    + simpl. split; [|done]. intros _ (offering & Ho & Hactive).
      assert (Hsome : get_object_or_404 (offerings db) offering_id CourseOffering.is_active
                      = Some offering) by by apply get_object_or_404_Some.
      congruence.
  - destruct Hreach as (Ho & Hactive & _).
    assert (Hne : (register_course user offering_id today db).1 <> Http404).
    { destruct Hrows as [[-> _]|[-> _]]; done. }
    split; [|done]. split; [done|]. intros Hno. destruct Hno. eauto.
Qed.

(** X10. Against a letter grade as minimum grade, the prerequisite filter
    keeps, of the enrollments that are otherwise eligible and carry a
    declared grade, exactly those with that letter or a better one, and
    those with no grade yet: W, I and IP never pass, a worse letter never
    passes, the empty grade always does. *)
Theorem grade_threshold db user prereq e o n minimum_grade :
  (e, o) ∈ Enrollment_objects db ->
  Enrollment.student e = user ->
  CourseOffering.course o = CoursePrerequisite.prerequisite prereq ->
  Enrollment.status e = "completed" ->
  Enrollment.is_active e = true ->
  CoursePrerequisite.minimum_grade prereq = Some minimum_grade ->
  letter_grades !! n = Some minimum_grade ->
  Enrollment.grade e ∈ GRADE_CHOICES ->
  ((e, o) ∈ completed user prereq db <->
   Enrollment.grade e ∈ EmptyString :: take (S n) letter_grades).
Proof.
  intros Hin Hstudent Hcourse Hstatus Hactive Hmin Hletter Hgrade.
  rewrite elem_of_completed. unfold grade_meets. rewrite Hmin.
  transitivity (minimum_grade = EmptyString
                \/ String.leb (Enrollment.grade e) minimum_grade = true); [tauto|].
  clear Hin Hstudent Hcourse Hstatus Hactive Hmin.
  generalize dependent (Enrollment.grade e). intros g Hg.
  unfold letter_grades in *.
  destruct n as [|[|[|[|[|n]]]]]; simpl in Hletter; [..|done];
    injection Hletter as <-;
    unfold GRADE_CHOICES in Hg;
    repeat (apply elem_of_cons in Hg as [->|Hg]);
    try (by apply not_elem_of_nil in Hg);
    (split; intros H;
     first [ by (apply (bool_decide_unpack _); vm_compute)
           | by (apply (bool_decide_pack _) in H; vm_compute in H) ]).
Qed.

Lemma grade_threshold_witness :
  (Enrollment.mk 7 1 "B" true "completed" (Some 3), CourseOffering.mk 1 1 30 1 true)
    ∈ completed 7 (CoursePrerequisite.mk 2 1 true (Some "C")) Sample.db_progress
  <-> Enrollment.grade (Enrollment.mk 7 1 "B" true "completed" (Some 3))
        ∈ EmptyString :: take 3 letter_grades.
Proof.
  apply (grade_threshold Sample.db_progress 7 (CoursePrerequisite.mk 2 1 true (Some "C"))
           (Enrollment.mk 7 1 "B" true "completed" (Some 3))
           (CourseOffering.mk 1 1 30 1 true) 2 "C"); try reflexivity.
  - apply elem_of_Enrollment_objects. split; [by exists 1%nat|reflexivity].
  - apply (bool_decide_unpack _). by vm_compute.
Defined.

(** ** Saving a stored finance record again *)

Lemma filter_imap_except {A : Type} (P : A -> Prop) `{forall x, Decision (P x)}
    (k : nat) (l : list A) :
  forall j,
    (filter (fun ir : nat * A => P ir.2 /\ Some ir.1 <> Some k)
            (imap (fun i x => ((j + i)%nat, x)) l)).*2
    = filter P (if decide (j <= k)%nat then delete (k - j)%nat l else l).
Proof.
  induction l as [|x l IH]; intros j.
  - by destruct (decide _).
  - rewrite imap_cons.
    rewrite (imap_ext _ (fun i x => ((S j + i)%nat, x)) l)
      by (intros i y _; simpl; f_equal; lia).
    rewrite filter_cons. cbn [fst snd]. specialize (IH (S j)).
    destruct (decide (j <= k)%nat) as [Hle|Hgt].
    + destruct (decide (j = k)) as [->|Hne].
      * rewrite decide_False by (intros [_ Hk]; apply Hk; f_equal; lia).
        rewrite IH, decide_False by lia.
        by replace (k - k)%nat with 0%nat by lia.
      * rewrite decide_True in IH by lia.
        replace (k - j)%nat with (S (k - S j)) by lia. cbn [delete list_delete].
        rewrite (filter_cons P).
        destruct (decide (P x)) as [Hx|Hx].
        -- rewrite decide_True by (split; [done|intros [= ?]; lia]).
           rewrite fmap_cons. cbn [snd]. by rewrite IH.
        -- rewrite decide_False by tauto. done.
    + rewrite decide_False in IH by lia. rewrite (filter_cons P).
      destruct (decide (P x)) as [Hx|Hx].
      * rewrite decide_True by (split; [done|intros [= ?]; lia]).
        rewrite fmap_cons. cbn [snd]. by rewrite IH.
      * rewrite decide_False by tauto. done.
Qed.

Lemma previous_payments_stored k self db :
  previous_payments (Some k) self db =
  filter (fun r => FinanceRecord.student r = FinanceRecord.student self
                /\ FinanceRecord.program r = FinanceRecord.program self)
         (delete k (finance_records db)).
Proof.
  unfold previous_payments.
  pose proof (filter_imap_except
                (fun r => FinanceRecord.student r = FinanceRecord.student self
                       /\ FinanceRecord.program r = FinanceRecord.program self)
                k (finance_records db) 0) as Hexcept.
  rewrite decide_True in Hexcept by lia.
  replace (k - 0)%nat with k in Hexcept by lia. rewrite <- Hexcept.
  f_equal. apply list_filter_iff. intros [i r]. simpl. tauto.
Qed.

Lemma ledger_delete student program k r l :
  l !! k = Some r ->
  FinanceRecord.student r = student ->
  FinanceRecord.program r = Some program ->
  Zsum (signed_amount <$> ledger student program l)
  = Zsum (signed_amount <$> ledger student program (delete k l)) + signed_amount r.
Proof.
  intros Hk Hs Hp.
  rewrite <- (take_drop_middle l k r Hk) at 1.
  rewrite delete_take_drop.
  rewrite !ledger_app, ledger_cons, decide_True by done.
  rewrite !fmap_app, !Zsum_app, fmap_cons.
  change (Zsum (signed_amount r :: ?t)) with (signed_amount r + Zsum t). lia.
Qed.

(** X11. Saving a stored finance record again, unchanged, when what its
    student still owes for the program fits the balance column: the save
    succeeds and replaces the record's balance_after by the program fee
    minus the signed sum of all records of its student and program, those
    appended after it included; no other record is touched. When that
    amount does not fit, the save raises InvalidOperation and writes
    nothing. *)
Theorem FinanceRecord_resave db k stored program :
  finance_records db !! k = Some stored ->
  FinanceRecord.program stored = Some program ->
  FinanceRecord.transaction_type stored ∈ FinanceRecord.TRANSACTION_TYPES ->
  DecimalField_fits (FinanceRecord.amount stored) = true ->
  FinanceRecord_save (Some k) stored db =
  if DecimalField_fits (owed db (FinanceRecord.student stored) program (finance_records db))
  then
    (None,
     set_finance_records
       (<[k := FinanceRecord.set_balance_after
                 (Program.total_program_fee (programs db program)
                  - Zsum (signed_amount <$>
                            ledger (FinanceRecord.student stored) program
                                   (finance_records db)))
                 stored]> (finance_records db)) db)
  else (Some InvalidOperation, db).
Proof.
  intros Hk Hp Htype Hamount. unfold FinanceRecord_save. rewrite Hp.
  rewrite previous_payments_stored, Hp.
  fold (ledger (FinanceRecord.student stored) program (delete k (finance_records db))).
  unfold owed.
  rewrite (ledger_delete _ _ k stored (finance_records db) Hk eq_refl Hp).
  assert (Hsame :
    (let total_paid :=
       Zsum (signed_amount <$> ledger (FinanceRecord.student stored) program
                                 (delete k (finance_records db))) in
     if bool_decide (FinanceRecord.transaction_type stored ∈ ["payment"; "refund"])
     then total_paid + FinanceRecord.amount stored
     else if bool_decide (FinanceRecord.transaction_type stored ∈ ["fee"; "adjustment"])
     then total_paid - FinanceRecord.amount stored
     else total_paid)
    = Zsum (signed_amount <$> ledger (FinanceRecord.student stored) program
                                (delete k (finance_records db)))
      + signed_amount stored).
  { unfold FinanceRecord.TRANSACTION_TYPES, signed_amount in *.
    repeat (apply elem_of_cons in Htype as [Heq|Htype]); [..|by apply not_elem_of_nil in Htype];
      rewrite Heq; simpl; lia. }
  simpl in Hsame. rewrite Hsame. unfold FinanceRecord_super_save. simpl.
  rewrite Hamount. simpl. by destruct (DecimalField_fits _).
Qed.

Lemma FinanceRecord_resave_witness :
  FinanceRecord.balance_after
    <$> finance_records
          (FinanceRecord_save (Some 0%nat)
             (FinanceRecord.mk 7 (Some 1%nat) "payment" 50000 175000) Fixtures.db_ledger).2
  = [195000; 195000].
Proof.
  rewrite (FinanceRecord_resave Fixtures.db_ledger 0
             (FinanceRecord.mk 7 (Some 1%nat) "payment" 50000 175000) 1).
  - reflexivity.
  - reflexivity.
  - reflexivity.
  - apply (bool_decide_unpack _). by vm_compute.
  - reflexivity.
Defined.

(** X12. Two transactions appended one after the other for the same student
    and program, with amounts and balances that fit the decimal columns:
    both appends succeed, and the second balance_after is the first one
    minus the signed amount of the second transaction, so a payment or
    refund lowers the balance by its amount and a fee or adjustment raises
    it, whatever the ledger held before. *)
Theorem FinanceRecord_save_step db tx1 tx2 program :
  FinanceRecord.program tx1 = Some program ->
  FinanceRecord.program tx2 = Some program ->
  FinanceRecord.student tx1 = FinanceRecord.student tx2 ->
  FinanceRecord.transaction_type tx1 ∈ FinanceRecord.TRANSACTION_TYPES ->
  FinanceRecord.transaction_type tx2 ∈ FinanceRecord.TRANSACTION_TYPES ->
  storable db [tx1; tx2] ->
  exists balance1 balance2 db1 db2,
    FinanceRecord_save None tx1 db = (None, db1) /\
    FinanceRecord_save None tx2 db1 = (None, db2) /\
    finance_records db2
    = finance_records db ++ [FinanceRecord.set_balance_after balance1 tx1;
                             FinanceRecord.set_balance_after balance2 tx2] /\
    balance2 = balance1 - paid tx2.
Proof.
  intros Hp1 Hp2 Hs Ht1 Ht2 Hfit.
  destruct (storable_cons db tx1 [tx2] program Hp1 Hfit) as (Ha1 & Hb1 & Hfit1).
  rewrite (FinanceRecord_save_new tx1 db program Hp1 Ht1 Ha1 Hb1).
  set (balance1 := owed db (FinanceRecord.student tx1) program (finance_records db ++ [tx1])).
  set (db1 := set_finance_records _ db).
  destruct (storable_cons db1 tx2 [] program Hp2 (Hfit1 balance1)) as (Ha2 & Hb2 & _).
  eexists balance1, _, db1, _. split; [done|].
  split; [exact (FinanceRecord_save_new tx2 db1 program Hp2 Ht2 Ha2 Hb2)|].
  split; [simpl; by rewrite <- app_assoc|].
  unfold balance1, db1. simpl.
  change (owed (set_finance_records ?l db) ?s ?p ?r) with (owed db s p r).
  rewrite <- app_assoc. simpl. rewrite owed_set_balance_after.
  change (finance_records db ++ [tx1; tx2]) with (finance_records db ++ [tx1] ++ [tx2]).
  rewrite app_assoc.
  rewrite (owed_snoc db tx2 program (finance_records db ++ [tx1]) Hp2).
  rewrite <- Hs. rewrite (signed_amount_paid tx2 Ht2). unfold owed. lia.
Qed.

Lemma FinanceRecord_save_step_witness :
  exists balance1 balance2 db1 db2,
    FinanceRecord_save None Sample.payment Sample.db = (None, db1) /\
    FinanceRecord_save None Sample.fee db1 = (None, db2) /\
    finance_records db2
    = finance_records Sample.db ++ [FinanceRecord.set_balance_after balance1 Sample.payment;
                                    FinanceRecord.set_balance_after balance2 Sample.fee] /\
    balance2 = balance1 - paid Sample.fee.
Proof.
  apply (FinanceRecord_save_step Sample.db Sample.payment Sample.fee 1);
    try reflexivity; try (apply (bool_decide_unpack _); by vm_compute).
  apply sample_storable.
Defined.

(** ** Semester.save *)

Lemma filter_map_to_list {A : Type} (P : nat * A -> Prop) `{forall x, Decision (P x)}
    (m : gmap nat A) :
  filter P (map_to_list m) ≡ₚ map_to_list (filter P m).
Proof.
  apply NoDup_Permutation.
  - apply NoDup_filter, NoDup_map_to_list.
  - apply NoDup_map_to_list.
  - intros [k x]. rewrite list_elem_of_filter, !elem_of_map_to_list.
    rewrite map_lookup_filter_Some. tauto.
Qed.

Lemma filter_none {A : Type} (P : A -> Prop) `{forall x, Decision (P x)} (l : list A) :
  (forall x, x ∈ l -> ~ P x) -> filter P l = [].
Proof.
  intros Hnone. destruct (filter P l) as [|x rest] eqn:Hfilter; [done|].
  assert (Hx : x ∈ filter P l) by (rewrite Hfilter; left).
  apply list_elem_of_filter in Hx as [HP Hx]. destruct (Hnone x Hx HP).
Qed.

Section First.
Context {A : Type} (R : relation A) `{forall x y, Decision (R x y)}.

Lemma head_merge_sort_singleton (l : list A) x :
  l ≡ₚ [x] -> head (merge_sort R l) = Some x.
Proof.
  intros Hl. rewrite <- (merge_sort_Permutation R l) in Hl.
  apply Permutation_singleton_r in Hl. by rewrite Hl.
Qed.

Lemma head_merge_sort_nil (l : list A) :
  l = [] -> head (merge_sort R l) = None.
Proof. by intros ->. Qed.

Lemma head_merge_sort_elem_of (l : list A) x :
  head (merge_sort R l) = Some x -> x ∈ l.
Proof.
  intros Hhead. rewrite <- (merge_sort_Permutation R l).
  destruct (merge_sort R l); [done|]. injection Hhead as ->. left.
Qed.

Lemma head_merge_sort_None (l : list A) :
  head (merge_sort R l) = None -> l = [].
Proof.
  intros Hhead. apply Permutation_nil_r. rewrite <- (merge_sort_Permutation R l).
  by destruct (merge_sort R l).
Qed.
End First.

Lemma Semester_current_Some table k row :
  Semester_current table = Some (k, row) ->
  table !! k = Some row /\ SemesterRow.is_current row = true.
Proof.
  intros Hcur. apply head_merge_sort_elem_of in Hcur.
  apply list_elem_of_filter in Hcur as [Hc Hin]. by apply elem_of_map_to_list in Hin.
Qed.

Lemma Semester_current_None table :
  Semester_current table = None <->
  forall k row, table !! k = Some row -> SemesterRow.is_current row = false.
Proof.
  split.
  - intros Hcur k row Hk. apply head_merge_sort_None in Hcur.
    apply not_true_iff_false. intros Hc.
    assert (Hin : (k, row) ∈ filter (fun kr : nat * SemesterRow.t =>
                                        SemesterRow.is_current kr.2 = true)
                                     (map_to_list table)).
    { apply list_elem_of_filter. split; [done|]. by apply elem_of_map_to_list. }
    rewrite Hcur in Hin. by apply not_elem_of_nil in Hin.
  - intros Hnone. apply head_merge_sort_nil.
    apply filter_none. intros [k row] Hin.
    apply elem_of_map_to_list in Hin. simpl. rewrite (Hnone k row Hin). done.
Qed.

Lemma Semester_current_only table k row :
  table !! k = Some row ->
  SemesterRow.is_current row = true ->
  (forall k' row', table !! k' = Some row' -> SemesterRow.is_current row' = true -> k' = k) ->
  Semester_current table = Some (k, row).
Proof.
  intros Hk Hc Honly. apply head_merge_sort_singleton.
  rewrite filter_map_to_list.
  assert (Hmap : filter (fun kr : nat * SemesterRow.t => SemesterRow.is_current kr.2 = true)
                        table = {[k := row]}).
  { apply map_eq. intros k'. apply option_eq. intros row'.
    rewrite map_lookup_filter_Some, lookup_singleton_Some. simpl. split.
    - intros [Hk' Hc']. assert (k' = k) as -> by by apply (Honly k' row').
      split; [done|congruence].
    - intros [<- <-]. done. }
  rewrite Hmap. by rewrite map_to_list_singleton.
Qed.

Lemma Semester_clear_current_lookup table k row :
  Semester_clear_current table !! k = Some row -> SemesterRow.is_current row = false.
Proof.
  unfold Semester_clear_current. rewrite lookup_fmap.
  destruct (table !! k) as [r|]; simpl; [|done].
  intros [= <-]. by destruct (SemesterRow.is_current r) eqn:Hc.
Qed.

Lemma Semester_super_save_effect pk self table :
  Semester_super_save pk self table = (Some IntegrityError, table) \/
  Semester_super_save pk self table
  = (None, <[default (next_pk table) pk := self]> table).
Proof. unfold Semester_super_save. destruct (exists_ _); auto. Qed.

(** X13. Saving a semester marked as current leaves it the only current
    semester, whatever the table held before: when the save goes through,
    the saved row is stored, no other stored semester is current, and the
    lookup of the current semester returns the saved one. *)
Theorem Semester_save_current pk self table table' :
  SemesterRow.is_current self = true ->
  Semester_save pk self table = (None, table') ->
  exists key,
    table' !! key = Some self /\
    (forall k row, table' !! k = Some row -> SemesterRow.is_current row = true -> k = key) /\
    Semester_current table' = Some (key, self).
Proof.
  intros Hc Hsave. unfold Semester_save in Hsave. rewrite Hc in Hsave.
  destruct (Semester_super_save_effect pk self (Semester_clear_current table))
    as [Herr|Hok]; rewrite Hsave in *; [done|].
  injection Hok as ->.
  set (key := default (next_pk (Semester_clear_current table)) pk).
  assert (Honly : forall k row,
             <[key := self]> (Semester_clear_current table) !! k = Some row ->
             SemesterRow.is_current row = true -> k = key).
  { intros k row Hk Hrow. apply lookup_insert_Some in Hk as [[<- _]|[_ Hk]]; [done|].
    apply Semester_clear_current_lookup in Hk. congruence. }
  exists key. split; [apply lookup_insert_eq|]. split; [done|].
  apply Semester_current_only; [apply lookup_insert_eq|done|done].
Qed.

(** X14. [Semester.save] keeps the current semester unique: when at most
    one stored semester is current, at most one is after any save, of a
    current semester or not, accepted or rejected. *)
Theorem Semester_save_one_current pk self table :
  one_current table -> one_current (Semester_save pk self table).2.
Proof.
  intros Hone. unfold Semester_save.
  destruct (SemesterRow.is_current self) eqn:Hc.
  - destruct (Semester_super_save_effect pk self (Semester_clear_current table))
      as [->| ->]; simpl; intros k1 k2 r1 r2 H1 H2 Hc1 Hc2.
    + apply Semester_clear_current_lookup in H1. congruence.
    + apply lookup_insert_Some in H1 as [[<- _]|[_ H1]];
        [|apply Semester_clear_current_lookup in H1; congruence].
      apply lookup_insert_Some in H2 as [[<- _]|[_ H2]]; [done|].
      apply Semester_clear_current_lookup in H2. congruence.
  - destruct (Semester_super_save_effect pk self table) as [->| ->]; simpl; [done|].
    intros k1 k2 r1 r2 H1 H2 Hc1 Hc2.
    apply lookup_insert_Some in H1 as [[_ <-]|[_ H1]]; [congruence|].
    apply lookup_insert_Some in H2 as [[_ <-]|[_ H2]]; [congruence|].
    by apply (Hone k1 k2 r1 r2).
Qed.

(** X15. [Semester.save] resets the current semesters before it writes the
    row, each write on its own: when the row is rejected because another
    semester has its code, no stored semester is current any more and the
    lookup of the current semester finds none. *)
Theorem Semester_save_rejected pk self table k row :
  SemesterRow.is_current self = true ->
  table !! k = Some row ->
  SemesterRow.code row = SemesterRow.code self ->
  Some k <> pk ->
  Semester_save pk self table = (Some IntegrityError, Semester_clear_current table) /\
  Semester_current (Semester_save pk self table).2 = None.
Proof.
  intros Hc Hk Hcode Hpk. unfold Semester_save, Semester_super_save. rewrite Hc.
  match goal with |- context [exists_ ?rows] => destruct (exists_ rows) eqn:Hrow end.
  - split; [done|]. simpl. apply Semester_current_None.
    intros k' row'. apply Semester_clear_current_lookup.
  - apply not_true_iff_false in Hrow. destruct Hrow. apply exists_true.
    exists (k, if SemesterRow.is_current row then SemesterRow.set_is_current false row
               else row).
    apply list_elem_of_filter. split.
    + simpl. split; [|done]. by destruct (SemesterRow.is_current row).
    + apply elem_of_map_to_list. unfold Semester_clear_current.
      by rewrite lookup_fmap, Hk.
Qed.

Lemma Semester_save_current_witness :
  exists key,
    (Semester_save (Some 2%nat) (SemesterRow.mk "S2026" 200 true (Semester.mk 210 220 230))
       Fixtures.semester_table).2 !! key
    = Some (SemesterRow.mk "S2026" 200 true (Semester.mk 210 220 230)) /\
    (forall k row,
       (Semester_save (Some 2%nat) (SemesterRow.mk "S2026" 200 true (Semester.mk 210 220 230))
          Fixtures.semester_table).2 !! k = Some row ->
       SemesterRow.is_current row = true -> k = key) /\
    Semester_current
      (Semester_save (Some 2%nat) (SemesterRow.mk "S2026" 200 true (Semester.mk 210 220 230))
         Fixtures.semester_table).2
    = Some (key, SemesterRow.mk "S2026" 200 true (Semester.mk 210 220 230)).
Proof.
  apply (Semester_save_current (Some 2%nat)
           (SemesterRow.mk "S2026" 200 true (Semester.mk 210 220 230))
           Fixtures.semester_table); reflexivity.
Defined.

Lemma Semester_save_one_current_witness :
  one_current
    (Semester_save None (SemesterRow.mk "F2026" 400 true (Semester.mk 410 420 430))
       Fixtures.semester_table).2.
Proof.
  apply (Semester_save_one_current None
           (SemesterRow.mk "F2026" 400 true (Semester.mk 410 420 430))
           Fixtures.semester_table).
  intros k1 k2 r1 r2 H1 H2 Hc1 Hc2. cbv [Fixtures.semester_table] in H1, H2.
  apply lookup_insert_Some in H1 as [[<- _]|[_ H1]];
    apply lookup_insert_Some in H2 as [[<- _]|[_ H2]]; try done.
  - apply lookup_singleton_Some in H2 as [_ <-]. discriminate Hc2.
  - apply lookup_singleton_Some in H1 as [_ <-]. discriminate Hc1.
  - apply lookup_singleton_Some in H1 as [_ <-]. discriminate Hc1.
Defined.

Lemma Semester_save_rejected_witness :
  Semester_current
    (Semester_save None (SemesterRow.mk "F2025" 400 true (Semester.mk 410 420 430))
       Fixtures.semester_table).2
  = None.
Proof.
  apply (Semester_save_rejected None
           (SemesterRow.mk "F2025" 400 true (Semester.mk 410 420 430))
           Fixtures.semester_table 1 (SemesterRow.mk "F2025" 0 true Sample.semester));
    try reflexivity. discriminate.
Defined.

(** ** The registration page *)

(** What is known when [course_registration] shows the page. *)
Lemma course_registration_Page user today semester_table program_enrollments db
    sid pe available enrolled :
  course_registration user today semester_table program_enrollments db
  = Page sid pe available enrolled ->
  exists current,
    semester_table !! sid = Some current /\
    SemesterRow.is_current current = true /\
    Semester.registration_start (SemesterRow.calendar current) <= today /\
    today <= Semester.registration_end (SemesterRow.calendar current) /\
    available = filter (fun ko : nat * CourseOffering.t =>
                          CourseOffering.semester ko.2 = sid
                          /\ CourseOffering.is_active ko.2 = true) (offerings db) /\
    enrolled = (fun eo : Enrollment.t * CourseOffering.t => Enrollment.course_offering eo.1)
                 <$> filter (fun eo : Enrollment.t * CourseOffering.t =>
                               Enrollment.student eo.1 = user
                               /\ CourseOffering.semester eo.2 = sid
                               /\ Enrollment.is_active eo.1 = true)
                            (Enrollment_objects db).
Proof.
  unfold course_registration.
  destruct (Semester_current semester_table) as [[k current]|] eqn:Hcur; [|done].
  apply Semester_current_Some in Hcur as [Hk Hc].
  case_bool_decide as Hstart; [done|]. case_bool_decide as Hend; [done|].
  destruct (ProgramEnrollment_first_active _ _) as [[p row]|]; [|done].
  intros [= <- <- <- <-]. exists current. split_and!; [done|done|lia|lia|done|done].
Qed.

(** X16. An offering that the registration page lists can be registered
    for on the day the page is shown: when the semester's registration ends
    no later than its add/drop deadline, [register_course] for a listed
    offering answers neither 404 nor that the window is closed. *)
Theorem listed_offering_registers user today semester_table program_enrollments db
    sid pe available enrolled offering_id offering :
  calendar_of semester_table db ->
  course_registration user today semester_table program_enrollments db
  = Page sid pe available enrolled ->
  available !! offering_id = Some offering ->
  Semester.registration_end (semesters db sid)
  <= Semester.add_drop_deadline (semesters db sid) ->
  (register_course user offering_id today db).1 <> Http404 /\
  (register_course user offering_id today db).1 <> RegistrationWindowClosed.
Proof.
  intros Hcal Hpage Hlisted Hdates.
  apply course_registration_Page in Hpage
    as (current & Hsid & _ & Hstart & Hend & -> & _).
  apply map_lookup_filter_Some in Hlisted as (Ho & Hsem & Hactive). simpl in *.
  rewrite (Hcal sid current Hsid) in Hdates.
  unfold register_course.
  assert (Hget : get_object_or_404 (offerings db) offering_id CourseOffering.is_active
                 = Some offering) by by apply get_object_or_404_Some.
  rewrite Hget, Hsem, (Hcal sid current Hsid).
  rewrite bool_decide_eq_false_2 by lia. rewrite bool_decide_eq_false_2 by lia.
  destruct (CourseOffering.is_full offering); [done|].
  destruct (exists_ _); [done|].
  destruct (check_prerequisites _ _ _); [done|].
  by destruct (Enrollment_create _ _ _) as [[e|] db'].
Qed.

Lemma fixtures_calendar_of : calendar_of Fixtures.semester_table Fixtures.db.
Proof.
  intros k row Hk. cbv [Fixtures.semester_table] in Hk.
  apply lookup_insert_Some in Hk as [[<- <-]|[_ Hk]]; [reflexivity|].
  by apply lookup_singleton_Some in Hk as [<- <-].
Qed.

Lemma listed_offering_registers_witness :
  (register_course 7 2 15 Fixtures.db).1 <> Http404 /\
  (register_course 7 2 15 Fixtures.db).1 <> RegistrationWindowClosed.
Proof.
  apply (listed_offering_registers 7 15 Fixtures.semester_table
           Fixtures.program_enrollments Fixtures.db 1 1 Fixtures.available_offerings
           [1%nat] 2 (CourseOffering.mk 2 1 1 0 true)).
  - exact fixtures_calendar_of.
  - reflexivity.
  - reflexivity.
  - simpl. lia.
Defined.

(** X17. The page and the registration do not close on the same day: after
    the semester's registration end and up to its add/drop deadline, the
    registration page answers that the registration period has ended, while
    [register_course] for an active offering of that semester with a free
    seat, by a student with no row for it and the prerequisites met, still
    succeeds. *)
Theorem late_registration user today semester_table program_enrollments db
    sid current offering_id offering :
  calendar_of semester_table db ->
  Semester_current semester_table = Some (sid, current) ->
  offerings db !! offering_id = Some offering ->
  CourseOffering.semester offering = sid ->
  CourseOffering.is_active offering = true ->
  Semester.registration_start (SemesterRow.calendar current) <= today ->
  Semester.registration_end (SemesterRow.calendar current) < today ->
  today <= Semester.add_drop_deadline (SemesterRow.calendar current) ->
  CourseOffering.enrolled offering < CourseOffering.capacity offering ->
  (forall pk e, enrollments db !! pk = Some e -> ~ enrolled_in user offering_id e) ->
  (forall p, p ∈ required_prerequisites (CourseOffering.course offering) db ->
             ~ unmet user db p) ->
  course_registration user today semester_table program_enrollments db = RegistrationEnded /\
  exists db', register_course user offering_id today db = (Success, db').
Proof.
  intros Hcal Hcur Ho Hsem Hactive Hstart Hend Hdeadline Hseats Hnone Hmet. split.
  - unfold course_registration. rewrite Hcur.
    rewrite bool_decide_eq_false_2 by lia. by rewrite bool_decide_eq_true_2 by lia.
  - apply Semester_current_Some in Hcur as [Hsid _].
    rewrite (register_course_prerequisites db user offering_id today offering).
    + apply check_prerequisites_None in Hmet. rewrite Hmet.
      rewrite Enrollment_create_new by done. by eexists.
    + split_and!; [done|done| |done|by apply no_row_no_active_row].
      unfold window_open. rewrite Hsem, (Hcal sid current Hsid). lia.
Qed.

Lemma late_registration_witness :
  course_registration 8 25 Fixtures.semester_table Fixtures.program_enrollments Fixtures.db
  = RegistrationEnded /\
  exists db', register_course 8 1 25 Fixtures.db = (Success, db').
Proof.
  apply (late_registration 8 25 Fixtures.semester_table Fixtures.program_enrollments
           Fixtures.db 1 (SemesterRow.mk "F2025" 0 true Sample.semester) 1
           (CourseOffering.mk 1 1 30 1 true)); try reflexivity.
  - exact fixtures_calendar_of.
  - simpl. lia.
  - simpl. lia.
  - apply no_row_check. reflexivity.
  - apply check_prerequisites_None. reflexivity.
Defined.

(** X18. The offerings that the registration page marks as enrolled are
    those of the current semester in which the student has an active
    enrollment, and registering for a marked offering never succeeds and
    writes nothing. *)
Theorem enrolled_courses_marked user today semester_table program_enrollments db
    sid pe available enrolled offering_id today' :
  course_registration user today semester_table program_enrollments db
  = Page sid pe available enrolled ->
  (offering_id ∈ enrolled <->
   exists pk e offering,
     enrollments db !! pk = Some e /\
     enrolled_in user offering_id e /\
     Enrollment.is_active e = true /\
     offerings db !! offering_id = Some offering /\
     CourseOffering.semester offering = sid) /\
  (offering_id ∈ enrolled ->
   (register_course user offering_id today' db).1 <> Success /\
   (register_course user offering_id today' db).2 = db).
Proof.
  intros Hpage.
  apply course_registration_Page in Hpage as (current & _ & _ & _ & _ & _ & ->).
  assert (Hmarked :
    offering_id ∈ (fun eo : Enrollment.t * CourseOffering.t => Enrollment.course_offering eo.1)
                    <$> filter (fun eo : Enrollment.t * CourseOffering.t =>
                                  Enrollment.student eo.1 = user
                                  /\ CourseOffering.semester eo.2 = sid
                                  /\ Enrollment.is_active eo.1 = true)
                               (Enrollment_objects db)
    <-> exists pk e offering,
          enrollments db !! pk = Some e /\
          enrolled_in user offering_id e /\
          Enrollment.is_active e = true /\
          offerings db !! offering_id = Some offering /\
          CourseOffering.semester offering = sid).
  { rewrite list_elem_of_fmap. split.
    - intros [[e o] [-> Hin]]. apply list_elem_of_filter in Hin as [(Hs & Hsem & Hact) Hin].
      apply elem_of_Enrollment_objects in Hin as [[pk Hpk] Ho]. simpl in *.
      exists pk, e, o. by split_and!.
    - intros (pk & e & o & Hpk & [Hs Hoid] & Hact & Ho & Hsem).
      exists (e, o). split; [done|]. apply list_elem_of_filter. split; [done|].
      apply elem_of_Enrollment_objects. split; [eauto|]. by rewrite Hoid. }
  split; [exact Hmarked|]. intros Hin.
  apply Hmarked in Hin as (pk & e & o & Hpk & Hpair & Hact & _).
  destruct (register_course_effect db user offering_id today')
    as [Hsame|(offering & Hreach & _)]; [done|].
  destruct Hreach as (_ & _ & _ & _ & Hdup).
  rewrite (Hdup pk e Hpk Hpair) in Hact. done.
Qed.

Lemma enrolled_courses_marked_witness :
  (register_course 7 1 16 Fixtures.db).1 <> Success /\
  (register_course 7 1 16 Fixtures.db).2 = Fixtures.db.
Proof.
  apply (enrolled_courses_marked 7 15 Fixtures.semester_table Fixtures.program_enrollments
           Fixtures.db 1 1 Fixtures.available_offerings [1%nat] 1 16).
  - reflexivity.
  - left.
Defined.

(** X19. The registration status that the admin shows for the current
    semester agrees with the registration page: not started exactly when
    the page announces the opening day, closed exactly when the page says
    the period has ended, open exactly when the page goes on to the
    student's program enrollment. *)
Theorem registration_status_page user today semester_table program_enrollments db
    sid current :
  Semester_current semester_table = Some (sid, current) ->
  (registration_status today (SemesterRow.calendar current) = RegistrationNotStarted <->
   course_registration user today semester_table program_enrollments db
   = RegistrationOpensOn (Semester.registration_start (SemesterRow.calendar current))) /\
  (registration_status today (SemesterRow.calendar current) = RegistrationClosed <->
   course_registration user today semester_table program_enrollments db
   = RegistrationEnded) /\
  (registration_status today (SemesterRow.calendar current) = RegistrationOpen <->
   course_registration user today semester_table program_enrollments db
   = NotEnrolledInProgram
   \/ exists pe available enrolled,
        course_registration user today semester_table program_enrollments db
        = Page sid pe available enrolled).
Proof.
  intros Hcur. unfold registration_status, course_registration. rewrite Hcur.
  case_bool_decide as Hstart.
  - split_and!; split; try done. intros [?|(? & ? & ? & ?)]; done.
  - case_bool_decide as Hopen.
    + rewrite bool_decide_eq_false_2 by lia.
      destruct (ProgramEnrollment_first_active _ _) as [[pe row]|];
        split_and!; split; try done; eauto.
    + rewrite bool_decide_eq_true_2 by lia.
      split_and!; split; try done. intros [?|(? & ? & ? & ?)]; done.
Qed.

Lemma registration_status_page_witness :
  registration_status 25 Sample.semester = RegistrationClosed <->
  course_registration 7 25 Fixtures.semester_table Fixtures.program_enrollments Fixtures.db
  = RegistrationEnded.
Proof.
  apply (registration_status_page 7 25 Fixtures.semester_table Fixtures.program_enrollments
           Fixtures.db 1 (SemesterRow.mk "F2025" 0 true Sample.semester)).
  reflexivity.
Defined.

(** ** program_enrollment_view *)

Lemma program_pair_check user program_id (table : gmap nat ProgramEnrollmentRow.t) :
  exists_ (filter (fun r => ProgramEnrollmentRow.student r = user
                         /\ ProgramEnrollmentRow.program r = program_id)
                  (objects table)) = true
  <-> exists pk r, table !! pk = Some r
                /\ ProgramEnrollmentRow.student r = user
                /\ ProgramEnrollmentRow.program r = program_id.
Proof.
  rewrite exists_true. split.
  - intros [r Hr]. apply list_elem_of_filter in Hr as [[Hs Hp] Hr].
    apply elem_of_objects in Hr as [pk Hpk]. by exists pk, r.
  - intros (pk & r & Hpk & Hs & Hp). exists r. apply list_elem_of_filter.
    split; [done|]. apply elem_of_objects. eauto.
Qed.

Lemma program_active_pair_check user program_id (table : gmap nat ProgramEnrollmentRow.t) :
  exists_ (filter (fun r => ProgramEnrollmentRow.student r = user
                         /\ ProgramEnrollmentRow.program r = program_id
                         /\ ProgramEnrollmentRow.is_active r = true)
                  (objects table)) = true
  <-> exists pk r, table !! pk = Some r
                /\ ProgramEnrollmentRow.student r = user
                /\ ProgramEnrollmentRow.program r = program_id
                /\ ProgramEnrollmentRow.is_active r = true.
Proof.
  rewrite exists_true. split.
  - intros [r Hr]. apply list_elem_of_filter in Hr as [(Hs & Hp & Ha) Hr].
    apply elem_of_objects in Hr as [pk Hpk]. by exists pk, r.
  - intros (pk & r & Hpk & Hs & Hp & Ha). exists r. apply list_elem_of_filter.
    split; [done|]. apply elem_of_objects. eauto.
Qed.

(** The graduation date of the view is computed when today and the result
    are dates, and raises OverflowError otherwise. *)
Lemma expected_graduation_date today duration :
  is_date today ->
  match timedelta (duration * 6 * 30) with
  | inl e => inl e
  | inr delta => date_add today delta
  end
  = if bool_decide (is_date (today + 180 * duration))
    then inr (today + 180 * duration) else inl OverflowError.
Proof.
  unfold is_date, timedelta, date_add, MAXORDINAL. intros Htoday.
  repeat case_bool_decide; try done; try lia; f_equal; lia.
Qed.

(** Every way a POST to [program_enrollment_view] can end. *)
Lemma program_enrollment_view_POST user program_id today program_table table :
  is_date today ->
  (program_enrollment_view POST user program_id today program_table table
   = (ProgramNotFound, table) /\
   ~ exists program, program_table !! program_id = Some program
                  /\ ProgramRow.is_active program = true) \/
  (program_enrollment_view POST user program_id today program_table table
   = (AlreadyEnrolled, table) /\
   exists pk r, table !! pk = Some r
             /\ ProgramEnrollmentRow.student r = user
             /\ ProgramEnrollmentRow.program r = program_id
             /\ ProgramEnrollmentRow.is_active r = true) \/
  (program_enrollment_view POST user program_id today program_table table
   = (EnrollmentError OverflowError, table) /\
   exists program, program_table !! program_id = Some program
                /\ ProgramRow.is_active program = true
                /\ ~ is_date (today + 180 * Program.duration (ProgramRow.program program))) \/
  (program_enrollment_view POST user program_id today program_table table
   = (EnrollmentError IntegrityError, table) /\
   (exists program, program_table !! program_id = Some program
                 /\ ProgramRow.is_active program = true
                 /\ is_date (today + 180 * Program.duration (ProgramRow.program program))) /\
   (exists pk r, table !! pk = Some r
              /\ ProgramEnrollmentRow.student r = user
              /\ ProgramEnrollmentRow.program r = program_id) /\
   ~ (exists pk r, table !! pk = Some r
                /\ ProgramEnrollmentRow.student r = user
                /\ ProgramEnrollmentRow.program r = program_id
                /\ ProgramEnrollmentRow.is_active r = true)) \/
  (exists program,
     program_table !! program_id = Some program /\
     ProgramRow.is_active program = true /\
     is_date (today + 180 * Program.duration (ProgramRow.program program)) /\
     (forall pk r, table !! pk = Some r ->
                   ~ (ProgramEnrollmentRow.student r = user
                      /\ ProgramEnrollmentRow.program r = program_id)) /\
     program_enrollment_view POST user program_id today program_table table
     = (Enrolled,
        <[next_pk table :=
            ProgramEnrollmentRow.new user program_id
              (today + 180 * Program.duration (ProgramRow.program program)) today]>
          table)).
Proof.
  intros Htoday. unfold program_enrollment_view.
  destruct (get_object_or_404 _ _ _) as [program|] eqn:Hget.
  - apply get_object_or_404_Some in Hget as [Hp Hactive].
    destruct (exists_ _) eqn:Hdup.
    + right. left. split; [done|]. by apply program_active_pair_check.
    + pose proof (expected_graduation_date today
                    (Program.duration (ProgramRow.program program)) Htoday) as Hdate.
      destruct (timedelta _) as [e|delta].
      * case_bool_decide as Hrange; [done|]. injection Hdate as ->.
        right. right. left. split; [done|]. by exists program.
      * rewrite Hdate. case_bool_decide as Hrange.
        -- unfold ProgramEnrollment_create. simpl.
           match goal with |- context [exists_ ?rows] => destruct (exists_ rows) eqn:Hrow end.
           ++ right. right. right. left. split; [done|]. split; [by exists program|].
              split; [by apply program_pair_check|].
              rewrite <- program_active_pair_check, Hdup. done.
           ++ right. right. right. right. exists program. split_and!; [done|done|done| |done].
              intros pk r Hpk [Hs Hpr]. apply not_true_iff_false in Hrow. apply Hrow.
              apply program_pair_check. eauto.
        -- right. right. left. split; [done|]. by exists program.
  - left. split; [done|]. intros (program & Hp & Hactive).
    assert (Hsome : get_object_or_404 program_table program_id ProgramRow.is_active
                    = Some program) by by apply get_object_or_404_Some.
    congruence.
Qed.

Lemma current_students_count_insert program_id (table : gmap nat ProgramEnrollmentRow.t)
    pk row :
  table !! pk = None ->
  Program_current_students_count program_id (<[pk := row]> table)
  = ((if decide (ProgramEnrollmentRow.program row = program_id
                 /\ ProgramEnrollmentRow.is_active row = true) then 1 else 0)
     + Program_current_students_count program_id table)%nat.
Proof.
  intros Hpk. unfold Program_current_students_count.
  rewrite (objects_insert_fresh _ _ _ Hpk).
  destruct (decide _) as [Hrow|Hrow];
    [rewrite filter_cons_True by exact Hrow|rewrite filter_cons_False by exact Hrow]; done.
Qed.

(** X20. Enrolling in a program: for an active program in which the student
    has no enrollment row, when today and the day 180 days per semester of
    the program later are dates of the calendar, the POST succeeds and adds
    one row, active, with status active, dated today and expected to
    graduate on that later day; the program's count of current students
    grows by one and the count of every other program is unchanged. *)
Theorem program_enrollment_view_enrolls user program_id today program_table table program :
  program_table !! program_id = Some program ->
  ProgramRow.is_active program = true ->
  is_date today ->
  is_date (today + 180 * Program.duration (ProgramRow.program program)) ->
  (forall pk r, table !! pk = Some r ->
                ~ (ProgramEnrollmentRow.student r = user
                   /\ ProgramEnrollmentRow.program r = program_id)) ->
  exists pk row,
    table !! pk = None /\
    program_enrollment_view POST user program_id today program_table table
    = (Enrolled, <[pk := row]> table) /\
    ProgramEnrollmentRow.student row = user /\
    ProgramEnrollmentRow.program row = program_id /\
    ProgramEnrollmentRow.is_active row = true /\
    ProgramEnrollmentRow.status row = "active" /\
    ProgramEnrollmentRow.enrollment_date row = today /\
    ProgramEnrollmentRow.expected_graduation row
    = today + 180 * Program.duration (ProgramRow.program program) /\
    forall other,
      Program_current_students_count other (<[pk := row]> table)
      = ((if decide (other = program_id) then 1 else 0)
         + Program_current_students_count other table)%nat.
Proof.
  intros Hp Hactive Htoday Hrange Hnone.
  destruct (program_enrollment_view_POST user program_id today program_table table Htoday)
    as [[_ Hno]|[[_ Hdup]|[[_ Hover]|[(_ & _ & Hrow & _)
       |(program' & Hp' & _ & _ & _ & Hview)]]]].
  - destruct Hno. eauto.
  - destruct Hdup as (pk & r & Hpk & Hs & Hpr & _). destruct (Hnone pk r Hpk). done.
  - destruct Hover as (program' & Hp' & _ & Hout).
    assert (program' = program) as -> by congruence. done.
  - destruct Hrow as (pk & r & Hpk & Hs & Hpr). destruct (Hnone pk r Hpk). done.
  - assert (program' = program) as -> by congruence.
    eexists _, _. split; [apply next_pk_fresh|]. split; [exact Hview|].
    simpl. split_and!; try done.
    intros other. rewrite current_students_count_insert by apply next_pk_fresh.
    simpl. destruct (decide (other = program_id)) as [->|Hne].
    + by rewrite decide_True.
    + rewrite decide_False; [done|]. intros [Heq _]. done.
Qed.

Lemma program_enrollment_view_enrolls_witness :
  exists pk row,
    Fixtures.program_enrollments !! pk = None /\
    program_enrollment_view POST 9 1 15 Fixtures.program_table Fixtures.program_enrollments
    = (Enrolled, <[pk := row]> Fixtures.program_enrollments) /\
    ProgramEnrollmentRow.expected_graduation row = 15 + 180 * 2.
Proof.
  destruct (program_enrollment_view_enrolls 9 1 15 Fixtures.program_table
              Fixtures.program_enrollments (ProgramRow.mk Sample.program true))
    as (pk & row & Hpk & Hview & _ & _ & _ & _ & _ & Hdate & _).
  - reflexivity.
  - reflexivity.
  - unfold is_date, MAXORDINAL. lia.
  - unfold is_date, MAXORDINAL. simpl. lia.
  - intros pk r Hpk [Hs Hp].
    assert (Hex : exists_ (filter (fun r => ProgramEnrollmentRow.student r = 9%nat
                                         /\ ProgramEnrollmentRow.program r = 1%nat)
                                  (objects Fixtures.program_enrollments)) = true).
    { apply program_pair_check. eauto. }
    discriminate Hex.
  - by exists pk, row.
Defined.

(** X21. Posting the enrollment twice enrolls once: after a successful
    POST, a further POST by the student for the same program, the same day
    or later, answers that the student is already enrolled and writes
    nothing. *)
Theorem program_enrollment_view_twice user program_id today program_table table table' today' :
  program_enrollment_view POST user program_id today program_table table = (Enrolled, table') ->
  program_enrollment_view POST user program_id today' program_table table'
  = (AlreadyEnrolled, table').
Proof.
  intros Hfirst. unfold program_enrollment_view in *.
  destruct (get_object_or_404 _ _ _) as [program|]; [|done].
  match type of Hfirst with context [exists_ ?rows] => destruct (exists_ rows) end; [done|].
  destruct (timedelta _) as [e|delta]; [done|].
  destruct (date_add today delta) as [e|expected_graduation]; [done|].
  unfold ProgramEnrollment_create in Hfirst.
  match type of Hfirst with context [exists_ ?rows] => destruct (exists_ rows) end; [done|].
  injection Hfirst as <-.
  match goal with |- context [exists_ ?rows] => destruct (exists_ rows) eqn:Hrow end; [done|].
  apply not_true_iff_false in Hrow. destruct Hrow. apply program_active_pair_check.
  eexists _, _. split; [apply lookup_insert_eq|]. done.
Qed.

Lemma program_enrollment_view_twice_witness :
  program_enrollment_view POST 9 1 40 Fixtures.program_table
    (program_enrollment_view POST 9 1 15 Fixtures.program_table Fixtures.program_enrollments).2
  = (AlreadyEnrolled,
     (program_enrollment_view POST 9 1 15 Fixtures.program_table
        Fixtures.program_enrollments).2).
Proof.
  apply (program_enrollment_view_twice 9 1 15 Fixtures.program_table
           Fixtures.program_enrollments _ 40).
  reflexivity.
Defined.

(** X22. A program enrollment that is no longer active blocks a new one:
    for an active program in which the student has a row but no active
    row, when today and the expected graduation day are dates of the
    calendar, the POST passes the view's own check and is rejected by the
    uniqueness of (student, program); nothing is written. *)
Theorem program_enrollment_view_rejected user program_id today program_table table
    program pk row :
  program_table !! program_id = Some program ->
  ProgramRow.is_active program = true ->
  is_date today ->
  is_date (today + 180 * Program.duration (ProgramRow.program program)) ->
  table !! pk = Some row ->
  ProgramEnrollmentRow.student row = user ->
  ProgramEnrollmentRow.program row = program_id ->
  (forall pk' r, table !! pk' = Some r ->
                 ProgramEnrollmentRow.student r = user ->
                 ProgramEnrollmentRow.program r = program_id ->
                 ProgramEnrollmentRow.is_active r = false) ->
  program_enrollment_view POST user program_id today program_table table
  = (EnrollmentError IntegrityError, table).
Proof.
  intros Hp Hactive Htoday Hrange Hpk Hs Hpr Hinactive.
  destruct (program_enrollment_view_POST user program_id today program_table table Htoday)
    as [[_ Hno]|[[_ Hdup]|[[_ Hover]|[[Hview _]|(_ & _ & _ & _ & Hnone & _)]]]].
  - destruct Hno. eauto.
  - destruct Hdup as (pk' & r & Hpk' & Hs' & Hpr' & Hact).
    rewrite (Hinactive pk' r Hpk' Hs' Hpr') in Hact. done.
  - destruct Hover as (program' & Hp' & _ & Hout).
    assert (program' = program) as -> by congruence. done.
  - done.
  - destruct (Hnone pk row Hpk). done.
Qed.

Lemma program_enrollment_view_rejected_witness :
  program_enrollment_view POST 8 1 15 Fixtures.program_table Fixtures.program_enrollments
  = (EnrollmentError IntegrityError, Fixtures.program_enrollments).
Proof.
  apply (program_enrollment_view_rejected 8 1 15 Fixtures.program_table
           Fixtures.program_enrollments (ProgramRow.mk Sample.program true) 2
           (ProgramEnrollmentRow.mk (ProgramEnrollment.mk 8 1) 0 360 false "withdrawn" 1));
    try reflexivity; try (unfold is_date, MAXORDINAL; simpl; lia).
  intros pk r Hpk Hs Hp. cbv [Fixtures.program_enrollments] in Hpk.
  apply lookup_insert_Some in Hpk as [[_ <-]|[_ Hpk]]; [discriminate Hs|].
  by apply lookup_singleton_Some in Hpk as [_ <-].
Defined.

(** A duration outside what a date can be reached with ends the POST with
    OverflowError, before anything is written. *)
Example program_enrollment_view_overflow :
  let table := <[3%nat := ProgramRow.mk (Program.mk 50000 120 100000 5000 10000 0) true]>
                 Fixtures.program_table in
  program_enrollment_view POST 9 3 739000 table Fixtures.program_enrollments
  = (EnrollmentError OverflowError, Fixtures.program_enrollments).
Proof. reflexivity. Qed.

(** ** Counts and displays *)

(** X23. The admin shows the seats of an offering in red exactly when the
    offering is full, and a registration for an offering shown in red never
    succeeds and writes nothing. *)
Theorem available_seats_display_red db user offering_id today obj :
  offerings db !! offering_id = Some obj ->
  (available_seats_display obj = "red" <-> CourseOffering.is_full obj = true) /\
  (available_seats_display obj = "red" ->
   (register_course user offering_id today db).1 <> Success /\
   (register_course user offering_id today db).2 = db).
Proof.
  intros Ho.
  assert (Hred : available_seats_display obj = "red" <-> CourseOffering.is_full obj = true).
  { rewrite is_full_spec. unfold available_seats_display, CourseOffering.available_seats.
    repeat case_bool_decide; split; (done || lia). }
  split; [exact Hred|]. intros Hdisplay. apply Hred, is_full_spec in Hdisplay.
  destruct (register_course_effect db user offering_id today)
    as [Hsame|(offering & Hreach & _)]; [done|].
  destruct Hreach as (Ho' & _ & _ & Hseats & _).
  assert (offering = obj) as -> by congruence. lia.
Qed.

Lemma available_seats_display_red_witness :
  (register_course 8 2 15 Sample.db_full).1 <> Success /\
  (register_course 8 2 15 Sample.db_full).2 = Sample.db_full.
Proof.
  apply (available_seats_display_red Sample.db_full 8 2 15 (CourseOffering.mk 2 1 1 1 true));
    reflexivity.
Defined.

(** X24. The admin shows the progress of a program enrollment in red when
    the program's total_credits is zero or negative. When the total is
    positive and the completed credits reach it, the progress is never
    shown in orange or red: it is shown in green, unless the quotient is
    too large for a float and the true division raises OverflowError, which
    takes 2^1023 completed credits or more. *)
Theorem progress_display_ends (obj : ProgramEnrollment.t) db :
  (Program.total_credits (programs db (ProgramEnrollment.program obj)) <= 0 ->
   progress_display obj db = inr "red") /\
  (0 < Program.total_credits (programs db (ProgramEnrollment.program obj)) ->
   Program.total_credits (programs db (ProgramEnrollment.program obj))
   <= ProgramEnrollment_credits_completed obj db ->
   (progress_display obj db = inr "green" \/ progress_display obj db = inl OverflowError) /\
   (ProgramEnrollment_credits_completed obj db < 2 ^ 1023 ->
    progress_display obj db = inr "green")).
Proof.
  unfold progress_display, ProgramEnrollment_progress_percentage.
  set (total := Program.total_credits (programs db (ProgramEnrollment.program obj))).
  set (done_ := ProgramEnrollment_credits_completed obj db).
  split.
  - intros Hzero. by rewrite bool_decide_eq_false_2 by lia.
  - intros Hpos Hall. rewrite bool_decide_eq_true_2 by lia.
    assert (Hlog : Z.log2 total <= Z.log2 done_) by by apply Z.log2_le_mono.
    destruct (percentage_error done_ total)
      as (m1 & e1 & m2 & e2 & Hdiv & Hmul & Hm1 & Hm2 & Herr1 & Herr2); [lia..|].
    pose proof (quotient_ge_1 done_ total Hpos Hall) as Hx.
    set (x := (inject_Z done_ / inject_Z total)%Q) in *.
    match goal with |- (?r = inr "green" \/ _) /\ _ => set (result := r) end.
    assert (Hgreen : e1 <= 971 -> result = inr "green").
    { intros He1. apply Z.leb_le in He1. unfold result. rewrite Hdiv, He1, Hmul.
      destruct (e2 <=? 971); [|reflexivity].
      assert (H80 : Number_ge (Float (S754_finite false m2 e2)) 80 = true); [|by rewrite H80].
      unfold Number_ge.
      change (float_of_int 80) with (S754_finite false 5629499534213120 (-46)).
      apply SFleb_value; [done|lia|].
      apply Qabs_Qle_condition in Herr2.
      change (1 # 2 ^ 50)%Q with (1 # 1125899906842624)%Q in Herr2.
      change (2 ^ (-46))%Q with (/ (70368744177664 # 1))%Q.
      change (inject_Z 5629499534213120) with (5629499534213120 # 1)%Q.
      set (V2 := (inject_Z (Z.pos m2) * 2 ^ e2)%Q) in *.
      setoid_replace ((5629499534213120 # 1) * / (70368744177664 # 1))%Q with 80%Q
        using relation Qeq by reflexivity.
      lra. }
    split.
    + destruct (decide (e1 <= 971)) as [He1|He1]; [left; by apply Hgreen|right].
      assert (Hover : (e1 <=? 971) = false) by (apply Z.leb_gt; lia).
      unfold result. by rewrite Hdiv, Hover.
    + intros Hbound. apply Hgreen. apply (exponent_in_range m1); [lia|].
      assert (Hsmall : (x < inject_Z (2 ^ 1023))%Q).
      { eapply Qle_lt_trans; [apply quotient_le; lia|]. by rewrite <- Zlt_Qlt. }
      assert (Hdouble : (2 ^ 1024 == 2 * inject_Z (2 ^ 1023))%Q) by reflexivity.
      rewrite Hdouble.
      apply Qabs_Qle_condition in Herr1.
      change (1 # 2 ^ 52)%Q with (1 # 4503599627370496)%Q in Herr1.
      set (V1 := (inject_Z (Z.pos m1) * 2 ^ e1)%Q) in *.
      set (P := inject_Z (2 ^ 1023)) in *. lra.
Qed.

Lemma progress_display_ends_witness :
  progress_display (ProgramEnrollment.mk 7 1) Sample.db_progress = inr "red" /\
  progress_display (ProgramEnrollment.mk 7 1) Fixtures.db_complete = inr "green".
Proof.
  split.
  - apply (progress_display_ends (ProgramEnrollment.mk 7 1) Sample.db_progress).
    simpl. lia.
  - apply (progress_display_ends (ProgramEnrollment.mk 7 1) Fixtures.db_complete).
    + simpl. lia.
    + replace (ProgramEnrollment_credits_completed (ProgramEnrollment.mk 7 1)
                 Fixtures.db_complete) with 3 by reflexivity.
      simpl. lia.
    + replace (ProgramEnrollment_credits_completed (ProgramEnrollment.mk 7 1)
                 Fixtures.db_complete) with 3 by reflexivity.
      done.
Defined.

Lemma sum_list_with_zero {A : Type} (f : A -> nat) (l : list A) :
  (forall x, x ∈ l -> f x = 0%nat) -> sum_list_with f l = 0%nat.
Proof.
  induction l as [|x l IH]; intros Hzero; [done|]. simpl.
  rewrite (Hzero x) by left. rewrite IH; [done|]. intros y Hy. apply Hzero. by right.
Qed.

Lemma sum_list_with_ext {A : Type} (f g : A -> nat) (l : list A) :
  (forall x, x ∈ l -> f x = g x) -> sum_list_with f l = sum_list_with g l.
Proof.
  induction l as [|x l IH]; intros Hext; [done|]. simpl.
  rewrite (Hext x) by left. rewrite IH; [done|]. intros y Hy. apply Hext. by right.
Qed.

Lemma sum_list_with_plus {A : Type} (f g : A -> nat) (l : list A) :
  sum_list_with (fun x => (f x + g x)%nat) l
  = (sum_list_with f l + sum_list_with g l)%nat.
Proof. induction l as [|x l IH]; simpl; lia. Qed.

(** A sum over the rows of a table that is zero off one key is the term of
    the row stored under that key. *)
Lemma sum_at_key {A : Type} (m : gmap nat A) (k : nat) (g : A -> nat) :
  sum_list_with (fun kv : nat * A => if decide (kv.1 = k) then g kv.2 else 0%nat)
                (map_to_list m)
  = match m !! k with Some v => g v | None => 0%nat end.
Proof.
  destruct (m !! k) as [v|] eqn:Hk.
  - rewrite <- (map_to_list_delete m k v Hk). simpl. rewrite decide_True by done.
    rewrite sum_list_with_zero; [lia|]. intros [k' v'] Hin.
    apply elem_of_map_to_list, lookup_delete_Some in Hin as [Hne _].
    simpl. by rewrite decide_False.
  - apply sum_list_with_zero. intros [k' v'] Hin. apply elem_of_map_to_list in Hin.
    simpl. rewrite decide_False; [done|]. intros ->. congruence.
Qed.

Lemma Course_enrolled_students_count_sum course_id db :
  Course_enrolled_students_count course_id db
  = sum_list_with (counts_for_course course_id db) (objects (enrollments db)).
Proof.
  unfold Course_enrolled_students_count, Enrollment_objects.
  induction (objects (enrollments db)) as [|e rows IH]; [done|].
  cbn [omap list_omap sum_list_with]. fold (@omap list _). unfold counts_for_course at 1.
  destruct (offerings db !! Enrollment.course_offering e) as [o|];
    cbn [mbind option_bind]; [|rewrite <- IH; reflexivity].
  rewrite filter_cons. cbn [fst snd].
  rewrite <- IH. by destruct (decide _).
Qed.

Lemma offerings_of_course_sum course_id db (rows : list Enrollment.t) :
  sum_list_with
    (fun ko : nat * CourseOffering.t =>
       if decide (CourseOffering.course ko.2 = course_id)
       then length (filter (fun e => Enrollment.is_active e = true
                                  /\ Enrollment.course_offering e = ko.1) rows)
       else 0%nat)
    (map_to_list (offerings db))
  = sum_list_with (counts_for_course course_id db) rows.
Proof.
  induction rows as [|e rows IH].
  - simpl. apply sum_list_with_zero. intros ko _. by destruct (decide _).
  - cbn [sum_list_with]. rewrite <- IH. unfold counts_for_course.
    rewrite <- (sum_at_key (offerings db) (Enrollment.course_offering e)
                  (fun o => if decide (CourseOffering.course o = course_id
                                       /\ Enrollment.is_active e = true)
                            then 1%nat else 0%nat)).
    rewrite <- sum_list_with_plus. apply sum_list_with_ext. intros [k o] _. simpl.
    rewrite filter_cons.
    destruct (decide (CourseOffering.course o = course_id)) as [Hc|Hc].
    + destruct (decide (Enrollment.course_offering e = k)) as [Hk|Hk].
      * destruct (decide (Enrollment.is_active e = true)) as [Ha|Ha].
        -- rewrite decide_True by done. rewrite (decide_True (P := k = _)) by done.
           by rewrite decide_True.
        -- rewrite decide_False by tauto. rewrite (decide_True (P := k = _)) by done.
           by rewrite decide_False by tauto.
      * rewrite decide_False by tauto. by rewrite (decide_False (P := k = _)) by done.
    + destruct (decide (k = Enrollment.course_offering e)); [|done].
      by rewrite decide_False by tauto.
Qed.

(** X25. When the enrolled counters agree with the active enrollments, the
    number of enrolled students that the admin shows for a course is the
    sum of the enrolled counters of the offerings of that course. *)
Theorem Course_enrolled_students_count_offerings course_id db :
  counter_consistent db ->
  Z.of_nat (Course_enrolled_students_count course_id db)
  = Zsum (CourseOffering.enrolled
            <$> filter (fun o => CourseOffering.course o = course_id)
                       (objects (offerings db))).
Proof.
  intros Hdb. rewrite Course_enrolled_students_count_sum, <- offerings_of_course_sum.
  unfold objects.
  assert (Hrows : forall k o, (k, o) ∈ map_to_list (offerings db) ->
                    CourseOffering.enrolled o = active_count k db).
  { intros k o Hin. apply elem_of_map_to_list in Hin. by apply Hdb. }
  induction (map_to_list (offerings db)) as [|[k o] rest IH]; [done|].
  rewrite fmap_cons, filter_cons. simpl.
  rewrite Nat2Z.inj_add, IH by (intros k' o' Hin; apply Hrows; by right).
  destruct (decide (CourseOffering.course o = course_id)) as [Hc|Hc].
  - rewrite fmap_cons. change (Zsum (?x :: ?t)) with (x + Zsum t).
    rewrite (Hrows k o) by left. done.
  - simpl. lia.
Qed.

Lemma Course_enrolled_students_count_offerings_witness :
  Z.of_nat (Course_enrolled_students_count 2 Sample.db_full)
  = Zsum (CourseOffering.enrolled
            <$> filter (fun o => CourseOffering.course o = 2%nat)
                       (objects (offerings Sample.db_full))).
Proof.
  apply (Course_enrolled_students_count_offerings 2 Sample.db_full).
  change (map_Forall (fun oid o => CourseOffering.enrolled o = active_count oid Sample.db_full)
                     (offerings Sample.db_full)).
  apply map_Forall_to_list.
  replace (map_to_list (offerings Sample.db_full))
    with [(2%nat, CourseOffering.mk 2 1 1 1 true); (1%nat, CourseOffering.mk 1 1 30 1 true)]
    by reflexivity.
  repeat apply Forall_cons_2; try done.
Defined.

(** ** The student's course pages *)

Lemma filter_filter_and {A : Type} (P Q : A -> Prop) `{forall x, Decision (P x)}
    `{forall x, Decision (Q x)} (l : list A) :
  filter P (filter Q l) = filter (fun x => Q x /\ P x) l.
Proof.
  induction l as [|x l IH]; [done|]. rewrite !filter_cons.
  destruct (decide (Q x)) as [HQ|HQ].
  - rewrite filter_cons. destruct (decide (P x)) as [HP|HP].
    + rewrite decide_True by done. by rewrite IH.
    + rewrite decide_False by tauto. done.
  - rewrite decide_False by tauto. done.
Qed.

(** X26. The courses page splits the student's active enrollments in two:
    each is listed once, as current or as past, and the number of current
    ones is the count that the dashboard shows, with or without a current
    semester. *)
Theorem student_courses_split user semester_table db :
  current_enrollments (student_courses user semester_table db)
    ++ past_enrollments (student_courses user semester_table db)
  ≡ₚ filter (fun eo : Enrollment.t * CourseOffering.t =>
               Enrollment.student eo.1 = user /\ Enrollment.is_active eo.1 = true)
            (Enrollment_objects db) /\
  length (current_enrollments (student_courses user semester_table db))
  = DashboardView_current_courses_count user semester_table db.
Proof.
  unfold student_courses, DashboardView_current_courses_count. simpl. split.
  - apply filter_app_complement.
  - destruct (Semester_current semester_table) as [[sid row]|]; simpl.
    + rewrite filter_filter_and. f_equal. apply list_filter_iff. intros [e o]. simpl.
      split.
      * intros [[? ?] [= ->]]. done.
      * intros (? & -> & ?). done.
    + rewrite filter_none; [done|]. intros eo _. done.
Qed.

(** ** Saving a stored enrollment *)

(** X27. [Enrollment.save] counts inserts only: saving a stored enrollment
    with its active flag changed, as the admin's editable list does, writes
    the row and leaves every offering as it is, so the number of active
    enrollments of the offering moves by one while its enrolled counter
    stays, and a counter that agreed with the rows no longer does. *)
Theorem Enrollment_save_stored db pk e offering b :
  enrollments db !! pk = Some e ->
  Enrollment.is_active e = negb b ->
  offerings db !! Enrollment.course_offering e = Some offering ->
  exists db',
    Enrollment_save (Some pk) (Enrollment_set_is_active b e) offering db = (None, db') /\
    offerings db' = offerings db /\
    enrollments db' = <[pk := Enrollment_set_is_active b e]> (enrollments db) /\
    active_count (Enrollment.course_offering e) db'
    = active_count (Enrollment.course_offering e) db + (if b then 1 else -1) /\
    (counter_consistent db -> ~ counter_consistent db').
Proof.
  intros Hpk Hactive Ho. eexists. split.
  { unfold Enrollment_save, Enrollment_super_save.
    rewrite (bool_decide_eq_false_2 (Some pk = None)) by done.
    rewrite andb_false_r. reflexivity. }
  simpl. split; [done|]. split; [done|].
  assert (Hcount :
    active_count (Enrollment.course_offering e)
      (set_enrollments (<[pk := Enrollment_set_is_active b e]> (enrollments db)) db)
    = active_count (Enrollment.course_offering e) db + (if b then 1 else -1)).
  { rewrite (active_count_insert_stored _ db _ pk e (Enrollment_set_is_active b e))
      by done.
    simpl. destruct b; simpl in Hactive.
    - rewrite decide_False by (intros [? _]; congruence).
      rewrite decide_True by done. lia.
    - rewrite decide_True by done.
      rewrite decide_False by (intros [? _]; done). lia. }
  split; [exact Hcount|].
  intros Hdb Hdb'. specialize (Hdb _ _ Ho). specialize (Hdb' _ _ Ho).
  rewrite Hcount in Hdb'. destruct b; lia.
Qed.

Lemma Enrollment_save_stored_witness :
  exists db',
    Enrollment_save (Some 1%nat)
      (Enrollment_set_is_active true (Enrollment.mk 7 1 EmptyString false "withdrawn" None))
      (CourseOffering.mk 1 1 30 0 true) Sample.db_withdrawn = (None, db') /\
    offerings db' = offerings Sample.db_withdrawn.
Proof.
  destruct (Enrollment_save_stored Sample.db_withdrawn 1
              (Enrollment.mk 7 1 EmptyString false "withdrawn" None)
              (CourseOffering.mk 1 1 30 0 true) true)
    as (db' & Hsave & Hoff & _); [reflexivity..|].
  by exists db'.
Defined.

Lemma drop_course_not_found_witness :
  (drop_course 8 1 15 Sample.db).2 = Sample.db.
Proof. apply (drop_course_not_found Sample.db 8 1 15). reflexivity. Defined.

Lemma register_course_not_found_witness :
  (register_course 7 3 15 Sample.db).2 = Sample.db.
Proof. apply (register_course_not_found Sample.db 7 3 15). reflexivity. Defined.
